(** * Productivity Management API: the credential gate, the task query
      builder and the task handlers of the Express application, embedded
      over a model of the relational datastore they talk to. *)

From Stdlib Require Import ZArith List Bool Lia Permutation.
From Stdlib Require Import Strings.Ascii Strings.String.
From Stdlib Require Import Numbers.DecimalString Numbers.DecimalNat.
From Stdlib Require Import Numbers.DecimalFacts.
Import ListNotations.
Open Scope string_scope.
Open Scope Z_scope.

(* ===================================================================== *)
(** * JavaScript values used by the handlers *)
(* ===================================================================== *)

Module JS.

(** A header, query or body field is a string or [undefined]
    ([None]).  JavaScript truthiness on such a value: [undefined] and
    the empty string are falsy. *)
Definition truthy (v : option string) : bool :=
  match v with
  | None => false
  | Some s => negb (s =? "")%string
  end.

(** [s.split(sep)] for a one-character separator: every occurrence of
    the separator ends a segment, empty segments are kept, and the
    empty string splits into one empty segment. *)
Fixpoint split (sep : ascii) (s : string) : list string :=
  match s with
  | EmptyString => [EmptyString]
  | String c s' =>
      if Ascii.eqb c sep then EmptyString :: split sep s'
      else match split sep s' with
           | [] => [String c EmptyString]
           | w :: ws => String c w :: ws
           end
  end.

(** The values the handlers put in a parameter array. *)
Inductive value : Type :=
| Undefined
| Num (z : Z)
| Str (s : string).

Definition of_field (v : option string) : value :=
  match v with
  | Some s => Str s
  | None => Undefined
  end.

(** Template literal [`${n}`] of a non-negative counter. *)
Definition num_to_string (n : nat) : string :=
  NilEmpty.string_of_uint (Nat.to_uint n).

(** Template literal [`${v}`] of a field. *)
Definition template (v : option string) : string :=
  match v with
  | Some s => s
  | None => "undefined"
  end.

(** The longest run of decimal digits that starts a string, as a
    number ([None] when there is no digit), and the text after it. *)
Fixpoint digits (acc : option nat) (s : string) : option nat * string :=
  match s with
  | EmptyString => (acc, EmptyString)
  | String c s' =>
      let n := nat_of_ascii c in
      if ((48 <=? n) && (n <=? 57))%nat then
        digits (Some (10 * match acc with Some a => a | None => 0 end
                      + (n - 48))%nat) s'
      else (acc, s)
  end.

(** [parseInt(s)] on the unsigned decimal strings the datastore
    returns for a count; [None] is NaN. *)
Definition parseInt (s : string) : option nat := fst (digits None s).

End JS.

(* ===================================================================== *)
(** * Responses *)
(* ===================================================================== *)

(** Errors the datastore raises for the statements of this program; a
    handler forwards them as [err.message] in a 500 response. *)
Inductive db_error : Type :=
| InvalidInteger (input : string)
| InvalidTimestamp (input : string)
| InvalidByteSequence
| SyntaxError (text : string)
| UndefinedColumn (name : string)
| UndefinedOperator (name : string)
| ParameterMismatch (supplied required : nat)
| ForeignKeyViolation (user : Z).

Inductive result (A : Type) : Type :=
| Ok (a : A)
| Err (e : db_error).
Arguments Ok {A} a.
Arguments Err {A} e.

Definition bind {A B : Type} (r : result A) (k : A -> result B) : result B :=
  match r with
  | Ok a => k a
  | Err e => Err e
  end.

Notation "x <- r ;; k" := (bind r (fun x => k))
  (at level 61, r at next level, right associativity).

(* ===================================================================== *)
(** * Session tokens (jsonwebtoken) *)
(* ===================================================================== *)

(** The claims a token of this program carries: the payload
    [{ user_id }] that login signs, plus the issue and expiry times (in
    seconds) that the library adds. *)
Module Claims.
Record t : Type := mk {
  user_id : Z;
  iat : Z;
  exp : Z
}.
End Claims.

Module Jwt.

(** Modelled from the spec: the time-span strings of the [ms] package
    that [expiresIn] accepts, in seconds: a decimal count followed by
    one of the units s, m, h and d.  The package is a dependency and
    not part of the sources. *)
Definition timespan (s : string) : option Z :=
  match JS.digits None s with
  | (Some n, unit) =>
      if (unit =? "s")%string then Some (Z.of_nat n)
      else if (unit =? "m")%string then Some (Z.of_nat n * 60)
      else if (unit =? "h")%string then Some (Z.of_nat n * 3600)
      else if (unit =? "d")%string then Some (Z.of_nat n * 86400)
      else None
  | (None, _) => None
  end.

Section Codec.
(** The signed compact serialisation is the library's business: an
    encoder under a secret, and a decoder that fails on a malformed
    string or a signature that does not verify under the secret. *)
Variable encode : Claims.t -> string -> string.
Variable decode : string -> string -> option Claims.t.

(** Modelled from the spec: [jwt.sign(payload, secret, { expiresIn })]
    of the jsonwebtoken dependency stamps [iat] with the current time
    in seconds and [exp] with [iat] plus the time span; it throws on
    a time span it cannot read. *)
Definition sign (uid : Z) (secret expiresIn : string) (now : Z)
  : option string :=
  match timespan expiresIn with
  | Some d => Some (encode (Claims.mk uid now (now + d)) secret)
  | None => None
  end.

(** Modelled from the spec: [jwt.verify(token, secret, callback)] of
    the jsonwebtoken dependency: one error outcome for a token that
    does not decode under the secret or whose expiry is not after
    the current time, the decoded payload otherwise. *)
Definition verify (token secret : string) (now : Z) : option Claims.t :=
  match decode token secret with
  | None => None
  | Some c => if Claims.exp c <=? now then None else Some c
  end.
End Codec.

End Jwt.

(* ===================================================================== *)
(** * The credential gate *)
(* ===================================================================== *)

(** What the middleware does with a request: answer with a bare status
    ([res.sendStatus]) or call [next()] with [req.user] set. *)
Inductive gate : Type :=
| SendStatus (code : nat)
| Next (user : Claims.t).

(** [authHeader && authHeader.split(' ')[1]] *)
Definition header_token (authHeader : option string) : option string :=
  if JS.truthy authHeader then
    match authHeader with
    | Some h => nth_error (JS.split " " h) 1
    | None => None
    end
  else authHeader.

Section Gate.
Variable decode : string -> string -> option Claims.t.
Variable JWT_SECRET : string.

Definition authenticateToken (authHeader : option string) (now : Z) : gate :=
  let token := header_token authHeader in
  if negb (JS.truthy token) then SendStatus 401
  else
    match token with
    | Some tok =>
        match Jwt.verify decode tok JWT_SECRET now with
        | None => SendStatus 403
        | Some user => Next user
        end
    | None => SendStatus 401
    end.
End Gate.

(* ===================================================================== *)
(** * The datastore *)
(* ===================================================================== *)

(** The datastore is PostgreSQL behind [db.query(text, params)]; it is a
    collaborator, not part of the sources.  This part gives the tables
    and the meaning of the statements that the handlers send, with SQL's
    three-valued conditions and its LIKE patterns. *)

(** Modelled from the spec: the [users] table.  The only DDL in the
    sources (the bootstrap route) names other columns than the queries
    use, so the row follows the columns the queries name.  The
    specification makes the email unique and says no more, so name and
    email may be NULL ([None]). *)
Module Users.
Record row : Type := mk {
  user_id : Z;
  name : option string;
  email : option string;
  password : string
}.
End Users.

(** Modelled from the spec: the [tasks] table, by the columns the queries
    name and the data model of the specification: a task has a status
    that defaults to "Pending", which no statement of the handlers can
    turn into NULL; title, description, priority and deadline may be
    NULL ([None]). *)
Module Tasks.
Record row : Type := mk {
  task_id : Z;
  user_id : Z;
  title : option string;
  description : option string;
  priority : option string;
  status : string;
  deadline : option Z;
  created_at : Z;
  updated_at : Z
}.
End Tasks.

(** The stored state: the two tables and the sequence behind [task_id]. *)
Record db : Type := mkDb {
  users : list Users.row;
  tasks : list Tasks.row;
  tasks_seq : Z
}.

(** ** Pattern matching of LIKE and ILIKE *)

Module Like.

(** Text reaches the datastore as UTF-8: a character is one byte, or a
    leading byte followed by continuation bytes (those from 128 to
    191). *)
Definition continuation (c : ascii) : bool :=
  let n := nat_of_ascii c in
  ((128 <=? n) && (n <=? 191))%nat.

Fixpoint skip_continuation (s : string) : string :=
  match s with
  | EmptyString => EmptyString
  | String c s' => if continuation c then skip_continuation s' else s
  end.

(** [s LIKE p]: [%] stands for any run of characters, [_] for any one
    character (its first byte and the continuation bytes after it), a
    backslash makes the next pattern character literal.  A pattern that
    ends in a lone backslash is an error in the datastore; no pattern of
    this program does (each ends in [%]), and the model answers [false]
    there. *)
Fixpoint like (p s : string) {struct p} : bool :=
  match p with
  | EmptyString =>
      match s with EmptyString => true | String _ _ => false end
  | String c p' =>
      if Ascii.eqb c "%" then
        (fix any (s : string) : bool :=
           like p' s ||
           match s with
           | EmptyString => false
           | String _ s' => any s'
           end) s
      else if Ascii.eqb c "_" then
        match s with
        | EmptyString => false
        | String _ s' => like p' (skip_continuation s')
        end
      else if Ascii.eqb c "\" then
        match p' with
        | EmptyString => false
        | String e p'' =>
            match s with
            | EmptyString => false
            | String d s' => Ascii.eqb e d && like p'' s'
            end
        end
      else
        match s with
        | EmptyString => false
        | String d s' => Ascii.eqb c d && like p' s'
        end
  end.

(** Case folding of the letters A to Z, which every character type
    shares. *)
Definition lower_char (c : ascii) : ascii :=
  let n := nat_of_ascii c in
  if ((65 <=? n) && (n <=? 90))%nat then ascii_of_nat (n + 32) else c.

Fixpoint lower (s : string) : string :=
  match s with
  | EmptyString => EmptyString
  | String c s' => String (lower_char c) (lower s')
  end.

Section Folding.
(** What the character type of the database folds beyond the letters A
    to Z (accented letters, other scripts) is the database's own. *)
Variable fold : string -> string.

(** [s ILIKE p]: LIKE up to the case of letters. *)
Definition ilike (p s : string) : bool :=
  like (fold (lower p)) (fold (lower s)).
End Folding.

(** Plain substring test, the reading of a search as "contains". *)
Fixpoint contains (w s : string) : bool :=
  prefix w s ||
  match s with
  | EmptyString => false
  | String _ s' => contains w s'
  end.

Definition wildcard (c : ascii) : bool :=
  Ascii.eqb c "%" || Ascii.eqb c "_" || Ascii.eqb c "\".

Fixpoint plain (s : string) : bool :=
  match s with
  | EmptyString => true
  | String c s' => negb (wildcard c) && plain s'
  end.

End Like.

(** ** The statements the handlers issue *)

Module Pg.

(** SQL truth values: [None] is unknown (a NULL operand). *)
Definition tri : Type := option bool.

Definition or3 (a b : tri) : tri :=
  match a, b with
  | Some true, _ | _, Some true => Some true
  | Some false, Some false => Some false
  | _, _ => None
  end.

(** A WHERE clause keeps the rows on which it is true. *)
Definition holds (a : tri) : bool :=
  match a with
  | Some true => true
  | _ => false
  end.

Inductive coltype : Type := TInt | TText | TTime.

Inductive cell : Type :=
| Null
| Int (z : Z)
| Text (s : string)
| Time (t : Z).

Definition of_text (v : option string) : cell :=
  match v with Some s => Text s | None => Null end.

Definition of_time (v : option Z) : cell :=
  match v with Some t => Time t | None => Null end.

(** The columns of [tasks] by name. *)
Definition column (name : string) : option (coltype * (Tasks.row -> cell)) :=
  if (name =? "task_id")%string then Some (TInt, fun r => Int (Tasks.task_id r))
  else if (name =? "user_id")%string then Some (TInt, fun r => Int (Tasks.user_id r))
  else if (name =? "title")%string then Some (TText, fun r => of_text (Tasks.title r))
  else if (name =? "description")%string then
    Some (TText, fun r => of_text (Tasks.description r))
  else if (name =? "priority")%string then
    Some (TText, fun r => of_text (Tasks.priority r))
  else if (name =? "status")%string then Some (TText, fun r => Text (Tasks.status r))
  else if (name =? "deadline")%string then
    Some (TTime, fun r => of_time (Tasks.deadline r))
  else if (name =? "created_at")%string then
    Some (TTime, fun r => Time (Tasks.created_at r))
  else if (name =? "updated_at")%string then
    Some (TTime, fun r => Time (Tasks.updated_at r))
  else None.

Definition cell_eq (a b : cell) : tri :=
  match a, b with
  | Int x, Int y => Some (x =? y)
  | Text x, Text y => Some (x =? y)%string
  | Time x, Time y => Some (x =? y)
  | _, _ => None
  end.

(** Text that the datastore accepts: no character U+0000. *)
Fixpoint valid_text (s : string) : bool :=
  match s with
  | EmptyString => true
  | String c s' => negb (Ascii.eqb c Ascii.zero) && valid_text s'
  end.

Definition check_text (s : string) : result string :=
  if valid_text s then Ok s else Err InvalidByteSequence.

(** The text parameters of a statement, any of which may be NULL: the
    first that the datastore refuses fails the statement. *)
Fixpoint check_all (vs : list (option string)) : result unit :=
  match vs with
  | [] => Ok tt
  | None :: vs' => check_all vs'
  | Some s :: vs' => _ <- check_text s ;; check_all vs'
  end.

(** *** The text of a query *)

(** The conditions of a WHERE clause, with the positions of their
    placeholders. *)
Inductive atom : Type :=
| Eq (col : string) (idx : nat)
| IlikeOr (col1 : string) (idx1 : nat) (col2 : string) (idx2 : nat).

Fixpoint strip (p s : string) : option string :=
  match p with
  | EmptyString => Some s
  | String c p' =>
      match s with
      | EmptyString => None
      | String d s' => if Ascii.eqb c d then strip p' s' else None
      end
  end.

Definition ident_char (c : ascii) : bool :=
  let n := nat_of_ascii c in
  (((97 <=? n) && (n <=? 122)) || (n =? 95))%nat.

Fixpoint ident (s : string) : string * string :=
  match s with
  | EmptyString => (EmptyString, EmptyString)
  | String c s' =>
      if ident_char c then let (w, r) := ident s' in (String c w, r)
      else (EmptyString, s)
  end.

Definition opt_bind {A B : Type} (o : option A) (k : A -> option B) : option B :=
  match o with Some a => k a | None => None end.

(** A column name, an operator (its text up to and including the dollar
    sign of the placeholder) and the placeholder's number, with the text
    left after them. *)
Definition comparison (op : string) (s : string)
  : option (string * nat * string) :=
  let (col, s1) := ident s in
  if (col =? "")%string then None
  else
    opt_bind (strip op s1) (fun s2 =>
    match JS.digits None s2 with
    | (Some n, s3) => Some (col, n, s3)
    | (None, _) => None
    end).

Definition parse_atom (s : string) : option (atom * string) :=
  match strip "(" s with
  | Some s1 =>
      opt_bind (comparison " ILIKE $" s1) (fun '(c1, i1, s2) =>
      opt_bind (strip " OR " s2) (fun s3 =>
      opt_bind (comparison " ILIKE $" s3) (fun '(c2, i2, s4) =>
      opt_bind (strip ")" s4) (fun s5 =>
      Some (IlikeOr c1 i1 c2 i2, s5)))))
  | None =>
      opt_bind (comparison " = $" s) (fun '(c, i, s1) => Some (Eq c i, s1))
  end.

Fixpoint parse_conj (fuel : nat) (s : string) : option (list atom) :=
  match fuel with
  | O => None
  | S fuel' =>
      opt_bind (parse_atom s) (fun '(a, rest) =>
      if (rest =? "")%string then Some [a]
      else
        opt_bind (strip " AND " rest) (fun rest' =>
        option_map (cons a) (parse_conj fuel' rest')))
  end.

(** The reads over [tasks] that the datastore is asked for:
    [SELECT * FROM tasks WHERE c1 AND ... AND cn]. *)
Definition parse_select (text : string) : option (list atom) :=
  opt_bind (strip "SELECT * FROM tasks WHERE " text)
           (parse_conj (String.length text)).

Definition atom_max (a : atom) : nat :=
  match a with
  | Eq _ i => i
  | IlikeOr _ i _ j => Nat.max i j
  end.

Definition required (conds : list atom) : nat :=
  fold_right (fun a m => Nat.max (atom_max a) m) 0%nat conds.

Section Input.
(** The case folding of the character type and the readings of a
    parameter as an integer and as a timestamp are the datastore's own;
    the readings refuse what they cannot read. *)
Variable fold : string -> string.
Variable int4in : string -> option Z.
Variable timestamptz_in : string -> option Z.

Definition cell_ilike (a pattern : cell) : tri :=
  match a, pattern with
  | Text s, Text p => Some (Like.ilike fold p s)
  | _, _ => None
  end.

Definition to_int (s : string) : result Z :=
  match int4in s with
  | Some z => Ok z
  | None => Err (InvalidInteger s)
  end.

Definition to_time (s : string) : result Z :=
  match timestamptz_in s with
  | Some t => Ok t
  | None => Err (InvalidTimestamp s)
  end.

Definition decimal (z : Z) : string :=
  NilZero.string_of_int (Z.to_int z).

(** A bound parameter read at the type of the column it meets;
    [undefined] is sent as NULL. *)
Definition bind_param (ty : coltype) (v : JS.value) : result cell :=
  match v with
  | JS.Undefined => Ok Null
  | JS.Num z =>
      match ty with
      | TInt => Ok (Int z)
      | TText => Ok (Text (decimal z))
      | TTime => t <- to_time (decimal z) ;; Ok (Time t)
      end
  | JS.Str s =>
      match ty with
      | TInt => z <- to_int s ;; Ok (Int z)
      | TText => t <- check_text s ;; Ok (Text t)
      | TTime => t <- to_time s ;; Ok (Time t)
      end
  end.

Definition lookup_column (name : string)
  : result (coltype * (Tasks.row -> cell)) :=
  match column name with
  | Some c => Ok c
  | None => Err (UndefinedColumn name)
  end.

Definition param (params : list JS.value) (idx : nat) : result JS.value :=
  match idx with
  | O => Err (SyntaxError "$0")
  | S i =>
      match nth_error params i with
      | Some v => Ok v
      | None => Err (ParameterMismatch (List.length params) idx)
      end
  end.

(** A condition with its parameters bound: a test on rows. *)
Definition plan_atom (params : list JS.value) (a : atom)
  : result (Tasks.row -> tri) :=
  match a with
  | Eq col i =>
      c <- lookup_column col ;;
      v <- param params i ;;
      lit <- bind_param (fst c) v ;;
      Ok (fun r => cell_eq (snd c r) lit)
  | IlikeOr col1 i1 col2 i2 =>
      c1 <- lookup_column col1 ;;
      c2 <- lookup_column col2 ;;
      match fst c1, fst c2 with
      | TText, TText =>
          v1 <- param params i1 ;;
          v2 <- param params i2 ;;
          p1 <- bind_param TText v1 ;;
          p2 <- bind_param TText v2 ;;
          Ok (fun r => or3 (cell_ilike (snd c1 r) p1) (cell_ilike (snd c2 r) p2))
      | _, _ => Err (UndefinedOperator "ILIKE")
      end
  end.

Fixpoint plan (params : list JS.value) (conds : list atom)
  : result (list (Tasks.row -> tri)) :=
  match conds with
  | [] => Ok []
  | a :: conds' =>
      t <- plan_atom params a ;;
      ts <- plan params conds' ;;
      Ok (t :: ts)
  end.

(** [db.query(text, params)] for a read over [tasks]: the rows on
    which every condition is true, in table order. *)
Definition query_tasks (text : string) (params : list JS.value)
           (tbl : list Tasks.row) : result (list Tasks.row) :=
  match parse_select text with
  | None => Err (SyntaxError text)
  | Some conds =>
      if (List.length params =? required conds)%nat then
        tests <- plan params conds ;;
        Ok (filter (fun r => forallb (fun t => holds (t r)) tests) tbl)
      else Err (ParameterMismatch (List.length params) (required conds))
  end.

(** *** The fixed statements *)

Definition opt_time (v : option string) : result (option Z) :=
  match v with
  | None => Ok None
  | Some s => t <- to_time s ;; Ok (Some t)
  end.

(** [COALESCE(p, column)] *)
Definition coalesce {A : Type} (p old : option A) : option A :=
  match p with
  | Some _ => p
  | None => old
  end.

(** [SELECT * FROM users WHERE email = $1] *)
Definition select_users_by_email (email : option string)
           (tbl : list Users.row) : result (list Users.row) :=
  _ <- check_all [email] ;;
  Ok (filter (fun u => holds (cell_eq (of_text (Users.email u)) (of_text email)))
             tbl).

(** [INSERT INTO tasks (user_id, title, description, priority, deadline)
     VALUES ($1, $2, $3, $4, $5) RETURNING *]: the task identifier
    comes from the sequence, status and the two timestamps from their
    defaults, and the owner must be a row of [users]. *)
Definition insert_task (uid : Z) (title description priority deadline : option string)
           (now : Z) (d : db) : result Tasks.row * db :=
  match _ <- check_all [title; description; priority] ;; opt_time deadline with
  | Err e => (Err e, d)
  | Ok dl =>
      let r := Tasks.mk (tasks_seq d) uid title description priority
                        "Pending" dl now now in
      if existsb (fun u => Users.user_id u =? uid) (users d) then
        (Ok r, mkDb (users d) (tasks d ++ [r]) (tasks_seq d + 1))
      else
        (Err (ForeignKeyViolation uid), mkDb (users d) (tasks d) (tasks_seq d + 1))
  end.

(** [WHERE task_id = $id AND user_id = $uid] *)
Definition owned_task (n uid : Z) (r : Tasks.row) : bool :=
  (Tasks.task_id r =? n) && (Tasks.user_id r =? uid).

(** The SET list of the update. *)
Definition set_fields (title description priority status : option string)
           (deadline : option Z) (now : Z) (r : Tasks.row) : Tasks.row :=
  Tasks.mk (Tasks.task_id r) (Tasks.user_id r)
           (coalesce title (Tasks.title r))
           (coalesce description (Tasks.description r))
           (coalesce priority (Tasks.priority r))
           (match status with Some s => s | None => Tasks.status r end)
           (coalesce deadline (Tasks.deadline r))
           (Tasks.created_at r)
           now.

(** [UPDATE tasks SET title = COALESCE($1, title),
      description = COALESCE($2, description),
      priority = COALESCE($3, priority), status = COALESCE($4, status),
      deadline = COALESCE($5, deadline), updated_at = CURRENT_TIMESTAMP
     WHERE task_id = $6 AND user_id = $7 RETURNING *]:
    the returned rows and the table afterwards.  An updated row is
    written as a new version of the row, which a later read of the
    table meets after the rows that were left alone. *)
Definition update_task (title description priority status deadline : option string)
           (id : string) (uid : Z) (now : Z) (tbl : list Tasks.row)
  : result (list Tasks.row * list Tasks.row) :=
  _ <- check_all [title; description; priority; status] ;;
  dl <- opt_time deadline ;;
  n <- to_int id ;;
  let set := set_fields title description priority status dl now in
  let written := map set (filter (owned_task n uid) tbl) in
  Ok (written,
      (filter (fun r => negb (owned_task n uid r)) tbl ++ written)%list).

(** [DELETE FROM tasks WHERE task_id = $1 AND user_id = $2 RETURNING *]:
    the returned rows and the table afterwards. *)
Definition delete_task (id : string) (uid : Z) (tbl : list Tasks.row)
  : result (list Tasks.row * list Tasks.row) :=
  n <- to_int id ;;
  Ok (filter (owned_task n uid) tbl,
      filter (fun r => negb (owned_task n uid r)) tbl).

(** [SELECT COUNT( * ) FROM tasks WHERE ...]: one row whose [count]
    is a decimal string. *)
Definition count (test : Tasks.row -> tri) (tbl : list Tasks.row) : string :=
  JS.num_to_string (List.length (filter (fun r => holds (test r)) tbl)).

Definition and3 (a b : tri) : tri :=
  match a, b with
  | Some false, _ | _, Some false => Some false
  | Some true, Some true => Some true
  | _, _ => None
  end.

Definition not3 (a : tri) : tri := option_map negb a.

Definition cell_lt (a b : cell) : tri :=
  match a, b with
  | Int x, Int y => Some (x <? y)
  | Time x, Time y => Some (x <? y)
  | _, _ => None
  end.

(** [WHERE user_id = $1] *)
Definition by_user (uid : Z) (r : Tasks.row) : tri :=
  cell_eq (Int (Tasks.user_id r)) (Int uid).

(** [WHERE user_id = $1 AND status = $2] *)
Definition by_user_status (uid : Z) (s : string) (r : Tasks.row) : tri :=
  and3 (by_user uid r) (cell_eq (Text (Tasks.status r)) (Text s)).

(** [WHERE user_id = $1 AND priority = $2] *)
Definition by_user_priority (uid : Z) (p : string) (r : Tasks.row) : tri :=
  and3 (by_user uid r) (cell_eq (of_text (Tasks.priority r)) (Text p)).

(** [WHERE user_id = $1 AND status != 'Completed' AND deadline < NOW()] *)
Definition overdue (uid : Z) (now : Z) (r : Tasks.row) : tri :=
  and3 (and3 (by_user uid r)
             (not3 (cell_eq (Text (Tasks.status r)) (Text "Completed"))))
       (cell_lt (of_time (Tasks.deadline r)) (Time now)).
End Input.

End Pg.

(* ===================================================================== *)
(** * The application *)
(* ===================================================================== *)

(** What a handler can catch besides a datastore error. *)
Inductive thrown : Type :=
| DbError (e : db_error)
| BcryptError
| JwtError.

Inductive body : Type :=
| NoBody
| Error (message : string)
| ErrorOf (err : thrown)
| Token (token : string)
| TaskRow (r : Tasks.row)
| TaskRows (rs : list Tasks.row)
| Message (message : string)
| Stats (totalTasks completedTasks pendingTasks highPriorityTasks
         overdueTasks : option nat).

Record response : Type := mkResponse {
  code : nat;
  content : body
}.

(** The two clocks a request reads: the server's, in seconds, for the
    tokens, and the datastore's for NOW() and CURRENT_TIMESTAMP. *)
Record clock : Type := mkClock {
  seconds : Z;
  timestamp : Z
}.

Inductive route : Type :=
| PostLogin (email password : option string)
| PostTasks (title description priority deadline : option string)
| GetTasks (status priority search : option string)
| PutTask (id : string) (title description priority status deadline : option string)
| DeleteTask (id : string)
| GetDashboardStats.

Record request : Type := mkRequest {
  authorization : option string;
  target : route
}.

Definition protected_route (r : route) : bool :=
  match r with
  | PostLogin _ _ => false
  | _ => true
  end.

(** ** The task query builder *)

Record builder : Type := mkBuilder {
  queryText : string;
  queryParams : list JS.value;
  paramCount : nat
}.

Definition add_status (status : option string) (b : builder) : builder :=
  let paramCount := S (paramCount b) in
  mkBuilder (queryText b ++ " AND status = $" ++ JS.num_to_string paramCount)
            (queryParams b ++ [JS.of_field status])
            paramCount.

Definition add_priority (priority : option string) (b : builder) : builder :=
  let paramCount := S (paramCount b) in
  mkBuilder (queryText b ++ " AND priority = $" ++ JS.num_to_string paramCount)
            (queryParams b ++ [JS.of_field priority])
            paramCount.

Definition add_search (search : option string) (b : builder) : builder :=
  let paramCount := S (paramCount b) in
  mkBuilder (queryText b ++ " AND (title ILIKE $" ++ JS.num_to_string paramCount
               ++ " OR description ILIKE $" ++ JS.num_to_string paramCount ++ ")")
            (queryParams b ++ [JS.Str ("%" ++ JS.template search ++ "%")])
            paramCount.

Definition build_query (uid : Z) (status priority search : option string) : builder :=
  let b := mkBuilder "SELECT * FROM tasks WHERE user_id = $1" [JS.Num uid] 1 in
  let b := if JS.truthy status then add_status status b else b in
  let b := if JS.truthy priority then add_priority priority b else b in
  let b := if JS.truthy search then add_search search b else b in
  b.

Section App.
Variable fold : string -> string.
Variable encode : Claims.t -> string -> string.
Variable decode : string -> string -> option Claims.t.
Variable JWT_SECRET : string.
Variable bcrypt_compare : string -> string -> bool.
Variable int4in : string -> option Z.
Variable timestamptz_in : string -> option Z.

Definition failed (e : db_error) : response := mkResponse 500 (ErrorOf (DbError e)).

(** ** POST /login *)
Definition post_login (email password : option string) (now : clock) (d : db)
  : response :=
  match Pg.select_users_by_email email (users d) with
  | Err e => failed e
  | Ok [] => mkResponse 400 (Error "User not found")
  | Ok (user :: _) =>
      match password with
      | None => mkResponse 500 (ErrorOf BcryptError)
      | Some pw =>
          if negb (bcrypt_compare pw (Users.password user)) then
            mkResponse 401 (Error "Invalid password")
          else
            match Jwt.sign encode (Users.user_id user) JWT_SECRET "1h" (seconds now) with
            | Some token => mkResponse 200 (Token token)
            | None => mkResponse 500 (ErrorOf JwtError)
            end
      end
  end.

(** ** POST /tasks *)
Definition post_tasks (user : Claims.t)
           (title description priority deadline : option string)
           (now : clock) (d : db) : response * db :=
  match Pg.insert_task timestamptz_in (Claims.user_id user)
                       title description priority deadline (timestamp now) d with
  | (Ok r, d') => (mkResponse 200 (TaskRow r), d')
  | (Err e, d') => (failed e, d')
  end.

(** ** GET /tasks *)
Definition get_tasks (user : Claims.t) (status priority search : option string)
           (d : db) : response :=
  let b := build_query (Claims.user_id user) status priority search in
  match Pg.query_tasks fold int4in timestamptz_in (queryText b) (queryParams b)
                       (tasks d) with
  | Ok rows => mkResponse 200 (TaskRows rows)
  | Err e => failed e
  end.

(** ** PUT /tasks/:id *)
Definition put_task (user : Claims.t) (id : string)
           (title description priority status deadline : option string)
           (now : clock) (d : db) : response * db :=
  match Pg.update_task int4in timestamptz_in title description priority status
                       deadline id (Claims.user_id user) (timestamp now) (tasks d) with
  | Ok (rows, tbl) =>
      let d' := mkDb (users d) tbl (tasks_seq d) in
      match rows with
      | [] => (mkResponse 404 (Error "Task not found"), d')
      | r :: _ => (mkResponse 200 (TaskRow r), d')
      end
  | Err e => (failed e, d)
  end.

(** ** DELETE /tasks/:id *)
Definition delete_task (user : Claims.t) (id : string) (d : db) : response * db :=
  match Pg.delete_task int4in id (Claims.user_id user) (tasks d) with
  | Ok (rows, tbl) =>
      let d' := mkDb (users d) tbl (tasks_seq d) in
      match rows with
      | [] => (mkResponse 404 (Error "Task not found"), d')
      | _ :: _ => (mkResponse 200 (Message "Task deleted successfully"), d')
      end
  | Err e => (failed e, d)
  end.

(** ** GET /dashboard/stats *)
Definition get_dashboard_stats (user : Claims.t) (now : clock) (d : db) : response :=
  let userId := Claims.user_id user in
  let total := Pg.count (Pg.by_user userId) (tasks d) in
  let completed := Pg.count (Pg.by_user_status userId "Completed") (tasks d) in
  let pending := Pg.count (Pg.by_user_status userId "Pending") (tasks d) in
  let highPriority := Pg.count (Pg.by_user_priority userId "High") (tasks d) in
  let overdue := Pg.count (Pg.overdue userId (timestamp now)) (tasks d) in
  mkResponse 200 (Stats (JS.parseInt total) (JS.parseInt completed)
                        (JS.parseInt pending) (JS.parseInt highPriority)
                        (JS.parseInt overdue)).

(** ** Routing *)

(** The handler registered for a route, run with [req.user]. *)
Definition handler (r : route) (user : Claims.t) (now : clock) (d : db)
  : response * db :=
  match r with
  | PostLogin email password => (post_login email password now d, d)
  | PostTasks title description priority deadline =>
      post_tasks user title description priority deadline now d
  | GetTasks status priority search =>
      (get_tasks user status priority search d, d)
  | PutTask id title description priority status deadline =>
      put_task user id title description priority status deadline now d
  | DeleteTask id => delete_task user id d
  | GetDashboardStats => (get_dashboard_stats user now d, d)
  end.

(** [app.METHOD(path, authenticateToken, handler)] for the task and
    statistics routes, [app.post('/login', handler)] for login. *)
Definition app (req : request) (now : clock) (d : db) : response * db :=
  match target req with
  | PostLogin email password => (post_login email password now d, d)
  | r =>
      match authenticateToken decode JWT_SECRET (authorization req) (seconds now) with
      | SendStatus c => (mkResponse c NoBody, d)
      | Next user => handler r user now d
      end
  end.
End App.

(* ===================================================================== *)
(** * Reference definitions for the properties *)
(* ===================================================================== *)

Fixpoint spaceless (s : string) : bool :=
  match s with
  | EmptyString => true
  | String c s' => negb (Ascii.eqb c " ") && spaceless s'
  end.

(** The filter of GET /tasks as the specification words it: the
    principal's tasks that meet every supplied filter, status and
    priority by equality, search as a case-insensitive substring of the
    title or of the description.  A filter is supplied when the handler
    sees it, that is when it is a non-empty string. *)
Section Reading.
(** The case folding of the database's character type, beyond A to Z. *)
Variable fold : string -> string.

Definition icontains (w : string) (field : option string) : bool :=
  match field with
  | Some s => Like.contains (fold (Like.lower w)) (fold (Like.lower s))
  | None => false
  end.

Definition text_is (w : string) (field : option string) : bool :=
  match field with
  | Some s => (s =? w)%string
  | None => false
  end.

(** A filter that is left out, or empty, asks for nothing. *)
Definition wanted (v : option string) (test : string -> bool) : bool :=
  match v with
  | Some w => if (w =? "")%string then true else test w
  | None => true
  end.

Definition satisfies (uid : Z) (status priority search : option string)
           (r : Tasks.row) : bool :=
  (Tasks.user_id r =? uid)
  && wanted status (fun w => text_is w (Some (Tasks.status r)))
  && wanted priority (fun w => text_is w (Tasks.priority r))
  && wanted search (fun w => icontains w (Tasks.title r)
                             || icontains w (Tasks.description r)).

(** The same filter with the search read the way the datastore reads it,
    as the ILIKE pattern that the builder binds. *)
Definition ilike_field (pattern : string) (field : option string) : bool :=
  match field with
  | Some s => Like.ilike fold pattern s
  | None => false
  end.

Definition selects (uid : Z) (status priority search : option string)
           (r : Tasks.row) : bool :=
  (Tasks.user_id r =? uid)
  && (if JS.truthy status then text_is (JS.template status) (Some (Tasks.status r))
      else true)
  && (if JS.truthy priority then text_is (JS.template priority) (Tasks.priority r)
      else true)
  && (if JS.truthy search then
        ilike_field ("%" ++ JS.template search ++ "%") (Tasks.title r)
        || ilike_field ("%" ++ JS.template search ++ "%") (Tasks.description r)
      else true).
End Reading.

(** A folding that leaves the pattern's percent signs where they are
    and makes no pattern character out of another character. *)
Definition keeps_patterns (fold : string -> string) : Prop :=
  (forall x, fold (String "%" x) = String "%" (fold x))
  /\ (forall x, fold (x ++ "%") = fold x ++ "%")
  /\ (forall x, Like.plain x = true -> Like.plain (fold x) = true).

(** A request field that the datastore accepts as text when it is
    given. *)
Definition acceptable (v : option string) : Prop :=
  forall s, v = Some s -> Pg.valid_text s = true.

Definition accepted (v : option string) : bool :=
  match v with
  | Some s => Pg.valid_text s
  | None => true
  end.

(** A filter the handler sees: a string that is not empty. *)
Definition nonempty (v : option string) : Prop :=
  exists s, v = Some s /\ s <> "".

(** The five counts of the dashboard as the specification words them. *)
Definition owned (uid : Z) (r : Tasks.row) : bool := Tasks.user_id r =? uid.

Definition is_completed (r : Tasks.row) : bool :=
  (Tasks.status r =? "Completed")%string.

Definition is_pending (r : Tasks.row) : bool :=
  (Tasks.status r =? "Pending")%string.

Definition is_high (r : Tasks.row) : bool := text_is "High" (Tasks.priority r).

Definition is_overdue (now : Z) (r : Tasks.row) : bool :=
  negb (is_completed r)
  && match Tasks.deadline r with
     | Some t => t <? now
     | None => false
     end.

Definition tally (test : Tasks.row -> bool) (tbl : list Tasks.row) : nat :=
  List.length (filter test tbl).

(** The rows of a 200 answer of GET /tasks. *)
Definition rows_of (r : response) : list Tasks.row :=
  match content r with
  | TaskRows rs => rs
  | _ => []
  end.

(** The parameters a filter contributes: its value when it is a
    non-empty string, for the search between two percent signs. *)
Definition bound_value (v : option string) : list JS.value :=
  match v with
  | Some s => if (s =? "")%string then [] else [JS.Str s]
  | None => []
  end.

Definition bound_search (v : option string) : list JS.value :=
  match v with
  | Some s => if (s =? "")%string then [] else [JS.Str ("%" ++ s ++ "%")]
  | None => []
  end.

(** ** A small deployment to run the handlers on *)

Module Sample.

Definition secret : string := "s3cret".

(** A decimal field, for the sample's input conversions and tokens. *)
Definition number (s : string) : option Z :=
  match JS.digits None s with
  | (Some n, EmptyString) => Some (Z.of_nat n)
  | _ => None
  end.

(** A toy token format, [key.user.iat.exp], in place of a signature. *)
Definition encode (c : Claims.t) (key : string) : string :=
  key ++ "." ++ Pg.decimal (Claims.user_id c) ++ "." ++ Pg.decimal (Claims.iat c)
      ++ "." ++ Pg.decimal (Claims.exp c).

Definition decode (token key : string) : option Claims.t :=
  match JS.split "." token with
  | [k; u; i; e] =>
      if (k =? key)%string then
        match number u, number i, number e with
        | Some u, Some i, Some e => Some (Claims.mk u i e)
        | _, _, _ => None
        end
      else None
  | _ => None
  end.

Definition alice : Claims.t := Claims.mk 1 1000 4600.
Definition bob : Claims.t := Claims.mk 2 1000 4600.

Definition alice_jwt : string := "s3cret.1.1000.4600".
Definition bob_jwt : string := "s3cret.2.1000.4600".

Definition bcrypt_compare (data hash : string) : bool :=
  (hash =? "$2b$10$" ++ data)%string.

(** The sample's readings: an integer is a run of digits within the
    range of the type; a timestamp is one of the first day of the
    epoch, written [1970-01-01 hh:mm:ss+00], as seconds. *)
Definition int4in (s : string) : option Z :=
  match number s with
  | Some z => if z <=? 2147483647 then Some z else None
  | None => None
  end.

Definition two_digits (s : string) : option (Z * string) :=
  match s with
  | String a (String b rest) =>
      match number (String a EmptyString), number (String b EmptyString) with
      | Some x, Some y => Some (10 * x + y, rest)
      | _, _ => None
      end
  | _ => None
  end.

Definition timestamptz_in (s : string) : option Z :=
  Pg.opt_bind (Pg.strip "1970-01-01 " s) (fun s1 =>
  Pg.opt_bind (two_digits s1) (fun '(h, s2) =>
  Pg.opt_bind (Pg.strip ":" s2) (fun s3 =>
  Pg.opt_bind (two_digits s3) (fun '(m, s4) =>
  Pg.opt_bind (Pg.strip ":" s4) (fun s5 =>
  Pg.opt_bind (two_digits s5) (fun '(sec, s6) =>
  if (s6 =? "+00")%string && (h <? 24) && (m <? 60) && (sec <? 60)
  then Some (3600 * h + 60 * m + sec) else None)))))).

(** The sample's character type folds, beyond A to Z, the accented
    capitals of Latin-1: in UTF-8 the byte 195 followed by a byte from
    128 to 158 other than 151, whose small letter is 32 further on. *)
Definition accented_capital (c : ascii) : bool :=
  let n := nat_of_ascii c in
  ((128 <=? n) && (n <=? 158) && negb (n =? 151))%nat.

Fixpoint fold (s : string) : string :=
  match s with
  | EmptyString => EmptyString
  | String c s' =>
      String c
        match s' with
        | EmptyString => EmptyString
        | String c2 r =>
            if Ascii.eqb c (ascii_of_nat 195) && accented_capital c2 then
              String (ascii_of_nat (nat_of_ascii c2 + 32)) (fold r)
            else fold s'
        end
  end.

Definition alice_row : Users.row :=
  Users.mk 1 (Some "Alice") (Some "alice@example.org") "$2b$10$wonderland".
Definition bob_row : Users.row :=
  Users.mk 2 (Some "Bob") (Some "bob@example.org") "$2b$10$builder".

Definition report : Tasks.row :=
  Tasks.mk 1 1 (Some "Write Report") None (Some "High") "Pending" (Some 50) 10 10.
Definition groceries : Tasks.row :=
  Tasks.mk 2 1 (Some "a") (Some "milk, eggs") None "Completed" None 20 30.
Definition taxes : Tasks.row :=
  Tasks.mk 3 2 (Some "File taxes") None (Some "High") "Pending" (Some 500) 40 40.

Definition store : db := mkDb [alice_row; bob_row] [report; groceries; taxes] 4.

Definition noon : clock := mkClock 2000 100.

Definition run : request -> clock -> db -> response * db :=
  app fold encode decode secret bcrypt_compare int4in timestamptz_in.

Definition handle : route -> Claims.t -> clock -> db -> response * db :=
  handler fold encode secret bcrypt_compare int4in timestamptz_in.

Definition gate : option string -> Z -> gate := authenticateToken decode secret.

Definition get := get_tasks fold int4in timestamptz_in.
Definition put := put_task int4in timestamptz_in.
Definition del := delete_task int4in.

(** *** Two sessions *)

Definition bearer (r : response) : option string :=
  match content r with
  | Token t => Some ("Bearer " ++ t)
  | _ => None
  end.

Definition login (email password : string) (d : db) : option string :=
  bearer (fst (run (mkRequest None (PostLogin (Some email) (Some password))) noon d)).

(** Alice logs in, creates three tasks, one of high priority with a
    deadline in the past, completes the third and asks for her
    statistics. *)
Definition statistics_session : response :=
  let d := mkDb [alice_row] [] 1 in
  let auth := login "alice@example.org" "wonderland" d in
  let d := snd (run (mkRequest auth (PostTasks (Some "Write report") None
                                               (Some "High")
                                               (Some "1970-01-01 00:00:50+00")))
                    noon d) in
  let d := snd (run (mkRequest auth (PostTasks (Some "Buy milk") None None None))
                    noon d) in
  let d := snd (run (mkRequest auth (PostTasks (Some "Call Bob") None
                                               (Some "Low") None)) noon d) in
  let d := snd (run (mkRequest auth (PutTask "3" None None None (Some "Completed")
                                             None)) noon d) in
  fst (run (mkRequest auth GetDashboardStats) noon d).

(** Bob logs in and asks to delete Alice's task 1; Alice then lists her
    tasks. *)
Definition trespass_session : response * response :=
  let bobs := login "bob@example.org" "builder" store in
  let alices := login "alice@example.org" "wonderland" store in
  let (answer, d) := run (mkRequest bobs (DeleteTask "1")) noon store in
  (answer, fst (run (mkRequest alices (GetTasks None None None)) noon d)).

End Sample.

(* ===================================================================== *)
(** * Registration and the server as a whole *)
(* ===================================================================== *)

(** The stored state with the sequence behind the users' identifiers,
    which only registration reads. *)
Record server : Type := mkServer {
  store : db;
  users_seq : Z
}.

Module Registration.

(** What makes [POST /register] answer 500: [bcrypt.hash] rejecting a
    missing password, or the datastore rejecting the row. *)
Inductive failure : Type :=
| HashFailure
| Refused (e : db_error)
| DuplicateEmail (email : string).

Inductive answer : Type :=
| UserRow (u : Users.row)
| Failure (e : failure).

Record reply : Type := mkReply {
  code : nat;
  content : answer
}.

(** The email is some user's already. *)
Definition taken (e : string) (tbl : list Users.row) : bool :=
  existsb (fun u => match Users.email u with
                    | Some e' => (e' =? e)%string
                    | None => false
                    end) tbl.

(** Modelled from the spec: [INSERT INTO users (name, email, password)
    VALUES ($1, $2, $3) RETURNING *] on a table whose email column is
    unique (among the rows that have one) and whose identifier comes
    from a sequence; the sequence moves on also when the row is refused
    as a duplicate.  The DDL of this table is not in the sources. *)
Definition insert_user (name email : option string) (hash : string)
           (s : server) : (Users.row + failure) * server :=
  let d := store s in
  match Pg.check_all [name; email; Some hash] with
  | Err e => (inr (Refused e), s)
  | Ok _ =>
      let u := Users.mk (users_seq s) name email hash in
      let added := mkServer (mkDb (users d ++ [u]) (tasks d) (tasks_seq d))
                            (users_seq s + 1) in
      match email with
      | None => (inl u, added)
      | Some e =>
          if taken e (users d) then
            (inr (DuplicateEmail e), mkServer d (users_seq s + 1))
          else (inl u, added)
      end
  end.

Section Register.
(** [bcrypt.hash(data, 10)] with the salt it draws. *)
Variable bcrypt_hash : string -> string -> string.

(** ** POST /register *)
Definition post_register (name email password : option string) (salt : string)
           (s : server) : reply * server :=
  match password with
  | None => (mkReply 500 (Failure HashFailure), s)
  | Some pw =>
      let hashedPassword := bcrypt_hash pw salt in
      match insert_user name email hashedPassword s with
      | (inl u, s') => (mkReply 200 (UserRow u), s')
      | (inr e, s') => (mkReply 500 (Failure e), s')
      end
  end.
End Register.

End Registration.

(** A call on the server: a registration, with the salt drawn for it, or
    a request to one of the other routes. *)
Inductive call : Type :=
| Register (name email password : option string) (salt : string)
| Request (req : request).

Section Server.
Variable fold : string -> string.
Variable encode : Claims.t -> string -> string.
Variable decode : string -> string -> option Claims.t.
Variable JWT_SECRET : string.
Variable bcrypt_hash : string -> string -> string.
Variable bcrypt_compare : string -> string -> bool.
Variable int4in : string -> option Z.
Variable timestamptz_in : string -> option Z.

Definition serve (c : call) (now : clock) (s : server)
  : (Registration.reply + response) * server :=
  match c with
  | Register name email password salt =>
      let (r, s') := Registration.post_register bcrypt_hash name email password
                                                salt s in
      (inl r, s')
  | Request req =>
      let (r, d') := app fold encode decode JWT_SECRET bcrypt_compare int4in
                         timestamptz_in req now (store s) in
      (inr r, mkServer d' (users_seq s))
  end.

(** The state after a run of calls, each at its own time. *)
Fixpoint serve_all (calls : list (call * clock)) (s : server) : server :=
  match calls with
  | [] => s
  | (c, now) :: calls' => serve_all calls' (snd (serve c now s))
  end.
End Server.

(** The emails that users have. *)
Definition emails (tbl : list Users.row) : list string :=
  flat_map (fun u => match Users.email u with
                     | Some e => [e]
                     | None => []
                     end) tbl.

(** The stored tasks hold only text that the datastore accepts. *)
Definition clean (d : db) : Prop :=
  forall t, In t (tasks d) ->
    acceptable (Tasks.title t) /\ acceptable (Tasks.description t)
    /\ acceptable (Tasks.priority t) /\ Pg.valid_text (Tasks.status t) = true.

(** The data model's invariants on a state: identifiers are unique and
    below their sequences, emails are unique, every task belongs to a
    user, and the stored text is text of the datastore. *)
Definition consistent (s : server) : Prop :=
  let d := store s in
  NoDup (map Users.user_id (users d))
  /\ NoDup (emails (users d))
  /\ NoDup (map Tasks.task_id (tasks d))
  /\ (forall u, In u (users d) -> Users.user_id u < users_seq s)
  /\ (forall t, In t (tasks d) -> Tasks.task_id t < tasks_seq d)
  /\ (forall t, In t (tasks d) ->
                In (Tasks.user_id t) (map Users.user_id (users d)))
  /\ clean d.

Definition fresh : server := mkServer (mkDb [] [] 1) 1.

(** The tests of the single filters, as the statements word them. *)
Definition has_status (status : option string) (r : Tasks.row) : bool :=
  if JS.truthy status then text_is (JS.template status) (Some (Tasks.status r))
  else true.

Definition has_priority (priority : option string) (r : Tasks.row) : bool :=
  if JS.truthy priority then text_is (JS.template priority) (Tasks.priority r)
  else true.

(** The fields a PUT supplies, as set on a row. *)
Definition supplied (p : option string) (stored : option string) : Prop :=
  forall v, p = Some v -> stored = Some v.

Module Demo.

Definition bcrypt_hash (data salt : string) : string := "$2b$10$" ++ data.

Definition register := Registration.post_register bcrypt_hash.

Definition serve : call -> clock -> server
                   -> (Registration.reply + response) * server :=
  serve Sample.fold Sample.encode Sample.decode Sample.secret bcrypt_hash
        Sample.bcrypt_compare Sample.int4in Sample.timestamptz_in.

Definition serve_all : list (call * clock) -> server -> server :=
  serve_all Sample.fold Sample.encode Sample.decode Sample.secret bcrypt_hash
            Sample.bcrypt_compare Sample.int4in Sample.timestamptz_in.

Definition state : server := mkServer Sample.store 3.

Definition post := post_tasks Sample.timestamptz_in.

Definition stats := get_dashboard_stats.

End Demo.

(** The text of a built query is a closed string once the supplied
    filters are known: read it the way the datastore does. *)
Ltac run_parser :=
  match goal with
  | |- context [Pg.parse_select ?t] =>
      let v := eval vm_compute in (Pg.parse_select t) in
      change (Pg.parse_select t) with v
  end.

(* ===================================================================== *)
(** * Properties *)
(* ===================================================================== *)

Section Properties.
Variable fold : string -> string.
Variable encode : Claims.t -> string -> string.
Variable decode : string -> string -> option Claims.t.
Variable JWT_SECRET : string.
Variable bcrypt_compare : string -> string -> bool.
Variable int4in : string -> option Z.
Variable timestamptz_in : string -> option Z.

Local Abbreviation gate_of := (authenticateToken decode JWT_SECRET).
Local Abbreviation run :=
  (app fold encode decode JWT_SECRET bcrypt_compare int4in timestamptz_in).
Local Abbreviation handle :=
  (handler fold encode JWT_SECRET bcrypt_compare int4in timestamptz_in).
Local Abbreviation get := (get_tasks fold int4in timestamptz_in).
Local Abbreviation put := (put_task int4in timestamptz_in).
Local Abbreviation del := (delete_task int4in).

(** ** The credential gate *)

Lemma truthy_some (s : string) : s <> "" -> JS.truthy (Some s) = true.
Proof.
  intros Hs. unfold JS.truthy.
  destruct (String.eqb_spec s ""); [contradiction | reflexivity].
Qed.

Lemma split_spaceless (w : string) :
  spaceless w = true -> JS.split " " w = [w].
Proof.
  induction w as [|c w IH]; simpl; [reflexivity|].
  intros H. apply andb_prop in H as [Hc Hw].
  apply negb_true_iff in Hc. rewrite Hc, (IH Hw). reflexivity.
Qed.

Lemma split_at_space (w rest : string) :
  spaceless w = true ->
  JS.split " " (w ++ String " " rest) = w :: JS.split " " rest.
Proof.
  induction w as [|c w IH]; simpl; [reflexivity|].
  intros H. apply andb_prop in H as [Hc Hw].
  apply negb_true_iff in Hc. rewrite Hc, (IH Hw). reflexivity.
Qed.

Lemma gate_cases (h : option string) (now : Z) :
  gate_of h now =
  match header_token h with
  | None => SendStatus 401
  | Some tok =>
      if (tok =? "")%string then SendStatus 401
      else match decode tok JWT_SECRET with
           | None => SendStatus 403
           | Some c => if Claims.exp c <=? now then SendStatus 403 else Next c
           end
  end.
Proof.
  unfold authenticateToken, Jwt.verify.
  destruct (header_token h) as [tok|]; simpl; [|reflexivity].
  destruct (tok =? "")%string; simpl; [reflexivity|].
  destruct (decode tok JWT_SECRET) as [c|]; [|reflexivity].
  destruct (Claims.exp c <=? now); reflexivity.
Qed.

Lemma app_protected (req : request) (now : clock) (d : db) :
  protected_route (target req) = true ->
  run req now d =
  match gate_of (authorization req) (seconds now) with
  | SendStatus c => (mkResponse c NoBody, d)
  | Next user => handle (target req) user now d
  end.
Proof.
  unfold app.
  destruct (target req); simpl; intros H; try discriminate; reflexivity.
Qed.

(** C1.  On every protected route (create, list, update and delete a
    task, dashboard statistics): a request whose authorization header
    yields no token is answered 401 with no body and the store
    untouched; a token that does not decode under the secret, or whose
    expiry has passed, is answered 403 in the same way; a token that
    decodes and has not expired makes the route's handler run on the
    unchanged store with the decoded claims as [req.user]. *)
Theorem gate_guards_protected_routes (req : request) (now : clock) (d : db) :
  protected_route (target req) = true ->
  (JS.truthy (header_token (authorization req)) = false ->
   run req now d = (mkResponse 401 NoBody, d))
  /\ (forall tok, header_token (authorization req) = Some tok -> tok <> "" ->
      decode tok JWT_SECRET = None ->
      run req now d = (mkResponse 403 NoBody, d))
  /\ (forall tok c, header_token (authorization req) = Some tok -> tok <> "" ->
      decode tok JWT_SECRET = Some c -> Claims.exp c <= seconds now ->
      run req now d = (mkResponse 403 NoBody, d))
  /\ (forall tok c, header_token (authorization req) = Some tok -> tok <> "" ->
      decode tok JWT_SECRET = Some c -> seconds now < Claims.exp c ->
      run req now d = handle (target req) c now d).
Proof.
  intros Hp. rewrite (app_protected req now d Hp), gate_cases.
  repeat split.
  - destruct (header_token (authorization req)) as [tok|]; [|reflexivity].
    unfold JS.truthy. destruct (tok =? "")%string; [reflexivity | discriminate].
  - intros tok Ht Hne Hd. rewrite Ht, Hd.
    destruct (String.eqb_spec tok ""); [contradiction | reflexivity].
  - intros tok c Ht Hne Hd He. rewrite Ht, Hd.
    destruct (String.eqb_spec tok ""); [contradiction|].
    apply Z.leb_le in He. rewrite He. reflexivity.
  - intros tok c Ht Hne Hd He. rewrite Ht, Hd.
    destruct (String.eqb_spec tok ""); [contradiction|].
    apply Z.leb_gt in He. rewrite He. reflexivity.
Qed.

(** C9.  The gate never looks at the scheme word.  A header made of any
    space-free word, one space and a non-empty space-free token has
    that token verified, whatever the word: 403 when verification
    fails, the handler's turn with the decoded claims when it
    succeeds.  A header without a space yields no token and is
    answered 401. *)
Theorem gate_ignores_scheme_word (now : Z) :
  (forall word tok,
      spaceless word = true -> spaceless tok = true -> tok <> "" ->
      gate_of (Some (word ++ " " ++ tok)) now =
      match Jwt.verify decode tok JWT_SECRET now with
      | Some user => Next user
      | None => SendStatus 403
      end)
  /\ (forall h, spaceless h = true -> gate_of (Some h) now = SendStatus 401).
Proof.
  split.
  - intros word tok Hw Ht Hne.
    assert (Htok : header_token (Some (word ++ " " ++ tok)) = Some tok).
    { unfold header_token.
      assert (Hh : word ++ " " ++ tok <> "") by (destruct word; discriminate).
      rewrite (truthy_some _ Hh).
      change (word ++ " " ++ tok) with (word ++ String " " tok).
      rewrite (split_at_space word tok Hw), (split_spaceless tok Ht). reflexivity. }
    unfold authenticateToken. rewrite Htok, (truthy_some _ Hne). simpl.
    destruct (Jwt.verify decode tok JWT_SECRET now); reflexivity.
  - intros h Hh. rewrite gate_cases. unfold header_token.
    destruct (JS.truthy (Some h)) eqn:Ht.
    + rewrite (split_spaceless h Hh). reflexivity.
    + unfold JS.truthy in Ht. apply negb_false_iff in Ht. rewrite Ht. reflexivity.
Qed.

(** ** Login *)

Lemma email_test (u : Users.row) (e : string) :
  Pg.holds (Pg.cell_eq (Pg.of_text (Users.email u)) (Pg.of_text (Some e))) = true
  <-> Users.email u = Some e.
Proof.
  destruct (Users.email u) as [e'|]; simpl.
  - destruct (String.eqb_spec e' e) as [He|Hne]; split;
      intros H; try reflexivity; try discriminate.
    + rewrite He. reflexivity.
    + exfalso. apply Hne. injection H as H. exact H.
  - split; discriminate.
Qed.

Lemma check_one (v : option string) :
  acceptable v -> Pg.check_all [v] = Ok tt.
Proof.
  intros Hv. destruct v as [s|]; [|reflexivity].
  cbn. unfold Pg.check_text. rewrite (Hv s eq_refl). reflexivity.
Qed.

Lemma select_users_none (email : option string) (tbl : list Users.row) :
  acceptable email ->
  (forall u e, In u tbl -> email = Some e -> Users.email u <> Some e) ->
  Pg.select_users_by_email email tbl = Ok [].
Proof.
  intros Hv. unfold Pg.select_users_by_email. rewrite (check_one email Hv).
  cbn [bind]. intros H. f_equal.
  induction tbl as [|u tbl IH]; [reflexivity|].
  cbn [filter].
  destruct (Pg.holds _) eqn:Hu.
  - exfalso. destruct email as [e|].
    + apply (H u e); [left; reflexivity | reflexivity | apply email_test; exact Hu].
    + destruct (Users.email u); discriminate Hu.
  - apply IH. intros v e Hin. apply H. right. exact Hin.
Qed.

Lemma select_users_first (e : string) (pre post : list Users.row) (u : Users.row) :
  Pg.valid_text e = true ->
  Users.email u = Some e ->
  (forall v, In v pre -> Users.email v <> Some e) ->
  exists rest,
    Pg.select_users_by_email (Some e) (pre ++ u :: post)%list = Ok (u :: rest).
Proof.
  intros Hv Hu Hpre. unfold Pg.select_users_by_email.
  rewrite (check_one (Some e)) by (intros s H; injection H as <-; exact Hv).
  cbn [bind].
  exists (filter (fun v => Pg.holds (Pg.cell_eq (Pg.of_text (Users.email v))
                                                (Pg.of_text (Some e)))) post).
  f_equal.
  induction pre as [|v pre IH]; cbn [List.app filter].
  - rewrite (proj2 (email_test u e) Hu). reflexivity.
  - destruct (Pg.holds _) eqn:Ht.
    + exfalso. apply (Hpre v); [left; reflexivity|].
      apply email_test. exact Ht.
    + apply IH. intros w Hw. apply Hpre. right. exact Hw.
Qed.

(** C8 as amended.  Login, for an email that the datastore accepts as
    text: when no user row carries the given email the answer is 400;
    when the request has a password that the stored hash of the first
    row with that email does not match the answer is 401; when it
    matches the answer is 200 with the token that signs the row's user
    identifier, issued at the current second and expiring 3600 seconds
    later; when the request has no password and a row carries the
    email the answer is 500.  The store is left as it was. *)
Theorem login_outcomes (req : request) (now : clock) (d : db)
        (email password : option string) :
  target req = PostLogin email password ->
  acceptable email ->
  ((forall u e, In u (users d) -> email = Some e -> Users.email u <> Some e) ->
   run req now d = (mkResponse 400 (Error "User not found"), d))
  /\ (forall (e pw : string) (pre : list Users.row) (u : Users.row)
              (post : list Users.row),
         email = Some e -> password = Some pw ->
         users d = (pre ++ u :: post)%list -> Users.email u = Some e ->
         (forall v, In v pre -> Users.email v <> Some e) ->
         bcrypt_compare pw (Users.password u) = false ->
         run req now d = (mkResponse 401 (Error "Invalid password"), d))
  /\ (forall (e pw : string) (pre : list Users.row) (u : Users.row)
              (post : list Users.row),
         email = Some e -> password = Some pw ->
         users d = (pre ++ u :: post)%list -> Users.email u = Some e ->
         (forall v, In v pre -> Users.email v <> Some e) ->
         bcrypt_compare pw (Users.password u) = true ->
         run req now d =
         (mkResponse 200
            (Token (encode (Claims.mk (Users.user_id u) (seconds now)
                                      (seconds now + 3600))
                           JWT_SECRET)), d))
  /\ (forall (e : string) (pre : list Users.row) (u : Users.row)
              (post : list Users.row),
         email = Some e -> password = None ->
         users d = (pre ++ u :: post)%list -> Users.email u = Some e ->
         (forall v, In v pre -> Users.email v <> Some e) ->
         run req now d = (mkResponse 500 (ErrorOf BcryptError), d)).
Proof.
  intros Ht Hv. unfold app. rewrite Ht. unfold post_login.
  split; [|split; [|split]].
  - intros Hnone. rewrite (select_users_none email (users d) Hv Hnone).
    reflexivity.
  - intros e pw pre u post -> -> Hd He Hpre Hc.
    destruct (select_users_first e pre post u (Hv e eq_refl) He Hpre)
      as [rest Hsel].
    rewrite Hd, Hsel, Hc. reflexivity.
  - intros e pw pre u post -> -> Hd He Hpre Hc.
    destruct (select_users_first e pre post u (Hv e eq_refl) He Hpre)
      as [rest Hsel].
    rewrite Hd, Hsel, Hc. reflexivity.
  - intros e pre u post -> -> Hd He Hpre.
    destruct (select_users_first e pre post u (Hv e eq_refl) He Hpre)
      as [rest Hsel].
    rewrite Hd, Hsel. reflexivity.
Qed.

(** ** Update and delete *)

Lemma filter_nothing {A : Type} (f : A -> bool) (l : list A) :
  (forall x, In x l -> f x = false) -> filter f l = [].
Proof.
  induction l as [|a l IH]; simpl; intros H; [reflexivity|].
  rewrite (H a) by (left; reflexivity).
  apply IH. intros x Hx. apply H. right. exact Hx.
Qed.

Lemma filter_everything {A : Type} (f : A -> bool) (l : list A) :
  (forall x, In x l -> f x = true) -> filter f l = l.
Proof.
  induction l as [|a l IH]; simpl; intros H; [reflexivity|].
  rewrite (H a) by (left; reflexivity). f_equal.
  apply IH. intros x Hx. apply H. right. exact Hx.
Qed.

Lemma owned_task_iff (n uid : Z) (r : Tasks.row) :
  Pg.owned_task n uid r = true <-> Tasks.task_id r = n /\ Tasks.user_id r = uid.
Proof.
  unfold Pg.owned_task. rewrite andb_true_iff, !Z.eqb_eq. reflexivity.
Qed.

Lemma not_owned_task (n uid : Z) (tbl : list Tasks.row) :
  (forall r, In r tbl -> ~ (Tasks.task_id r = n /\ Tasks.user_id r = uid)) ->
  forall r, In r tbl -> Pg.owned_task n uid r = false.
Proof.
  intros H r Hr. apply not_true_is_false. intros Ho.
  apply (H r Hr). apply owned_task_iff. exact Ho.
Qed.

Lemma opt_time_converts (deadline : option string) :
  (forall s, deadline = Some s -> timestamptz_in s <> None) ->
  exists dl, Pg.opt_time timestamptz_in deadline = Ok dl.
Proof.
  intros H. destruct deadline as [s|]; simpl; [|eexists; reflexivity].
  unfold Pg.to_time. destruct (timestamptz_in s) as [t|] eqn:Ht.
  - eexists. reflexivity.
  - exfalso. apply (H s); [reflexivity | exact Ht].
Qed.

Lemma same_store (d : db) : mkDb (users d) (tasks d) (tasks_seq d) = d.
Proof. destruct d. reflexivity. Qed.

Lemma check_all_ok (vs : list (option string)) :
  Forall acceptable vs -> Pg.check_all vs = Ok tt.
Proof.
  induction vs as [|v vs IH]; intros H; [reflexivity|].
  inversion H as [|x xs Hv Hvs]; subst.
  destruct v as [s|]; cbn [Pg.check_all]; [|exact (IH Hvs)].
  unfold Pg.check_text. rewrite (Hv s eq_refl). exact (IH Hvs).
Qed.

(** What a PUT leaves in the store: the rows it does not match followed
    by the rows it has written, when the statement runs. *)
Lemma put_store (user : Claims.t) (id : string)
      (title description priority status deadline : option string)
      (now : clock) (d : db) :
  snd (put user id title description priority status deadline now d) =
  match Pg.check_all [title; description; priority; status],
        Pg.opt_time timestamptz_in deadline, int4in id with
  | Ok _, Ok dl, Some n =>
      mkDb (users d)
           (filter (fun r => negb (Pg.owned_task n (Claims.user_id user) r))
                   (tasks d)
            ++ map (Pg.set_fields title description priority status dl
                                  (timestamp now))
                   (filter (Pg.owned_task n (Claims.user_id user)) (tasks d)))
           (tasks_seq d)
  | _, _, _ => d
  end.
Proof.
  unfold put_task, Pg.update_task, Pg.to_int.
  destruct (Pg.check_all _) as [[]|e]; [|reflexivity].
  destruct (Pg.opt_time timestamptz_in deadline) as [dl|e]; [|reflexivity].
  destruct (int4in id) as [n|]; [|reflexivity]. cbn.
  destruct (map _ (filter _ (tasks d))); reflexivity.
Qed.

Lemma put_no_match (user : Claims.t) (id : string)
      (title description priority status deadline : option string)
      (now : clock) (d : db) (n : Z) :
  int4in id = Some n ->
  Forall acceptable [title; description; priority; status] ->
  (forall s, deadline = Some s -> timestamptz_in s <> None) ->
  (forall r, In r (tasks d) ->
             ~ (Tasks.task_id r = n /\ Tasks.user_id r = Claims.user_id user)) ->
  put user id title description priority status deadline now d =
  (mkResponse 404 (Error "Task not found"), d).
Proof.
  intros Hid Htext Hdl Hnone.
  destruct (opt_time_converts deadline Hdl) as [dl Hconv].
  pose proof (not_owned_task n (Claims.user_id user) (tasks d) Hnone) as Hno.
  unfold put_task, Pg.update_task, Pg.to_int.
  rewrite (check_all_ok _ Htext), Hconv, Hid. cbn.
  rewrite (filter_nothing _ _ Hno). cbn.
  rewrite filter_everything
    by (intros r Hr; rewrite (Hno r Hr); reflexivity).
  rewrite List.app_nil_r, same_store. reflexivity.
Qed.

Lemma del_no_match (user : Claims.t) (id : string) (d : db) (n : Z) :
  int4in id = Some n ->
  (forall r, In r (tasks d) ->
             ~ (Tasks.task_id r = n /\ Tasks.user_id r = Claims.user_id user)) ->
  del user id d = (mkResponse 404 (Error "Task not found"), d).
Proof.
  intros Hid Hnone.
  pose proof (not_owned_task n (Claims.user_id user) (tasks d) Hnone) as Hno.
  unfold delete_task, Pg.delete_task, Pg.to_int. rewrite Hid. simpl.
  rewrite (filter_nothing _ _ Hno).
  rewrite filter_everything
    by (intros r Hr; rewrite (Hno r Hr); reflexivity).
  rewrite same_store. reflexivity.
Qed.

Lemma put_code (user : Claims.t) (id : string)
      (title description priority status deadline : option string)
      (now : clock) (d : db) :
  let c := code (fst (put user id title description priority status deadline now d)) in
  c = 200%nat \/ c = 404%nat \/ c = 500%nat.
Proof.
  unfold put_task.
  destruct (Pg.update_task _ _ _ _ _ _ _ _ _ _ _) as [[rows tbl]|e]; simpl.
  - destruct rows; simpl; auto.
  - auto.
Qed.

Lemma del_code (user : Claims.t) (id : string) (d : db) :
  let c := code (fst (del user id d)) in
  c = 200%nat \/ c = 404%nat \/ c = 500%nat.
Proof.
  unfold delete_task.
  destruct (Pg.delete_task _ _ _ _) as [[rows tbl]|e]; simpl.
  - destruct rows; simpl; auto.
  - auto.
Qed.

(** C2.  Update and delete match on the task identifier and the owner
    together.  Neither ever answers 403.  When the statement runs (the
    identifier reads as an integer and, for update, the supplied text
    is text of the datastore and a supplied deadline reads as a
    timestamp) and no row has both the identifier and the principal as
    owner, the answer is 404 and the store is unchanged; this covers a
    task that exists under another owner, which is still in the store
    afterwards. *)
Theorem mutation_matches_id_and_owner
        (user : Claims.t) (id : string)
        (title description priority status deadline : option string)
        (now : clock) (d : db) :
  (code (fst (put user id title description priority status deadline now d))
     <> 403%nat
   /\ code (fst (del user id d)) <> 403%nat)
  /\ (forall n,
         int4in id = Some n ->
         Forall acceptable [title; description; priority; status] ->
         (forall s, deadline = Some s -> timestamptz_in s <> None) ->
         (forall r, In r (tasks d) ->
                    ~ (Tasks.task_id r = n
                       /\ Tasks.user_id r = Claims.user_id user)) ->
         put user id title description priority status deadline now d =
           (mkResponse 404 (Error "Task not found"), d))
  /\ (forall n,
         int4in id = Some n ->
         (forall r, In r (tasks d) ->
                    ~ (Tasks.task_id r = n
                       /\ Tasks.user_id r = Claims.user_id user)) ->
         del user id d = (mkResponse 404 (Error "Task not found"), d))
  /\ (forall n r,
         int4in id = Some n ->
         In r (tasks d) -> Tasks.task_id r = n ->
         Tasks.user_id r <> Claims.user_id user ->
         (forall r', In r' (tasks d) -> Tasks.task_id r' = n -> r' = r) ->
         del user id d = (mkResponse 404 (Error "Task not found"), d)
         /\ In r (tasks (snd (del user id d)))
         /\ (Forall acceptable [title; description; priority; status] ->
             (forall s, deadline = Some s -> timestamptz_in s <> None) ->
             put user id title description priority status deadline now d =
               (mkResponse 404 (Error "Task not found"), d))).
Proof.
  split; [|split; [|split]].
  - split.
    + pose proof (put_code user id title description priority status deadline now d)
        as H. simpl in H. intros Hc. rewrite Hc in H.
      destruct H as [H|[H|H]]; discriminate.
    + pose proof (del_code user id d) as H. simpl in H. intros Hc.
      rewrite Hc in H. destruct H as [H|[H|H]]; discriminate.
  - intros n Hid Htext Hdl Hnone.
    apply (put_no_match user id title description priority status deadline
                        now d n Hid Htext Hdl Hnone).
  - intros n Hid Hnone. apply (del_no_match user id d n Hid Hnone).
  - intros n r Hid Hr Hn Hother Hkey.
    assert (Hnone : forall r', In r' (tasks d) ->
              ~ (Tasks.task_id r' = n /\ Tasks.user_id r' = Claims.user_id user)).
    { intros r' Hr' [Hn' Hu']. apply Hother.
      rewrite <- (Hkey r' Hr' Hn'). exact Hu'. }
    rewrite (del_no_match user id d n Hid Hnone).
    repeat split.
    + exact Hr.
    + intros Htext Hdl.
      apply (put_no_match user id title description priority status deadline
                          now d n Hid Htext Hdl Hnone).
Qed.

(** C4 as amended.  A PUT on a task of the principal, with supplied
    text that the datastore accepts, keeps the stored value of every
    field that the body leaves out and stamps [updated_at] with the
    datastore's current time; identifier, owner and creation time
    stay.  With all five fields left out the row afterwards is the row
    before with only [updated_at] replaced by that time.  Rows the
    statement does not match, and the users, are as before. *)
Theorem partial_update_keeps_absent_fields
        (user : Claims.t) (id : string)
        (title description priority status deadline : option string)
        (now : clock) (d : db) (n : Z) (r : Tasks.row) :
  int4in id = Some n ->
  Forall acceptable [title; description; priority; status] ->
  (forall s, deadline = Some s -> timestamptz_in s <> None) ->
  In r (tasks d) ->
  Tasks.task_id r = n ->
  Tasks.user_id r = Claims.user_id user ->
  let d' := snd (put user id title description priority status deadline now d) in
  exists r',
    In r' (tasks d')
    /\ Tasks.task_id r' = Tasks.task_id r
    /\ Tasks.user_id r' = Tasks.user_id r
    /\ Tasks.created_at r' = Tasks.created_at r
    /\ (title = None -> Tasks.title r' = Tasks.title r)
    /\ (description = None -> Tasks.description r' = Tasks.description r)
    /\ (priority = None -> Tasks.priority r' = Tasks.priority r)
    /\ (status = None -> Tasks.status r' = Tasks.status r)
    /\ (deadline = None -> Tasks.deadline r' = Tasks.deadline r)
    /\ Tasks.updated_at r' = timestamp now
    /\ (title = None -> description = None -> priority = None ->
        status = None -> deadline = None ->
        r' = Tasks.mk (Tasks.task_id r) (Tasks.user_id r) (Tasks.title r)
                      (Tasks.description r) (Tasks.priority r)
                      (Tasks.status r) (Tasks.deadline r)
                      (Tasks.created_at r) (timestamp now))
    /\ (forall other,
           In other (tasks d) ->
           ~ (Tasks.task_id other = n
              /\ Tasks.user_id other = Claims.user_id user) ->
           In other (tasks d'))
    /\ users d' = users d.
Proof.
  intros Hid Htext Hdl Hin Hn Hu d'.
  destruct (opt_time_converts deadline Hdl) as [dl Hconv].
  assert (Hown : Pg.owned_task n (Claims.user_id user) r = true)
    by (apply owned_task_iff; split; assumption).
  assert (Hd' : d' = mkDb (users d)
            (filter (fun x => negb (Pg.owned_task n (Claims.user_id user) x))
                    (tasks d)
             ++ map (Pg.set_fields title description priority status dl
                                   (timestamp now))
                    (filter (Pg.owned_task n (Claims.user_id user)) (tasks d)))
            (tasks_seq d)).
  { subst d'. rewrite put_store, (check_all_ok _ Htext), Hconv, Hid.
    reflexivity. }
  rewrite Hd'. cbn [tasks users].
  exists (Pg.set_fields title description priority status dl (timestamp now) r).
  split.
  { apply in_or_app. right. apply in_map. apply filter_In. split; assumption. }
  cbn [Pg.set_fields Tasks.task_id Tasks.user_id Tasks.created_at Tasks.title
       Tasks.description Tasks.priority Tasks.status Tasks.deadline
       Tasks.updated_at].
  repeat split; try (intros ->; reflexivity).
  - intros ->. simpl in Hconv. injection Hconv as <-. reflexivity.
  - intros -> -> -> -> ->. simpl in Hconv. injection Hconv as <-. reflexivity.
  - intros other Ho Hno. apply in_or_app. left. apply filter_In.
    split; [exact Ho|]. apply negb_true_iff. apply not_true_is_false.
    intros Hm. apply Hno. apply owned_task_iff. exact Hm.
Qed.

(** ** The task query builder *)

Lemma truthy_nonempty (v : option string) :
  JS.truthy v = true <-> nonempty v.
Proof.
  unfold nonempty. destruct v as [s|]; simpl.
  - destruct (String.eqb_spec s "") as [->|Hne]; simpl; split.
    + discriminate.
    + intros [s [Hs Hne]]. injection Hs as <-. contradiction.
    + intros _. exists s. split; [reflexivity | exact Hne].
    + reflexivity.
  - split; [discriminate|]. intros [s [Hs _]]. discriminate.
Qed.

Lemma truthy_agree (v w : option string) :
  (nonempty v <-> nonempty w) -> JS.truthy v = JS.truthy w.
Proof.
  intros H. rewrite <- !truthy_nonempty in H.
  destruct (JS.truthy v), (JS.truthy w); try reflexivity.
  - symmetry. apply H. reflexivity.
  - apply H. reflexivity.
Qed.

(** C5 as amended.  Two requests whose non-empty filters are the same
    dimensions produce the same query text, whatever the values and
    whoever the principal.  The values travel in the parameter array:
    after the principal, the non-empty ones of status and priority as
    they are and the non-empty search between two percent signs, in
    this order; the counter that numbers the placeholders is the
    length of that array. *)
Theorem query_text_fixed_by_supplied_filters
        (uid1 uid2 : Z) (status1 priority1 search1 : option string)
        (status2 priority2 search2 : option string) :
  (nonempty status1 <-> nonempty status2) ->
  (nonempty priority1 <-> nonempty priority2) ->
  (nonempty search1 <-> nonempty search2) ->
  queryText (build_query uid1 status1 priority1 search1) =
  queryText (build_query uid2 status2 priority2 search2)
  /\ queryParams (build_query uid1 status1 priority1 search1) =
     (JS.Num uid1
        :: bound_value status1 ++ bound_value priority1 ++ bound_search search1)%list
  /\ paramCount (build_query uid1 status1 priority1 search1) =
     List.length (queryParams (build_query uid1 status1 priority1 search1)).
Proof.
  intros Hs Hp Hq.
  apply truthy_agree in Hs. apply truthy_agree in Hp. apply truthy_agree in Hq.
  split.
  - unfold build_query. rewrite <- Hs, <- Hp, <- Hq.
    destruct (JS.truthy status1), (JS.truthy priority1), (JS.truthy search1);
      reflexivity.
  - clear Hs Hp Hq. unfold build_query.
    destruct status1 as [s|], priority1 as [p|], search1 as [q|];
      cbn [JS.truthy bound_value bound_search];
      repeat match goal with
             | |- context [(?a =? "")%string] => destruct (a =? "")%string
             end;
      split; reflexivity.
Qed.

(** *** What the datastore does with the built query *)

Lemma valid_text_append (a b : string) :
  Pg.valid_text (a ++ b) = Pg.valid_text a && Pg.valid_text b.
Proof.
  induction a as [|c a IH]; [reflexivity|].
  cbn [String.append Pg.valid_text]. rewrite IH, andb_assoc. reflexivity.
Qed.

Lemma valid_text_pattern (q : string) :
  Pg.valid_text ("%" ++ q ++ "%") = Pg.valid_text q.
Proof.
  rewrite !valid_text_append. change (Pg.valid_text "%") with true.
  rewrite andb_true_r. reflexivity.
Qed.

Lemma accepted_iff (v : option string) : accepted v = true <-> acceptable v.
Proof.
  unfold acceptable. destruct v as [s|]; simpl; split.
  - intros H s' Hs. injection Hs as <-. exact H.
  - intros H. apply H. reflexivity.
  - intros _ s Hs. discriminate.
  - reflexivity.
Qed.

Lemma filter_cases (v : option string) :
  (JS.truthy v = false /\ accepted v = true)
  \/ (exists s, v = Some s /\ JS.truthy v = true).
Proof.
  destruct v as [s|]; [|left; split; reflexivity].
  simpl. destruct (String.eqb_spec s "") as [->|Hne].
  - left. split; reflexivity.
  - right. exists s. split; reflexivity.
Qed.

(** The answer of GET /tasks: the rows the built query selects, unless
    a filter holds what the datastore refuses as text. *)
Lemma get_tasks_outcome (user : Claims.t) (status priority search : option string)
      (d : db) :
  get user status priority search d =
  if accepted status && accepted priority && accepted search then
    mkResponse 200
      (TaskRows (filter (selects fold (Claims.user_id user) status priority search)
                        (tasks d)))
  else failed InvalidByteSequence.
Proof.
  unfold get_tasks, build_query, selects.
  destruct (filter_cases status) as [[Hs ->]|[s [-> Hs]]];
  destruct (filter_cases priority) as [[Hp ->]|[p [-> Hp]]];
  destruct (filter_cases search) as [[Hq ->]|[q [-> Hq]]];
  rewrite Hs, Hp, Hq;
  cbn [queryText queryParams add_status add_priority add_search paramCount
       JS.template accepted];
  unfold Pg.query_tasks; run_parser.
  all: cbn -[Like.ilike filter Pg.valid_text Pg.check_text String.append].
  all: unfold Pg.check_text; rewrite ?valid_text_pattern.
  all: repeat match goal with
              | |- context [Pg.valid_text ?a] => destruct (Pg.valid_text a)
              end; cbn -[Like.ilike filter String.append]; try reflexivity.
  all: do 2 f_equal; apply filter_ext; intros r;
    (destruct (Tasks.user_id r =? Claims.user_id user); [|reflexivity]);
    destruct (Tasks.priority r), (Tasks.title r), (Tasks.description r);
    cbn -[Like.ilike String.append];
    repeat match goal with
           | |- context [(?a =? ?b)%string] => destruct (a =? b)%string
           | |- context [Like.ilike fold ?a ?b] => destruct (Like.ilike fold a b)
           end; reflexivity.
Qed.

Lemma get_tasks_selects (user : Claims.t) (status priority search : option string)
      (d : db) :
  acceptable status -> acceptable priority -> acceptable search ->
  get user status priority search d =
  mkResponse 200
    (TaskRows (filter (selects fold (Claims.user_id user) status priority search)
                      (tasks d))).
Proof.
  intros Hs Hp Hq. rewrite get_tasks_outcome.
  apply accepted_iff in Hs. apply accepted_iff in Hp. apply accepted_iff in Hq.
  rewrite Hs, Hp, Hq. reflexivity.
Qed.

Lemma acceptable_none : acceptable None.
Proof. intros s Hs. discriminate. Qed.

Lemma acceptable_empty : acceptable (Some "").
Proof. intros s Hs. injection Hs as <-. reflexivity. Qed.


(** C10.  A filter that is present but empty is treated as absent: the
    builder produces the very query, text and parameters, that it
    produces without that filter, so the answer is the one without that
    filter; with all three filters empty it is all the principal's
    tasks, not those whose fields are empty. *)
Theorem empty_filter_is_absent
        (user : Claims.t) (status priority search : option string) (d : db) :
  build_query (Claims.user_id user) (Some "") priority search =
    build_query (Claims.user_id user) None priority search
  /\ build_query (Claims.user_id user) status (Some "") search =
     build_query (Claims.user_id user) status None search
  /\ build_query (Claims.user_id user) status priority (Some "") =
     build_query (Claims.user_id user) status priority None
  /\ get user (Some "") priority search d = get user None priority search d
  /\ get user status (Some "") search d = get user status None search d
  /\ get user status priority (Some "") d = get user status priority None d
  /\ get user (Some "") (Some "") (Some "") d =
     mkResponse 200 (TaskRows (filter (owned (Claims.user_id user)) (tasks d))).
Proof.
  repeat (split; [reflexivity|]).
  rewrite get_tasks_selects by apply acceptable_empty.
  do 2 f_equal. apply filter_ext. intros r.
  unfold selects, owned. cbn [JS.truthy String.eqb negb].
  rewrite !andb_true_r. reflexivity.
Qed.

(** *** Patterns without wildcards *)

Lemma like_percent (p s : string) :
  Like.like (String "%" p) s =
  Like.like p s ||
  match s with
  | EmptyString => false
  | String _ s' => Like.like (String "%" p) s'
  end.
Proof. destruct s; reflexivity. Qed.

Lemma like_literal (c : ascii) (p s : string) :
  Like.wildcard c = false ->
  Like.like (String c p) s =
  match s with
  | EmptyString => false
  | String d s' => Ascii.eqb c d && Like.like p s'
  end.
Proof.
  unfold Like.wildcard. intros H.
  apply orb_false_iff in H as [H Hb]. apply orb_false_iff in H as [Hp Hu].
  cbn [Like.like]. rewrite Hp, Hu, Hb. reflexivity.
Qed.

Lemma like_any (s : string) : Like.like "%" s = true.
Proof.
  induction s as [|c s IH]; [reflexivity|].
  rewrite like_percent, IH. reflexivity.
Qed.

Lemma prefix_cons (c d : ascii) (w s : string) :
  prefix (String c w) (String d s) = Ascii.eqb c d && prefix w s.
Proof.
  simpl. destruct (ascii_dec c d) as [->|Hne].
  - rewrite Ascii.eqb_refl. reflexivity.
  - apply Ascii.eqb_neq in Hne. rewrite Hne. reflexivity.
Qed.

Lemma like_plain_prefix (w : string) :
  Like.plain w = true ->
  forall s, Like.like (w ++ "%") s = prefix w s.
Proof.
  induction w as [|c w IH]; intros Hw s.
  - cbn [String.append]. rewrite like_any. destruct s; reflexivity.
  - cbn [Like.plain] in Hw. apply andb_prop in Hw as [Hc Hw].
    apply negb_true_iff in Hc.
    cbn [String.append]. rewrite (like_literal c (w ++ "%") s Hc).
    destruct s as [|d s]; [reflexivity|].
    rewrite prefix_cons, (IH Hw). reflexivity.
Qed.

Lemma like_plain_contains (w : string) :
  Like.plain w = true ->
  forall s, Like.like ("%" ++ w ++ "%") s = Like.contains w s.
Proof.
  intros Hw. induction s as [|c s IH].
  - change ("%" ++ w ++ "%") with (String "%" (w ++ "%")).
    rewrite like_percent, (like_plain_prefix w Hw). reflexivity.
  - change ("%" ++ w ++ "%") with (String "%" (w ++ "%")) in *.
    rewrite like_percent, (like_plain_prefix w Hw), IH. reflexivity.
Qed.

Lemma wildcard_lower (c : ascii) :
  Like.wildcard (Like.lower_char c) = Like.wildcard c.
Proof. destruct c as [[] [] [] [] [] [] [] []]; reflexivity. Qed.

Lemma plain_lower (w : string) :
  Like.plain w = true -> Like.plain (Like.lower w) = true.
Proof.
  induction w as [|c w IH]; [reflexivity|].
  cbn [Like.plain Like.lower]. rewrite wildcard_lower.
  intros H. apply andb_prop in H as [Hc Hw]. rewrite Hc, (IH Hw). reflexivity.
Qed.

Lemma lower_append (a b : string) :
  Like.lower (a ++ b) = Like.lower a ++ Like.lower b.
Proof.
  induction a as [|c a IH]; [reflexivity|].
  cbn [String.append Like.lower]. rewrite IH. reflexivity.
Qed.

Lemma ilike_plain_contains (w s : string) :
  keeps_patterns fold ->
  Like.plain w = true ->
  Like.ilike fold ("%" ++ w ++ "%") s =
  Like.contains (fold (Like.lower w)) (fold (Like.lower s)).
Proof.
  intros [Hhead [Htail Hplain]] Hw. unfold Like.ilike.
  rewrite !lower_append. change (Like.lower "%") with "%".
  change ("%" ++ Like.lower w ++ "%") with (String "%" (Like.lower w ++ "%")).
  rewrite Hhead, Htail.
  apply (like_plain_contains (fold (Like.lower w))).
  apply Hplain, plain_lower, Hw.
Qed.

Lemma selects_satisfies (uid : Z) (status priority search : option string)
      (r : Tasks.row) :
  keeps_patterns fold ->
  (forall w, search = Some w -> Like.plain w = true) ->
  selects fold uid status priority search r =
  satisfies fold uid status priority search r.
Proof.
  intros Hfold Hplain. unfold selects, satisfies, wanted.
  f_equal; [f_equal; [f_equal|]|].
  - destruct status as [w|]; [|reflexivity]. cbn [JS.truthy JS.template].
    destruct (w =? "")%string; reflexivity.
  - destruct priority as [w|]; [|reflexivity]. cbn [JS.truthy JS.template].
    destruct (w =? "")%string; reflexivity.
  - destruct search as [w|]; [|reflexivity]. cbn [JS.truthy JS.template].
    destruct (w =? "")%string; [reflexivity|]. cbn [negb].
    unfold ilike_field, icontains.
    destruct (Tasks.title r), (Tasks.description r);
      rewrite ?(ilike_plain_contains w _ Hfold (Hplain w eq_refl)); reflexivity.
Qed.

Lemma selects_without (uid : Z) (status priority search : option string)
      (r : Tasks.row) :
  selects fold uid status priority search r = true ->
  selects fold uid None priority search r = true
  /\ selects fold uid status None search r = true
  /\ selects fold uid status priority None r = true.
Proof.
  unfold selects. cbn [JS.truthy]. intros H.
  apply andb_prop in H as [H Hq]. apply andb_prop in H as [H Hp].
  apply andb_prop in H as [Hu Hs].
  rewrite Hu, ?Hs, ?Hp, ?Hq. repeat split.
Qed.

(** The rows of an answer of GET /tasks are rows the built query
    selects. *)
Lemma listed_rows (user : Claims.t) (status priority search : option string)
      (d : db) (r : Tasks.row) :
  In r (rows_of (get user status priority search d)) <->
  accepted status && accepted priority && accepted search = true
  /\ In r (tasks d)
  /\ selects fold (Claims.user_id user) status priority search r = true.
Proof.
  rewrite get_tasks_outcome.
  destruct (accepted status && accepted priority && accepted search);
    unfold rows_of; cbn [content failed].
  - rewrite filter_In. split.
    + intros H. split; [reflexivity | exact H].
    + intros [_ H]. exact H.
  - split; [contradiction|]. intros [H _]. discriminate.
Qed.

(** C3 as amended.  For every principal and every combination of the
    filters in which each value is text the datastore accepts and the
    search holds none of the pattern characters percent, underscore
    and backslash, the case of letters being folded by the database's
    character type, which leaves the percent signs of a pattern in
    place and makes no pattern character: the answer of GET /tasks is
    200 with exactly the principal's tasks that meet every non-empty
    filter, status and priority by equality, the search as a
    case-insensitive substring of the title or of the description.
    Whatever the values, leaving a filter out gives a superset of the
    answer with it, and with no filter the answer is all the
    principal's tasks. *)
Theorem filtered_tasks_for_plain_search
        (user : Claims.t) (status priority search : option string) (d : db) :
  (keeps_patterns fold ->
   acceptable status -> acceptable priority -> acceptable search ->
   (forall w, search = Some w -> Like.plain w = true) ->
   get user status priority search d =
   mkResponse 200
     (TaskRows (filter (satisfies fold (Claims.user_id user) status priority search)
                       (tasks d))))
  /\ incl (rows_of (get user status priority search d))
          (rows_of (get user None priority search d))
  /\ incl (rows_of (get user status priority search d))
          (rows_of (get user status None search d))
  /\ incl (rows_of (get user status priority search d))
          (rows_of (get user status priority None d))
  /\ get user None None None d =
     mkResponse 200 (TaskRows (filter (owned (Claims.user_id user)) (tasks d))).
Proof.
  split; [|split; [|split; [|split]]].
  - intros Hfold Hs Hp Hq Hplain. rewrite (get_tasks_selects _ _ _ _ _ Hs Hp Hq).
    do 2 f_equal. apply filter_ext. intros r.
    apply (selects_satisfies _ _ _ _ _ Hfold Hplain).
  - intros r Hr. apply listed_rows in Hr as [Ha [Hin Hr]]. apply listed_rows.
    apply andb_prop in Ha as [Ha Hq]. apply andb_prop in Ha as [_ Hp].
    cbn [accepted]. rewrite Hp, Hq.
    repeat split; [exact Hin|]. apply (selects_without _ _ _ _ _ Hr).
  - intros r Hr. apply listed_rows in Hr as [Ha [Hin Hr]]. apply listed_rows.
    apply andb_prop in Ha as [Ha Hq]. apply andb_prop in Ha as [Hs _].
    cbn [accepted]. rewrite Hs, Hq.
    repeat split; [exact Hin|]. apply (selects_without _ _ _ _ _ Hr).
  - intros r Hr. apply listed_rows in Hr as [Ha [Hin Hr]]. apply listed_rows.
    apply andb_prop in Ha as [Ha _]. apply andb_prop in Ha as [Hs Hp].
    cbn [accepted]. rewrite Hs, Hp.
    repeat split; [exact Hin|]. apply (selects_without _ _ _ _ _ Hr).
  - rewrite get_tasks_selects by apply acceptable_none.
    do 2 f_equal. apply filter_ext. intros r.
    unfold selects, owned. cbn [JS.truthy]. rewrite !andb_true_r. reflexivity.
Qed.

(** ** Dashboard statistics *)

Lemma digits_of_uint (u : Decimal.uint) :
  forall acc,
    JS.digits (Some acc) (NilEmpty.string_of_uint u) =
    (Some (Nat.of_uint_acc u acc), EmptyString).
Proof.
  induction u as [|u IH|u IH|u IH|u IH|u IH|u IH|u IH|u IH|u IH|u IH];
    intros acc; [reflexivity|..];
    cbn [NilEmpty.string_of_uint JS.digits Nat.of_uint_acc];
    change (nat_of_ascii _) with 48%nat || change (nat_of_ascii _) with 49%nat
    || change (nat_of_ascii _) with 50%nat || change (nat_of_ascii _) with 51%nat
    || change (nat_of_ascii _) with 52%nat || change (nat_of_ascii _) with 53%nat
    || change (nat_of_ascii _) with 54%nat || change (nat_of_ascii _) with 55%nat
    || change (nat_of_ascii _) with 56%nat || change (nat_of_ascii _) with 57%nat;
    cbn [Nat.leb andb Nat.sub]; rewrite IH, Nat.tail_mul_spec;
    do 3 f_equal; lia.
Qed.

Lemma to_uint_not_nil (n : nat) : Nat.to_uint n <> Decimal.Nil.
Proof.
  rewrite <- (DecimalNat.Unsigned.of_to n) at 1.
  rewrite DecimalNat.Unsigned.to_of. apply DecimalFacts.unorm_nonnil.
Qed.

Lemma parseInt_num_to_string (n : nat) :
  JS.parseInt (JS.num_to_string n) = Some n.
Proof.
  unfold JS.parseInt, JS.num_to_string.
  assert (H : JS.digits None (NilEmpty.string_of_uint (Nat.to_uint n)) =
              JS.digits (Some 0%nat) (NilEmpty.string_of_uint (Nat.to_uint n))).
  { pose proof (to_uint_not_nil n) as Hn.
    destruct (Nat.to_uint n); [contradiction|..]; reflexivity. }
  rewrite H, digits_of_uint. cbn [fst]. f_equal.
  apply DecimalNat.Unsigned.of_to.
Qed.

Lemma count_tally (test : Tasks.row -> Pg.tri) (spec : Tasks.row -> bool)
      (tbl : list Tasks.row) :
  (forall r, Pg.holds (test r) = spec r) ->
  JS.parseInt (Pg.count test tbl) = Some (tally spec tbl).
Proof.
  intros H. unfold Pg.count, tally. rewrite parseInt_num_to_string.
  rewrite (filter_ext _ _ H). reflexivity.
Qed.

Lemma dashboard_counts (user : Claims.t) (now : clock) (d : db) :
  get_dashboard_stats user now d =
  let mine := owned (Claims.user_id user) in
  mkResponse 200
    (Stats (Some (tally mine (tasks d)))
           (Some (tally (fun r => mine r && is_completed r) (tasks d)))
           (Some (tally (fun r => mine r && is_pending r) (tasks d)))
           (Some (tally (fun r => mine r && is_high r) (tasks d)))
           (Some (tally (fun r => mine r && is_overdue (timestamp now) r)
                        (tasks d)))).
Proof.
  unfold get_dashboard_stats. cbv zeta.
  rewrite (count_tally (Pg.by_user (Claims.user_id user))
                       (owned (Claims.user_id user))).
  2: { intros r. unfold Pg.by_user, owned. simpl.
       destruct (Tasks.user_id r =? Claims.user_id user); reflexivity. }
  rewrite (count_tally (Pg.by_user_status (Claims.user_id user) "Completed")
             (fun r => owned (Claims.user_id user) r && is_completed r)).
  2: { intros r. unfold Pg.by_user_status, Pg.by_user, owned, is_completed.
       cbn [Pg.cell_eq].
       destruct (Tasks.user_id r =? Claims.user_id user),
                (Tasks.status r =? "Completed")%string; reflexivity. }
  rewrite (count_tally (Pg.by_user_status (Claims.user_id user) "Pending")
             (fun r => owned (Claims.user_id user) r && is_pending r)).
  2: { intros r. unfold Pg.by_user_status, Pg.by_user, owned, is_pending.
       cbn [Pg.cell_eq].
       destruct (Tasks.user_id r =? Claims.user_id user),
                (Tasks.status r =? "Pending")%string; reflexivity. }
  rewrite (count_tally (Pg.by_user_priority (Claims.user_id user) "High")
             (fun r => owned (Claims.user_id user) r && is_high r)).
  2: { intros r. unfold Pg.by_user_priority, Pg.by_user, owned, is_high, text_is.
       destruct (Tasks.priority r) as [p|]; cbn [Pg.cell_eq Pg.of_text].
       - destruct (Tasks.user_id r =? Claims.user_id user),
                  (p =? "High")%string; reflexivity.
       - destruct (Tasks.user_id r =? Claims.user_id user); reflexivity. }
  rewrite (count_tally (Pg.overdue (Claims.user_id user) (timestamp now))
             (fun r => owned (Claims.user_id user) r
                       && is_overdue (timestamp now) r)).
  2: { intros r. unfold Pg.overdue, Pg.by_user, owned, is_overdue, is_completed.
       destruct (Tasks.deadline r) as [t|];
         cbn [Pg.cell_eq Pg.of_time Pg.cell_lt Pg.not3 option_map].
       - destruct (Tasks.user_id r =? Claims.user_id user),
                  (Tasks.status r =? "Completed")%string,
                  (t <? timestamp now); reflexivity.
       - destruct (Tasks.user_id r =? Claims.user_id user),
                  (Tasks.status r =? "Completed")%string; reflexivity. }
  reflexivity.
Qed.

Lemma completed_not_pending (r : Tasks.row) :
  is_completed r = true -> is_pending r = false.
Proof.
  unfold is_completed, is_pending. intros H.
  apply String.eqb_eq in H. rewrite H. reflexivity.
Qed.

Lemma tally_disjoint (base a b : Tasks.row -> bool) (tbl : list Tasks.row) :
  (forall r, a r = true -> b r = false) ->
  (tally (fun r => base r && a r) tbl + tally (fun r => base r && b r) tbl
   <= tally base tbl)%nat.
Proof.
  intros Hab. unfold tally.
  induction tbl as [|r tbl IH]; [reflexivity|].
  cbn [filter]. specialize (Hab r).
  destruct (base r), (a r), (b r); cbn [andb List.length];
    try (specialize (Hab eq_refl); discriminate); lia.
Qed.

(** C6.  The dashboard answers 200 with five counts over the
    principal's tasks: all of them; those whose status is exactly
    "Completed"; those whose status is exactly "Pending"; those whose
    priority is exactly "High"; and the overdue ones, whose status is
    not "Completed" and whose deadline is strictly before the
    datastore's current time. *)
Theorem dashboard_counts_scoped_to_principal
        (user : Claims.t) (now : clock) (d : db) :
  get_dashboard_stats user now d =
  mkResponse 200
    (Stats
       (Some (tally (owned (Claims.user_id user)) (tasks d)))
       (Some (tally (fun r => owned (Claims.user_id user) r
                              && (Tasks.status r =? "Completed")%string)
                    (tasks d)))
       (Some (tally (fun r => owned (Claims.user_id user) r
                              && (Tasks.status r =? "Pending")%string)
                    (tasks d)))
       (Some (tally (fun r => owned (Claims.user_id user) r
                              && match Tasks.priority r with
                                 | Some p => (p =? "High")%string
                                 | None => false
                                 end)
                    (tasks d)))
       (Some (tally (fun r => owned (Claims.user_id user) r
                              && (negb (Tasks.status r =? "Completed")%string
                                  && match Tasks.deadline r with
                                     | Some t => t <? timestamp now
                                     | None => false
                                     end))
                    (tasks d)))).
Proof. apply dashboard_counts. Qed.

(** C7.  In every store and for every principal the dashboard's counts
    satisfy completedTasks + pendingTasks <= totalTasks. *)
Theorem completed_plus_pending_within_total
        (user : Claims.t) (now : clock) (d : db) :
  exists total completed pending high overdue : nat,
    content (get_dashboard_stats user now d) =
      Stats (Some total) (Some completed) (Some pending) (Some high) (Some overdue)
    /\ (completed + pending <= total)%nat.
Proof.
  rewrite dashboard_counts. cbv zeta. cbn [content].
  do 5 eexists. split; [reflexivity|].
  apply tally_disjoint, completed_not_pending.
Qed.
End Properties.

(* ===================================================================== *)
(** * The properties on the sample deployment *)
(* ===================================================================== *)

(** The gate on the dashboard and delete routes: no header, a forged
    token, Alice's token after its expiry, Alice's token in time. *)
Lemma gate_guards_protected_routes_witness :
  protected_route GetDashboardStats = true
  /\ Sample.run (mkRequest None GetDashboardStats) Sample.noon Sample.store =
     (mkResponse 401 NoBody, Sample.store)
  /\ Sample.run (mkRequest (Some "Bearer forged") (DeleteTask "1"))
                Sample.noon Sample.store =
     (mkResponse 403 NoBody, Sample.store)
  /\ Sample.run (mkRequest (Some "Bearer s3cret.1.1000.4600") GetDashboardStats)
                (mkClock 5000 100) Sample.store =
     (mkResponse 403 NoBody, Sample.store)
  /\ Sample.run (mkRequest (Some "Bearer s3cret.1.1000.4600") GetDashboardStats)
                Sample.noon Sample.store =
     Sample.handle GetDashboardStats Sample.alice Sample.noon Sample.store.
Proof.
  split; [reflexivity|]. split; [|split; [|split]].
  - apply (gate_guards_protected_routes
             Sample.fold Sample.encode Sample.decode Sample.secret Sample.bcrypt_compare
             Sample.int4in Sample.timestamptz_in
             (mkRequest None GetDashboardStats) Sample.noon Sample.store eq_refl).
    reflexivity.
  - apply (proj1 (proj2 (gate_guards_protected_routes
             Sample.fold Sample.encode Sample.decode Sample.secret Sample.bcrypt_compare
             Sample.int4in Sample.timestamptz_in
             (mkRequest (Some "Bearer forged") (DeleteTask "1"))
             Sample.noon Sample.store eq_refl)) "forged");
      [reflexivity | discriminate | reflexivity].
  - apply (proj1 (proj2 (proj2 (gate_guards_protected_routes
             Sample.fold Sample.encode Sample.decode Sample.secret Sample.bcrypt_compare
             Sample.int4in Sample.timestamptz_in
             (mkRequest (Some "Bearer s3cret.1.1000.4600") GetDashboardStats)
             (mkClock 5000 100) Sample.store eq_refl))) Sample.alice_jwt Sample.alice);
      [reflexivity | discriminate | reflexivity | simpl; lia].
  - apply (proj2 (proj2 (proj2 (gate_guards_protected_routes
             Sample.fold Sample.encode Sample.decode Sample.secret Sample.bcrypt_compare
             Sample.int4in Sample.timestamptz_in
             (mkRequest (Some "Bearer s3cret.1.1000.4600") GetDashboardStats)
             Sample.noon Sample.store eq_refl))) Sample.alice_jwt Sample.alice);
      [reflexivity | discriminate | reflexivity | simpl; lia].
Defined.

(** A scheme word other than Bearer, and a bare token. *)
Lemma gate_ignores_scheme_word_witness :
  (spaceless "Token" = true /\ spaceless Sample.alice_jwt = true /\ Sample.alice_jwt <> ""
   /\ Sample.gate (Some "Token s3cret.1.1000.4600") 2000 = Next Sample.alice)
  /\ (spaceless Sample.alice_jwt = true
      /\ Sample.gate (Some Sample.alice_jwt) 2000 = SendStatus 401).
Proof.
  split.
  - split; [reflexivity|]. split; [reflexivity|]. split; [discriminate|].
    apply (proj1 (gate_ignores_scheme_word Sample.decode Sample.secret 2000)
                 "Token" Sample.alice_jwt);
      [reflexivity | reflexivity | discriminate].
  - split; [reflexivity|].
    apply (proj2 (gate_ignores_scheme_word Sample.decode Sample.secret 2000)
                 Sample.alice_jwt).
    reflexivity.
Defined.

(** Login: an unknown email, Bob with a wrong password, Bob with his
    password. *)
Lemma login_outcomes_witness :
  Sample.run (mkRequest None (PostLogin (Some "eve@example.org") (Some "x")))
             Sample.noon Sample.store =
    (mkResponse 400 (Error "User not found"), Sample.store)
  /\ Sample.run (mkRequest None (PostLogin (Some "bob@example.org") (Some "guess")))
                Sample.noon Sample.store =
     (mkResponse 401 (Error "Invalid password"), Sample.store)
  /\ Sample.run (mkRequest None (PostLogin (Some "bob@example.org") (Some "builder")))
                Sample.noon Sample.store =
     (mkResponse 200 (Token (Sample.encode (Claims.mk 2 2000 5600) Sample.secret)),
      Sample.store).
Proof.
  split; [|split].
  - apply (login_outcomes
             Sample.fold Sample.encode Sample.decode Sample.secret
             Sample.bcrypt_compare Sample.int4in Sample.timestamptz_in
             (mkRequest None (PostLogin (Some "eve@example.org") (Some "x")))
             Sample.noon Sample.store _ _ eq_refl).
    + intros s H. injection H as <-. reflexivity.
    + simpl. intros u e [<-|[<-|[]]] H; injection H as <-; discriminate.
  - apply (proj1 (proj2 (login_outcomes
             Sample.fold Sample.encode Sample.decode Sample.secret
             Sample.bcrypt_compare Sample.int4in Sample.timestamptz_in
             (mkRequest None (PostLogin (Some "bob@example.org") (Some "guess")))
             Sample.noon Sample.store _ _ eq_refl
             ltac:(intros s H; injection H as <-; reflexivity)))
             "bob@example.org" "guess"
             [Sample.alice_row] Sample.bob_row []);
      try reflexivity.
    simpl. intros v [<-|[]]. discriminate.
  - apply (proj1 (proj2 (proj2 (login_outcomes
             Sample.fold Sample.encode Sample.decode Sample.secret
             Sample.bcrypt_compare Sample.int4in Sample.timestamptz_in
             (mkRequest None (PostLogin (Some "bob@example.org") (Some "builder")))
             Sample.noon Sample.store _ _ eq_refl
             ltac:(intros s H; injection H as <-; reflexivity))))
             "bob@example.org" "builder"
             [Sample.alice_row] Sample.bob_row []);
      try reflexivity.
    simpl. intros v [<-|[]]. discriminate.
Defined.

(** C8 as stated fails: Bob's row exists and the request carries no
    password, which matches no hash; [bcrypt.compare] throws on the
    missing argument and the answer is 500, not 401.  And no user has
    an email that holds the character U+0000, yet a login with such an
    email is answered 500, not 400: the datastore refuses the
    parameter. *)
Lemma login_without_password_is_500 :
  (exists u, In u (users Sample.store)
             /\ Users.email u = Some "bob@example.org")
  /\ Sample.run (mkRequest None (PostLogin (Some "bob@example.org") None))
                Sample.noon Sample.store =
     (mkResponse 500 (ErrorOf BcryptError), Sample.store)
  /\ (forall u, In u (users Sample.store) ->
                Users.email u <> Some (String Ascii.zero "eve@example.org"))
  /\ Sample.run (mkRequest None
                           (PostLogin (Some (String Ascii.zero "eve@example.org"))
                                      (Some "x")))
                Sample.noon Sample.store =
     (mkResponse 500 (ErrorOf (DbError InvalidByteSequence)), Sample.store).
Proof.
  split; [|split; [|split]].
  - exists Sample.bob_row. split; [right; left; reflexivity | reflexivity].
  - reflexivity.
  - simpl. intros u [<-|[<-|[]]]; discriminate.
  - reflexivity.
Qed.

(** Bob asks to delete, and to update, task 1, which is Alice's. *)
Lemma mutation_matches_id_and_owner_witness :
  Sample.int4in "1" = Some 1
  /\ In Sample.report (tasks Sample.store)
  /\ Tasks.user_id Sample.report <> Claims.user_id Sample.bob
  /\ Sample.del Sample.bob "1" Sample.store =
     (mkResponse 404 (Error "Task not found"), Sample.store)
  /\ In Sample.report
        (tasks (snd (Sample.del Sample.bob "1" Sample.store)))
  /\ Sample.put Sample.bob "1"
              (Some "Mine now") None None (Some "Completed") None
              Sample.noon Sample.store =
     (mkResponse 404 (Error "Task not found"), Sample.store).
Proof.
  split; [reflexivity|]. split; [left; reflexivity|]. split; [discriminate|].
  assert (Hkey : forall r', In r' (tasks Sample.store) ->
                            Tasks.task_id r' = 1 -> r' = Sample.report).
  { simpl. intros r' [<-|[<-|[<-|[]]]] H; solve [reflexivity | discriminate H]. }
  destruct (proj2 (proj2 (proj2 (mutation_matches_id_and_owner
              Sample.int4in Sample.timestamptz_in Sample.bob "1"
              (Some "Mine now") None None (Some "Completed") None
              Sample.noon Sample.store)))
              1 Sample.report eq_refl (or_introl eq_refl) eq_refl
              ltac:(discriminate) Hkey) as [Hdel [Hin Hput]].
  split; [exact Hdel|]. split; [exact Hin|].
  apply Hput.
  - repeat constructor; intros s H; try discriminate H;
      injection H as <-; reflexivity.
  - intros s H. discriminate H.
Defined.

(** Alice sends an empty update for her task 1 at datastore time 100;
    the row was last stamped at 10. *)
Lemma partial_update_keeps_absent_fields_witness :
  Sample.int4in "1" = Some 1
  /\ In Sample.report (tasks Sample.store)
  /\ exists r',
      In r' (tasks (snd (Sample.put Sample.alice "1"
                                    None None None None None
                                    Sample.noon Sample.store)))
      /\ r' = Tasks.mk 1 1 (Some "Write Report") None (Some "High") "Pending"
                       (Some 50) 10 100.
Proof.
  split; [reflexivity|]. split; [left; reflexivity|].
  destruct (partial_update_keeps_absent_fields
              Sample.int4in Sample.timestamptz_in Sample.alice "1"
              None None None None None Sample.noon Sample.store 1 Sample.report
              eq_refl
              ltac:(repeat constructor; intros s H; discriminate H)
              ltac:(intros s H; discriminate H)
              (or_introl eq_refl) eq_refl eq_refl)
    as [r' [Hin [_ [_ [_ [_ [_ [_ [_ [_ [_ [Hall _]]]]]]]]]]]].
  exists r'. split; [exact Hin|].
  apply Hall; reflexivity.
Defined.

(** C4 as stated fails.  Alice sends an empty update for her task 1
    at the datastore time at which the row was last stamped:
    [updated_at] is stamped again and has not advanced.  She sends it
    when the datastore's clock has been set back: [updated_at] goes
    back with it.  And she sends a title that holds the character
    U+0000: the statement fails, the answer is 500 and nothing is
    stamped. *)
Lemma restamp_need_not_advance :
  In Sample.report (tasks Sample.store)
  /\ Tasks.updated_at Sample.report = 10
  /\ Sample.put Sample.alice "1" None None None None None
                (mkClock 2000 10) Sample.store =
     (mkResponse 200 (TaskRow Sample.report),
      mkDb (users Sample.store) [Sample.groceries; Sample.taxes; Sample.report]
           4)
  /\ Sample.put Sample.alice "1" None None None None None
                (mkClock 2000 5) Sample.store =
     (mkResponse 200
        (TaskRow (Tasks.mk 1 1 (Some "Write Report") None (Some "High")
                           "Pending" (Some 50) 10 5)),
      mkDb (users Sample.store)
           [Sample.groceries; Sample.taxes;
            Tasks.mk 1 1 (Some "Write Report") None (Some "High") "Pending"
                     (Some 50) 10 5]
           4)
  /\ Sample.put Sample.alice "1" (Some (String Ascii.zero "")) None None None
                None Sample.noon Sample.store =
     (mkResponse 500 (ErrorOf (DbError InvalidByteSequence)), Sample.store).
Proof.
  split; [left; reflexivity|]. repeat split.
Qed.

(** Two requests whose non-empty filters are status and search, with
    other values, one of them hostile. *)
Lemma query_text_fixed_by_supplied_filters_witness :
  (nonempty (Some "Pending") <-> nonempty (Some "x' OR '1'='1"))
  /\ (nonempty (Some "report") <-> nonempty (Some "%'; DROP TABLE tasks; --"))
  /\ queryText (build_query 1 (Some "Pending") None (Some "report")) =
     queryText (build_query 2 (Some "x' OR '1'='1") None
                            (Some "%'; DROP TABLE tasks; --"))
  /\ queryParams (build_query 1 (Some "Pending") None (Some "report")) =
     [JS.Num 1; JS.Str "Pending"; JS.Str "%report%"].
Proof.
  assert (Hs : nonempty (Some "Pending") <-> nonempty (Some "x' OR '1'='1")).
  { split; intros _; eexists; (split; [reflexivity | discriminate]). }
  assert (Hq : nonempty (Some "report")
               <-> nonempty (Some "%'; DROP TABLE tasks; --")).
  { split; intros _; eexists; (split; [reflexivity | discriminate]). }
  assert (Hp : nonempty (@None string) <-> nonempty (@None string))
    by reflexivity.
  split; [exact Hs|]. split; [exact Hq|].
  destruct (query_text_fixed_by_supplied_filters
              1 2 (Some "Pending") None (Some "report")
              (Some "x' OR '1'='1") None (Some "%'; DROP TABLE tasks; --")
              Hs Hp Hq) as [Htext [Hparams _]].
  split; [exact Htext | exact Hparams].
Defined.

(** C5 as stated fails: two requests that both supply the status
    filter, one of them with the empty value, get different texts. *)
Lemma empty_status_changes_the_text :
  queryText (build_query 1 (Some "") None None) =
    "SELECT * FROM tasks WHERE user_id = $1"
  /\ queryText (build_query 1 (Some "Pending") None None) =
     "SELECT * FROM tasks WHERE user_id = $1 AND status = $2"
  /\ queryText (build_query 1 (Some "") None None) <>
     queryText (build_query 1 (Some "Pending") None None).
Proof.
  split; [reflexivity|]. split; [reflexivity|]. discriminate.
Qed.

Lemma sample_fold_step (c d : ascii) (x : string) :
  Sample.fold (String c (String d x)) =
  if Ascii.eqb c (ascii_of_nat 195) && Sample.accented_capital d then
    String c (String (ascii_of_nat (nat_of_ascii d + 32)) (Sample.fold x))
  else String c (Sample.fold (String d x)).
Proof.
  cbn [Sample.fold].
  destruct (Ascii.eqb c (ascii_of_nat 195) && Sample.accented_capital d);
    reflexivity.
Qed.

Lemma sample_fold_head (c : ascii) (x : string) :
  Ascii.eqb c (ascii_of_nat 195) = false ->
  Sample.fold (String c x) = String c (Sample.fold x).
Proof.
  intros Hc. destruct x as [|d x]; [reflexivity|].
  rewrite sample_fold_step, Hc. reflexivity.
Qed.

Lemma sample_fold_tail (x : string) :
  Sample.fold (x ++ "%") = Sample.fold x ++ "%".
Proof.
  assert (H : forall n x, (String.length x <= n)%nat ->
                          Sample.fold (x ++ "%") = Sample.fold x ++ "%").
  { clear x. induction n as [|n IH]; intros x Hn.
    - destruct x; [reflexivity | simpl in Hn; lia].
    - destruct x as [|c [|d x]]; [reflexivity| |].
      + change (String c "" ++ "%") with (String c (String "%" "")).
        rewrite sample_fold_step.
        change (Sample.accented_capital "%") with false.
        rewrite andb_false_r. reflexivity.
      + change (String c (String d x) ++ "%")
          with (String c (String d (x ++ "%"))).
        rewrite !sample_fold_step.
        destruct (Ascii.eqb c (ascii_of_nat 195) && Sample.accented_capital d).
        * cbn [String.append]. do 2 f_equal. apply IH. simpl in Hn. lia.
        * change (String d (x ++ "%")) with (String d x ++ "%").
          rewrite (IH (String d x)) by (simpl in *; lia). reflexivity. }
  apply (H (String.length x)). lia.
Qed.

Lemma accented_small_is_plain (d : ascii) :
  Sample.accented_capital d = true ->
  Like.wildcard (ascii_of_nat (nat_of_ascii d + 32)) = false.
Proof.
  destruct d as [[] [] [] [] [] [] [] []]; intros H;
    try discriminate H; reflexivity.
Qed.

Lemma sample_fold_plain (x : string) :
  Like.plain x = true -> Like.plain (Sample.fold x) = true.
Proof.
  assert (H : forall n x, (String.length x <= n)%nat ->
                          Like.plain x = true ->
                          Like.plain (Sample.fold x) = true).
  { clear x. induction n as [|n IH]; intros x Hn Hx.
    - destruct x; [reflexivity | simpl in Hn; lia].
    - destruct x as [|c [|d x]]; [reflexivity | exact Hx |].
      cbn [Like.plain] in Hx. apply andb_prop in Hx as [Hc Hx].
      rewrite sample_fold_step.
      destruct (Ascii.eqb c (ascii_of_nat 195) && Sample.accented_capital d)
        eqn:Hcd.
      + apply andb_prop in Hcd as [_ Hd]. apply andb_prop in Hx as [_ Hx].
        cbn [Like.plain]. rewrite Hc, (accented_small_is_plain d Hd).
        cbn [negb andb]. apply IH; [simpl in Hn; lia | exact Hx].
      + cbn [Like.plain]. rewrite Hc. cbn [andb].
        apply (IH (String d x)); [simpl in *; lia|].
        cbn [Like.plain]. exact Hx. }
  apply (H (String.length x)). lia.
Qed.

Lemma sample_fold_keeps_patterns : keeps_patterns Sample.fold.
Proof.
  split; [|split].
  - intros x. apply sample_fold_head. reflexivity.
  - apply sample_fold_tail.
  - apply sample_fold_plain.
Qed.

(** Alice searches her high-priority tasks for "report". *)
Lemma filtered_tasks_for_plain_search_witness :
  Like.plain "report" = true
  /\ Sample.get Sample.alice
               None (Some "High") (Some "report") Sample.store =
     mkResponse 200 (TaskRows [Sample.report]).
Proof.
  split; [reflexivity|]. unfold Sample.get.
  refine (eq_trans
            (proj1 (filtered_tasks_for_plain_search
                      Sample.fold Sample.int4in Sample.timestamptz_in Sample.alice
                      None (Some "High") (Some "report") Sample.store)
                   sample_fold_keeps_patterns _ _ _ _) _).
  - intros w H. discriminate H.
  - intros w H. injection H as <-. reflexivity.
  - intros w H. injection H as <-. reflexivity.
  - intros w H. injection H as <-. reflexivity.
  - reflexivity.
Defined.

(** C3 as stated fails: Alice searches for an underscore.  None of her
    tasks has one in its title or description, yet the query returns
    both, since the underscore reaches ILIKE as a wildcard.  And she
    asks for a status that holds the character U+0000: none of her
    tasks has it, yet the answer is 500, not an empty list. *)
Lemma search_underscore_is_a_wildcard :
  rows_of (Sample.get Sample.alice
                     None None (Some "_") Sample.store) =
    [Sample.report; Sample.groceries]
  /\ filter (satisfies Sample.fold (Claims.user_id Sample.alice)
                       None None (Some "_"))
            (tasks Sample.store) = []
  /\ Sample.get Sample.alice
               None None (Some "_") Sample.store <>
     mkResponse 200
       (TaskRows (filter (satisfies Sample.fold (Claims.user_id Sample.alice)
                                    None None (Some "_"))
                         (tasks Sample.store)))
  /\ filter (satisfies Sample.fold (Claims.user_id Sample.alice)
                       (Some (String Ascii.zero "")) None None)
            (tasks Sample.store) = []
  /\ Sample.get Sample.alice (Some (String Ascii.zero "")) None None
                Sample.store =
     mkResponse 500 (ErrorOf (DbError InvalidByteSequence)).
Proof.
  split; [reflexivity|]. split; [reflexivity|].
  split; [vm_compute; intros H; discriminate H|].
  split; reflexivity.
Qed.

(** ** Two sessions through the whole application *)

Example statistics_session_counts :
  Sample.statistics_session =
  mkResponse 200 (Stats (Some 3%nat) (Some 1%nat) (Some 2%nat) (Some 1%nat)
                        (Some 1%nat)).
Proof. vm_compute. reflexivity. Qed.

(** A title with an accented capital, [CAF] followed by the two bytes
    of E acute, is found by a search for the small letter, and the
    underscore stands for the whole accented letter, not for one of
    its bytes. *)
Example accented_search_answers :
  let capital := String (ascii_of_nat 195) (String (ascii_of_nat 137) "") in
  let small := String (ascii_of_nat 195) (String (ascii_of_nat 169) "") in
  let cafe := Tasks.mk 1 1 (Some ("CAF" ++ capital)) None None "Pending" None
                       10 10 in
  let d := mkDb [Sample.alice_row] [cafe] 2 in
  rows_of (Sample.get Sample.alice None None (Some small) d) = [cafe]
  /\ rows_of (Sample.get Sample.alice None None (Some "caf_") d) = [cafe]
  /\ rows_of (Sample.get Sample.alice None None (Some "f__") d) = [].
Proof. vm_compute. repeat split. Qed.

(** Alice completes her task 1 and lists her tasks: the updated row
    comes after the one she left alone. *)
Example updated_row_is_listed_last :
  rows_of (Sample.get Sample.alice None None None
             (snd (Sample.put Sample.alice "1" None None None (Some "Completed")
                              None Sample.noon Sample.store))) =
  [Sample.groceries;
   Tasks.mk 1 1 (Some "Write Report") None (Some "High") "Completed" (Some 50)
            10 100].
Proof. vm_compute. reflexivity. Qed.

Example trespass_session_answers :
  Sample.trespass_session =
  (mkResponse 404 (Error "Task not found"),
   mkResponse 200 (TaskRows [Sample.report; Sample.groceries])).
Proof. vm_compute. reflexivity. Qed.

(* ===================================================================== *)
(** * Further properties of the handlers *)
(* ===================================================================== *)

Section Further.
Variable fold : string -> string.
Variable encode : Claims.t -> string -> string.
Variable decode : string -> string -> option Claims.t.
Variable JWT_SECRET : string.
Variable bcrypt_hash : string -> string -> string.
Variable bcrypt_compare : string -> string -> bool.
Variable int4in : string -> option Z.
Variable timestamptz_in : string -> option Z.

Local Abbreviation gate_of := (authenticateToken decode JWT_SECRET).
Local Abbreviation run :=
  (app fold encode decode JWT_SECRET bcrypt_compare int4in timestamptz_in).
Local Abbreviation handle :=
  (handler fold encode JWT_SECRET bcrypt_compare int4in timestamptz_in).
Local Abbreviation login := (post_login encode JWT_SECRET bcrypt_compare).
Local Abbreviation register := (Registration.post_register bcrypt_hash).
Local Abbreviation post := (post_tasks timestamptz_in).
Local Abbreviation get := (get_tasks fold int4in timestamptz_in).
Local Abbreviation put := (put_task int4in timestamptz_in).
Local Abbreviation del := (delete_task int4in).
Local Abbreviation step :=
  (serve fold encode decode JWT_SECRET bcrypt_hash bcrypt_compare int4in
         timestamptz_in).
Local Abbreviation steps :=
  (serve_all fold encode decode JWT_SECRET bcrypt_hash bcrypt_compare int4in
             timestamptz_in).

(** ** The gate's reading of the header *)

Lemma header_token_second (word tok : string) (tail : list string) (h : string) :
  h <> "" -> JS.split " " h = word :: tok :: tail ->
  header_token (Some h) = Some tok.
Proof.
  intros Hh Hsplit. unfold header_token.
  rewrite (truthy_some h Hh), Hsplit. reflexivity.
Qed.

Lemma append_space_nonempty (word rest : string) : word ++ String " " rest <> "".
Proof. destruct word; discriminate. Qed.

(** X1.  Only the second space-separated segment of the header counts:
    whatever follows a further space is ignored, so the gate answers a
    header "word token more..." exactly as it answers "word token". *)
Theorem gate_reads_second_segment (word tok rest : string) (now : Z) :
  spaceless word = true -> spaceless tok = true ->
  gate_of (Some (word ++ " " ++ tok ++ " " ++ rest)) now =
  gate_of (Some (word ++ " " ++ tok)) now.
Proof.
  intros Hw Ht.
  assert (H1 : header_token (Some (word ++ " " ++ tok ++ " " ++ rest)) = Some tok).
  { apply (header_token_second word tok (JS.split " " rest)).
    - apply append_space_nonempty.
    - change (word ++ " " ++ tok ++ " " ++ rest)
        with (word ++ String " " (tok ++ String " " rest)).
      rewrite (split_at_space word _ Hw), (split_at_space tok rest Ht).
      reflexivity. }
  assert (H2 : header_token (Some (word ++ " " ++ tok)) = Some tok).
  { apply (header_token_second word tok []).
    - apply append_space_nonempty.
    - change (word ++ " " ++ tok) with (word ++ String " " tok).
      rewrite (split_at_space word tok Hw), (split_spaceless tok Ht).
      reflexivity. }
  unfold authenticateToken. rewrite H1, H2. reflexivity.
Qed.

(** X2.  Two spaces after the scheme word leave an empty second segment:
    the gate answers 401 whatever comes after them, a valid token
    included. *)
Theorem gate_rejects_double_space (word rest : string) (now : Z) :
  spaceless word = true ->
  gate_of (Some (word ++ "  " ++ rest)) now = SendStatus 401.
Proof.
  intros Hw.
  assert (H : header_token (Some (word ++ "  " ++ rest)) = Some "").
  { apply (header_token_second word "" (JS.split " " rest)).
    - apply append_space_nonempty.
    - change (word ++ "  " ++ rest) with (word ++ String " " (String " " rest)).
      rewrite (split_at_space word _ Hw). reflexivity. }
  unfold authenticateToken. rewrite H. reflexivity.
Qed.

(** ** Login and the gate together *)

Lemma login_token (email password : option string) (now : clock) (d : db)
      (tok : string) :
  login email password now d = mkResponse 200 (Token tok) ->
  exists u e pw,
    In u (users d) /\ email = Some e /\ Users.email u = Some e
    /\ password = Some pw
    /\ bcrypt_compare pw (Users.password u) = true
    /\ tok = encode (Claims.mk (Users.user_id u) (seconds now)
                               (seconds now + 3600)) JWT_SECRET.
Proof.
  unfold post_login.
  destruct (Pg.select_users_by_email email (users d)) as [[|u rest]|err] eqn:Hsel;
    [discriminate| |discriminate].
  destruct password as [pw|]; [|discriminate].
  destruct (bcrypt_compare pw (Users.password u)) eqn:Hc; [|discriminate].
  cbn. intros H. injection H as <-.
  unfold Pg.select_users_by_email in Hsel.
  destruct (Pg.check_all [email]); [|discriminate Hsel].
  cbn [bind] in Hsel. injection Hsel as Hsel.
  assert (Hin : In u (u :: rest)) by (left; reflexivity).
  rewrite <- Hsel in Hin. apply filter_In in Hin as [Hin Ht].
  destruct email as [e|].
  - exists u, e, pw. repeat split; try assumption.
    apply email_test. exact Ht.
  - destruct (Users.email u); discriminate Ht.
Qed.

(** X3.  A token that login issues opens every protected route for its
    user until 3600 seconds after the login and is answered 403 from
    then on, whatever has happened to the store meanwhile (given that
    the token travels in a header intact: no space in it, and the
    decoder reads back the claims that the encoder wrote for a user). *)
Theorem issued_token_opens_gate_for_an_hour
        (email password : option string) (now later : clock) (d d' : db)
        (tok : string) (r : route) :
  login email password now d = mkResponse 200 (Token tok) ->
  spaceless tok = true -> tok <> "" ->
  (forall u, In u (users d) ->
     let c := Claims.mk (Users.user_id u) (seconds now) (seconds now + 3600) in
     decode (encode c JWT_SECRET) JWT_SECRET = Some c) ->
  protected_route r = true ->
  exists u,
    In u (users d) /\ email = Users.email u /\ email <> None
    /\ (seconds later < seconds now + 3600 ->
        run (mkRequest (Some ("Bearer " ++ tok)) r) later d' =
        handle r (Claims.mk (Users.user_id u) (seconds now) (seconds now + 3600))
               later d')
    /\ (seconds now + 3600 <= seconds later ->
        run (mkRequest (Some ("Bearer " ++ tok)) r) later d' =
        (mkResponse 403 NoBody, d')).
Proof.
  intros Hlogin Hspace Hne Hcodec Hr.
  destruct (login_token email password now d tok Hlogin)
    as [u [e [pw [Hin [He [Hu [_ [_ Htok]]]]]]]].
  exists u. split; [exact Hin|].
  split; [rewrite He, Hu; reflexivity|].
  split; [rewrite He; discriminate|].
  assert (Hhead : header_token (Some ("Bearer " ++ tok)) = Some tok).
  { apply (header_token_second "Bearer" tok []); [discriminate|].
    change ("Bearer " ++ tok) with ("Bearer" ++ String " " tok).
    rewrite (split_at_space "Bearer" tok eq_refl), (split_spaceless tok Hspace).
    reflexivity. }
  rewrite (app_protected fold encode decode JWT_SECRET bcrypt_compare int4in
                         timestamptz_in
                         (mkRequest (Some ("Bearer " ++ tok)) r) later d' Hr).
  cbn [authorization target]. rewrite gate_cases, Hhead.
  destruct (String.eqb_spec tok ""); [contradiction|].
  rewrite Htok, (Hcodec u Hin). cbn [Claims.exp Claims.user_id].
  split; intros Ht.
  - apply Z.leb_gt in Ht. rewrite Ht. reflexivity.
  - apply Z.leb_le in Ht. rewrite Ht. reflexivity.
Qed.

(** ** Registration *)

Lemma check_all_cases (vs : list (option string)) :
  (forallb accepted vs = true /\ Pg.check_all vs = Ok tt)
  \/ (forallb accepted vs = false /\ Pg.check_all vs = Err InvalidByteSequence).
Proof.
  induction vs as [|v vs IH]; [left; split; reflexivity|].
  cbn [forallb Pg.check_all].
  destruct v as [x|]; cbn [accepted andb]; [|exact IH].
  unfold Pg.check_text. destruct (Pg.valid_text x); cbn [bind andb].
  - exact IH.
  - right. split; reflexivity.
Qed.

Lemma email_free (e : string) (tbl : list Users.row) :
  Registration.taken e tbl = false ->
  forall v, In v tbl -> Users.email v <> Some e.
Proof.
  intros H v Hv Heq.
  assert (Ht : Registration.taken e tbl = true).
  { apply existsb_exists. exists v. split; [exact Hv|].
    rewrite Heq. apply String.eqb_refl. }
  rewrite Ht in H. discriminate.
Qed.

Lemma email_in_use (e : string) (tbl : list Users.row) :
  Registration.taken e tbl = true ->
  exists v, In v tbl /\ Users.email v = Some e.
Proof.
  intros H. apply existsb_exists in H as [v [Hv He]]. exists v.
  split; [exact Hv|]. destruct (Users.email v) as [e'|]; [|discriminate].
  apply String.eqb_eq in He. rewrite He. reflexivity.
Qed.

(** X4.  Registration has two outcomes.  It answers 200 when a password
    is given, the name, the email and the hash are text the datastore
    accepts, and no user has the email (an absent email is no user's):
    then exactly the returned row is appended to the users, with the
    next identifier of the sequence, the given name and email, and the
    bcrypt hash in place of the password; the tasks are untouched.
    Otherwise (no password, refused text, or an email in use) it
    answers 500 and users and tasks are as before. *)
Theorem registration_outcomes
        (name email password : option string) (salt : string) (s : server) :
  let r := fst (register name email password salt s) in
  let s' := snd (register name email password salt s) in
  (Registration.code r = 200%nat
   /\ exists pw,
       password = Some pw
       /\ accepted name && accepted email
          && Pg.valid_text (bcrypt_hash pw salt) = true
       /\ (forall v, In v (users (store s)) ->
                     email <> None -> Users.email v <> email)
       /\ Registration.content r =
          Registration.UserRow
            (Users.mk (users_seq s) name email (bcrypt_hash pw salt))
       /\ users (store s') =
          (users (store s)
             ++ [Users.mk (users_seq s) name email (bcrypt_hash pw salt)])%list
       /\ tasks (store s') = tasks (store s))
  \/ (Registration.code r = 500%nat
      /\ store s' = store s
      /\ (password = None
          \/ (exists pw, password = Some pw
                         /\ accepted name && accepted email
                            && Pg.valid_text (bcrypt_hash pw salt) = false)
          \/ exists v, In v (users (store s))
                       /\ email <> None /\ Users.email v = email)).
Proof.
  unfold Registration.post_register, Registration.insert_user.
  destruct password as [pw|]; [|right; cbn; auto].
  destruct (check_all_cases [name; email; Some (bcrypt_hash pw salt)])
    as [[Hok ->]|[Hbad ->]];
    cbn [forallb accepted] in *; rewrite andb_true_r, andb_assoc in *.
  - destruct email as [e|].
    + destruct (Registration.taken e (users (store s))) eqn:Hex; cbn.
      * right. repeat split. right. right.
        destruct (email_in_use e _ Hex) as [v [Hv He]].
        exists v. repeat split; [exact Hv | discriminate | exact He].
      * left. split; [reflexivity|]. exists pw.
        repeat split; [exact Hok|].
        intros v Hv _. apply (email_free e _ Hex v Hv).
    + left. cbn. split; [reflexivity|]. exists pw.
      repeat split; [exact Hok|]. intros v _ H. contradiction.
  - right. cbn. repeat split. right. left. exists pw. split; [reflexivity|].
    exact Hbad.
Qed.

(** X5.  Who has registered with an email can log in: after a
    registration answered 200, a login with the same email and password
    on the resulting store answers 200 with a token for the identifier
    of the returned row (bcrypt accepting the password against the hash
    it made).  Who has registered without an email is not found by a
    login without one. *)
Theorem registered_user_can_log_in
        (name email password : option string) (salt : string) (s s' : server)
        (u : Users.row) (now : clock) :
  register name email password salt s =
    (Registration.mkReply 200 (Registration.UserRow u), s') ->
  (forall pw, password = Some pw ->
              bcrypt_compare pw (bcrypt_hash pw salt) = true) ->
  (email <> None ->
   login email password now (store s') =
   mkResponse 200
     (Token (encode (Claims.mk (Users.user_id u) (seconds now)
                               (seconds now + 3600)) JWT_SECRET)))
  /\ (email = None ->
      login email password now (store s') =
      mkResponse 400 (Error "User not found")).
Proof.
  unfold Registration.post_register, Registration.insert_user.
  destruct password as [pw|]; [|discriminate].
  destruct (check_all_cases [name; email; Some (bcrypt_hash pw salt)])
    as [[Hok ->]|[Hbad ->]]; [|discriminate].
  cbn [forallb] in Hok. apply andb_prop in Hok as [_ Hok].
  apply andb_prop in Hok as [He _].
  destruct email as [e|].
  - destruct (Registration.taken e (users (store s))) eqn:Hex; [discriminate|].
    intros H Hb. injection H as <- <-.
    split; [intros _ | discriminate].
    unfold post_login. cbn [store users].
    destruct (select_users_first e (users (store s)) []
                (Users.mk (users_seq s) name (Some e) (bcrypt_hash pw salt))
                He eq_refl (email_free e _ Hex)) as [rest ->].
    cbn [Users.password Users.user_id]. rewrite (Hb pw eq_refl). reflexivity.
  - intros H Hb. injection H as <- <-.
    split; [intros H; contradiction | intros _].
    unfold post_login.
    rewrite (select_users_none None _ acceptable_none)
      by (intros v e _ H; discriminate H).
    reflexivity.
Qed.

(** ** Creating tasks *)

Lemma filter_twice {A : Type} (f g : A -> bool) (l : list A) :
  filter f (filter g l) = filter (fun x => g x && f x) l.
Proof.
  induction l as [|a l IH]; [reflexivity|].
  cbn [filter]. destruct (g a); cbn [filter andb]; rewrite IH; reflexivity.
Qed.

Lemma selects_all (uid : Z) (r : Tasks.row) :
  selects fold uid None None None r = owned uid r.
Proof.
  unfold selects, owned. cbn [JS.truthy]. rewrite !andb_true_r. reflexivity.
Qed.

Lemma listing (user : Claims.t) (d : db) :
  rows_of (get user None None None d) =
  filter (owned (Claims.user_id user)) (tasks d).
Proof.
  rewrite get_tasks_selects by apply acceptable_none.
  unfold rows_of. cbn [content].
  apply filter_ext. intros r. apply selects_all.
Qed.

(** X6.  A task that POST /tasks reports as created is stored as
    reported: it takes the next identifier of the sequence, belongs to
    the principal, is "Pending", carries the title, description and
    priority of the body and the datastore's time as both timestamps,
    and it is the one row added; the principal's unfiltered listing
    afterwards is the listing before followed by that row. *)
Theorem created_task_is_listed
        (user : Claims.t) (title description priority deadline : option string)
        (now : clock) (d d' : db) (r : Tasks.row) :
  post user title description priority deadline now d =
    (mkResponse 200 (TaskRow r), d') ->
  Tasks.task_id r = tasks_seq d
  /\ Tasks.user_id r = Claims.user_id user
  /\ Tasks.status r = "Pending"
  /\ Tasks.title r = title
  /\ Tasks.description r = description
  /\ Tasks.priority r = priority
  /\ Tasks.created_at r = timestamp now
  /\ Tasks.updated_at r = timestamp now
  /\ tasks d' = (tasks d ++ [r])%list
  /\ users d' = users d
  /\ rows_of (get user None None None d') =
     (rows_of (get user None None None d) ++ [r])%list.
Proof.
  unfold post_tasks, Pg.insert_task.
  destruct (Pg.check_all [title; description; priority]) as [[]|e];
    cbn [bind]; [|discriminate].
  destruct (Pg.opt_time timestamptz_in deadline) as [dl|e]; [|discriminate].
  destruct (existsb _ (users d)); [|discriminate].
  intros H. injection H as <- <-. cbn.
  repeat split.
  rewrite !listing. cbn [tasks]. rewrite filter_app. cbn [filter Tasks.user_id].
  unfold owned at 2. cbn [Tasks.user_id]. rewrite Z.eqb_refl. reflexivity.
Qed.

(** X7.  POST /tasks answers 200 or 500, and a 500 stores no task and
    touches no user.  It answers 500 when the body has a deadline that
    the datastore cannot read as a timestamp or text that it refuses
    (then nothing at all changes) and when the principal is not a row
    of the users. *)
Theorem task_creation_failures
        (user : Claims.t) (title description priority deadline : option string)
        (now : clock) (d : db) :
  let answer := fst (post user title description priority deadline now d) in
  let d' := snd (post user title description priority deadline now d) in
  (code answer = 200%nat \/ code answer = 500%nat)
  /\ (code answer = 500%nat -> tasks d' = tasks d /\ users d' = users d)
  /\ (forall s, deadline = Some s -> timestamptz_in s = None ->
                code answer = 500%nat /\ d' = d)
  /\ ((forall u, In u (users d) -> Users.user_id u <> Claims.user_id user) ->
      code answer = 500%nat)
  /\ (accepted title && accepted description && accepted priority = false ->
      code answer = 500%nat /\ d' = d).
Proof.
  unfold post_tasks, Pg.insert_task. cbv zeta.
  destruct (check_all_cases [title; description; priority])
    as [[Hok ->]|[Hbad ->]]; cbn [bind].
  - split; [|split; [|split; [|split]]].
    + destruct (Pg.opt_time timestamptz_in deadline); [|right; reflexivity].
      destruct (existsb _ (users d)); [left|right]; reflexivity.
    + destruct (Pg.opt_time timestamptz_in deadline); [|split; reflexivity].
      destruct (existsb _ (users d)); [discriminate|]. split; reflexivity.
    + intros s -> Hs. cbn [Pg.opt_time]. unfold Pg.to_time. rewrite Hs.
      split; reflexivity.
    + intros Hnone.
      destruct (Pg.opt_time timestamptz_in deadline); [|reflexivity].
      destruct (existsb _ (users d)) eqn:Hex; [|reflexivity].
      apply existsb_exists in Hex as [u [Hu He]]. apply Z.eqb_eq in He.
      exfalso. exact (Hnone u Hu He).
    + cbn [forallb] in Hok. rewrite andb_true_r, andb_assoc in Hok.
      rewrite Hok. discriminate.
  - cbn. repeat split; auto.
Qed.

(** ** Listing tasks *)

(** X8.  GET /tasks answers 200 when each filter value is text the
    datastore accepts, whatever else it holds, pattern characters
    included, and 500 when one is not; every row it returns is a
    stored task of the principal: no filter or search value reaches
    another user's task. *)
Theorem listing_never_leaks
        (user : Claims.t) (status priority search : option string) (d : db) :
  code (get user status priority search d) =
    (if accepted status && accepted priority && accepted search
     then 200%nat else 500%nat)
  /\ forall r, In r (rows_of (get user status priority search d)) ->
               In r (tasks d) /\ Tasks.user_id r = Claims.user_id user.
Proof.
  split.
  - rewrite get_tasks_outcome.
    destruct (accepted status && accepted priority && accepted search);
      reflexivity.
  - intros r Hr. apply listed_rows in Hr as [_ [Hin Hsel]].
    split; [exact Hin|]. unfold selects in Hsel.
    apply andb_prop in Hsel as [Hsel _]. apply andb_prop in Hsel as [Hsel _].
    apply andb_prop in Hsel as [Hsel _]. apply Z.eqb_eq. exact Hsel.
Qed.

Lemma lower_empty (w : string) : Like.lower w = "" -> w = "".
Proof. destruct w; [reflexivity | discriminate]. Qed.

Lemma zero_lower (c : ascii) :
  Ascii.eqb (Like.lower_char c) Ascii.zero = Ascii.eqb c Ascii.zero.
Proof. destruct c as [[] [] [] [] [] [] [] []]; reflexivity. Qed.

Lemma valid_text_lower (w : string) :
  Pg.valid_text (Like.lower w) = Pg.valid_text w.
Proof.
  induction w as [|c w IH]; [reflexivity|].
  cbn [Like.lower Pg.valid_text]. rewrite zero_lower, IH. reflexivity.
Qed.

(** X9.  The search does not see the case of letters: two searches that
    differ only in the case of the letters A to Z give the same answer,
    whatever the other filters and whatever else the searches hold. *)
Theorem search_ignores_case
        (user : Claims.t) (status priority : option string) (w1 w2 : string)
        (d : db) :
  Like.lower w1 = Like.lower w2 ->
  get user status priority (Some w1) d = get user status priority (Some w2) d.
Proof.
  intros Hlow. rewrite !get_tasks_outcome. cbn [accepted].
  rewrite <- (valid_text_lower w1), <- (valid_text_lower w2), Hlow.
  destruct (accepted status && accepted priority
            && Pg.valid_text (Like.lower w2)); [|reflexivity].
  do 2 f_equal.
  apply filter_ext. intros r. unfold selects. f_equal.
  assert (Ht : JS.truthy (Some w1) = JS.truthy (Some w2)).
  { cbn [JS.truthy]. f_equal.
    destruct (String.eqb_spec w1 ""), (String.eqb_spec w2 ""); try reflexivity.
    - subst w1. symmetry in Hlow. apply lower_empty in Hlow. contradiction.
    - subst w2. apply lower_empty in Hlow. contradiction. }
  rewrite Ht. destruct (JS.truthy (Some w2)); [|reflexivity].
  cbn [JS.template]. unfold ilike_field, Like.ilike.
  rewrite !lower_append, Hlow. reflexivity.
Qed.

Lemma unaccepted (v : option string) :
  accepted v = false ->
  exists s, v = Some s /\ Pg.valid_text s = false /\ JS.truthy v = true.
Proof.
  destruct v as [s|]; [|discriminate]. cbn [accepted]. intros H.
  exists s. repeat split; [exact H|].
  destruct s; [discriminate H | reflexivity].
Qed.

Lemma text_is_refused (s : string) (field : option string) :
  Pg.valid_text s = false -> acceptable field -> text_is s field = false.
Proof.
  intros Hs Hf. destruct field as [x|]; [|reflexivity]. cbn [text_is].
  destruct (String.eqb_spec x s) as [->|]; [|reflexivity].
  rewrite (Hf s eq_refl) in Hs. discriminate.
Qed.

(** On a store whose text is text of the datastore, the rows of an
    answer are the rows the built query selects also when a status or
    a priority is refused: no stored row has such a value. *)
Lemma listed_clean (user : Claims.t) (status priority search : option string)
      (d : db) :
  clean d -> accepted search = true ->
  rows_of (get user status priority search d) =
  filter (selects fold (Claims.user_id user) status priority search) (tasks d).
Proof.
  intros Hd Hq. rewrite get_tasks_outcome, Hq, andb_true_r.
  destruct (accepted status) eqn:Hs; [destruct (accepted priority) eqn:Hp|];
    cbn [andb rows_of content failed]; [reflexivity| |];
    symmetry; apply filter_nothing; intros r Hr;
    destruct (Hd r Hr) as [_ [_ [Hpr Hst]]]; unfold selects.
  - destruct (unaccepted priority Hp) as [p [-> [Hbad ->]]].
    cbn [JS.template]. rewrite (text_is_refused p _ Hbad Hpr).
    rewrite andb_false_r. reflexivity.
  - destruct (unaccepted status Hs) as [p [-> [Hbad ->]]].
    cbn [JS.template].
    rewrite (text_is_refused p (Some (Tasks.status r)) Hbad)
      by (intros x Hx; injection Hx as <-; exact Hst).
    rewrite andb_false_r. reflexivity.
Qed.

Lemma listed_refused (user : Claims.t) (status priority search : option string)
      (d : db) :
  accepted search = false ->
  rows_of (get user status priority search d) = [].
Proof.
  intros Hq. rewrite get_tasks_outcome, Hq, andb_false_r. reflexivity.
Qed.

(** X10.  Filters compose: on a store whose text is text of the
    datastore, the answer with a status filter is the answer without
    it, restricted to the rows of that status, and likewise for
    priority and for both; this holds for every search value. *)
Theorem filters_compose
        (user : Claims.t) (status priority search : option string) (d : db) :
  clean d ->
  rows_of (get user status priority search d) =
    filter (has_status status) (rows_of (get user None priority search d))
  /\ rows_of (get user status priority search d) =
     filter (has_priority priority) (rows_of (get user status None search d))
  /\ rows_of (get user status priority search d) =
     filter (fun r => has_status status r && has_priority priority r)
            (rows_of (get user None None search d)).
Proof.
  intros Hd. destruct (accepted search) eqn:Hq.
  - rewrite !(listed_clean _ _ _ _ _ Hd Hq).
    rewrite !filter_twice.
    repeat split; apply filter_ext; intros r;
      unfold selects, has_status, has_priority; cbn [JS.truthy];
      destruct (Tasks.user_id r =? Claims.user_id user);
      destruct (if JS.truthy status then _ else true);
      destruct (if JS.truthy priority then _ else true);
      destruct (if JS.truthy search then _ else true); reflexivity.
  - rewrite !(listed_refused _ _ _ _ _ Hq). repeat split.
Qed.

(** ** Updating tasks *)

Lemma owned_task_set (n uid : Z) (title description priority status : option string)
      (dl : option Z) (now : Z) (r : Tasks.row) :
  Pg.owned_task n uid (Pg.set_fields title description priority status dl now r)
  = Pg.owned_task n uid r.
Proof. reflexivity. Qed.

Lemma coalesce_twice {A : Type} (p old : option A) :
  Pg.coalesce p (Pg.coalesce p old) = Pg.coalesce p old.
Proof. destruct p; reflexivity. Qed.

Lemma first_match (n uid : Z) (tbl : list Tasks.row) (r : Tasks.row) :
  In r tbl -> Tasks.task_id r = n -> Tasks.user_id r = uid ->
  (forall r', In r' tbl -> Tasks.task_id r' = n -> r' = r) ->
  exists rest, filter (Pg.owned_task n uid) tbl = r :: rest.
Proof.
  intros Hin Hn Hu Hkey.
  assert (Hown : Pg.owned_task n uid r = true)
    by (apply owned_task_iff; split; assumption).
  assert (Hf : In r (filter (Pg.owned_task n uid) tbl))
    by (apply filter_In; split; assumption).
  destruct (filter (Pg.owned_task n uid) tbl) as [|x rest] eqn:Hfl;
    [destruct Hf|].
  assert (Hx : In x (filter (Pg.owned_task n uid) tbl))
    by (rewrite Hfl; left; reflexivity).
  apply filter_In in Hx as [Hxin Hxo]. apply owned_task_iff in Hxo as [Hxn _].
  rewrite (Hkey x Hxin Hxn). exists rest. reflexivity.
Qed.

(** X11.  A PUT on a task of the principal stores what the body
    supplies: the answer is 200 with the row as stored, in which every
    supplied title, description, priority and status is the supplied
    value and a supplied deadline is the timestamp it reads as (the
    identifier being an integer that names this one task, the supplied
    text being text the datastore accepts and a supplied deadline
    being readable). *)
Theorem update_stores_supplied_fields
        (user : Claims.t) (id : string)
        (title description priority status deadline : option string)
        (now : clock) (d : db) (n : Z) (r : Tasks.row) :
  int4in id = Some n ->
  Forall acceptable [title; description; priority; status] ->
  (forall s, deadline = Some s -> timestamptz_in s <> None) ->
  In r (tasks d) -> Tasks.task_id r = n ->
  Tasks.user_id r = Claims.user_id user ->
  (forall r', In r' (tasks d) -> Tasks.task_id r' = n -> r' = r) ->
  exists r',
    put user id title description priority status deadline now d =
      (mkResponse 200 (TaskRow r'),
       snd (put user id title description priority status deadline now d))
    /\ In r' (tasks (snd (put user id title description priority status
                              deadline now d)))
    /\ supplied title (Tasks.title r')
    /\ supplied description (Tasks.description r')
    /\ supplied priority (Tasks.priority r')
    /\ (forall v, status = Some v -> Tasks.status r' = v)
    /\ (forall v t, deadline = Some v -> timestamptz_in v = Some t ->
                    Tasks.deadline r' = Some t).
Proof.
  intros Hid Htext Hdl Hin Hn Hu Hkey.
  destruct (opt_time_converts timestamptz_in deadline Hdl) as [dl Hconv].
  destruct (first_match n (Claims.user_id user) (tasks d) r Hin Hn Hu Hkey)
    as [rest Hfirst].
  exists (Pg.set_fields title description priority status dl (timestamp now) r).
  split; [|split].
  - unfold put_task, Pg.update_task, Pg.to_int.
    rewrite (check_all_ok _ Htext), Hconv, Hid. cbn. rewrite Hfirst. reflexivity.
  - rewrite put_store, (check_all_ok _ Htext), Hconv, Hid. cbn [tasks].
    apply in_or_app. right. apply in_map. apply filter_In.
    split; [exact Hin|]. apply owned_task_iff. split; assumption.
  - unfold supplied. cbn.
    repeat split; try (intros v ->; reflexivity).
    intros v t -> Ht. cbn in Hconv. unfold Pg.to_time in Hconv.
    rewrite Ht in Hconv. injection Hconv as <-. reflexivity.
Qed.

Lemma filter_none_of_map {A : Type} (f : A -> bool) (g : A -> A) (l : list A) :
  (forall x, f (g x) = f x) ->
  filter (fun x => negb (f x)) (map g (filter f l)) = [].
Proof.
  intros Hg. apply filter_nothing. intros x Hx.
  apply in_map_iff in Hx as [y [<- Hy]]. apply filter_In in Hy as [_ Hy].
  rewrite Hg, Hy. reflexivity.
Qed.

Lemma filter_all_of_map {A : Type} (f : A -> bool) (g : A -> A) (l : list A) :
  (forall x, f (g x) = f x) ->
  filter f (map g (filter f l)) = map g (filter f l).
Proof.
  intros Hg. apply filter_everything. intros x Hx.
  apply in_map_iff in Hx as [y [<- Hy]]. apply filter_In in Hy as [_ Hy].
  rewrite Hg. exact Hy.
Qed.

Lemma filter_rest_twice {A : Type} (f : A -> bool) (l : list A) :
  filter (fun x => negb (f x)) (filter (fun x => negb (f x)) l) =
  filter (fun x => negb (f x)) l.
Proof.
  apply filter_everything. intros x Hx. apply filter_In in Hx. exact (proj2 Hx).
Qed.

Lemma filter_rest_none {A : Type} (f : A -> bool) (l : list A) :
  filter f (filter (fun x => negb (f x)) l) = [].
Proof.
  apply filter_nothing. intros x Hx. apply filter_In in Hx as [_ Hx].
  apply negb_true_iff. exact Hx.
Qed.

Lemma set_fields_twice (title description priority status : option string)
      (dl : option Z) (now later : Z) (r : Tasks.row) :
  Pg.set_fields title description priority status dl later
                (Pg.set_fields title description priority status dl now r) =
  Pg.set_fields title description priority status dl later r.
Proof.
  unfold Pg.set_fields. cbn. rewrite !coalesce_twice.
  destruct status; reflexivity.
Qed.

(** X12.  PUT is idempotent on the store: sending the same update again
    leaves the store as one update at the later time leaves it, for
    every body, identifier and principal, whether or not a row matches
    or the statement fails. *)
Theorem update_twice_is_update_once
        (user : Claims.t) (id : string)
        (title description priority status deadline : option string)
        (now later : clock) (d : db) :
  snd (put user id title description priority status deadline later
           (snd (put user id title description priority status deadline now d)))
  = snd (put user id title description priority status deadline later d).
Proof.
  rewrite !put_store.
  destruct (Pg.check_all [title; description; priority; status]) as [[]|e];
    [|reflexivity].
  destruct (Pg.opt_time timestamptz_in deadline) as [dl|e]; [|reflexivity].
  destruct (int4in id) as [n|]; [|reflexivity].
  cbn [users tasks tasks_seq]. f_equal.
  rewrite !filter_app.
  rewrite filter_rest_twice, filter_rest_none.
  rewrite (filter_none_of_map (Pg.owned_task n (Claims.user_id user)))
    by (intros x; apply owned_task_set).
  rewrite (filter_all_of_map (Pg.owned_task n (Claims.user_id user)))
    by (intros x; apply owned_task_set).
  rewrite List.app_nil_r. cbn [List.app]. f_equal.
  rewrite map_map. apply map_ext. intros r. apply set_fields_twice.
Qed.

Lemma split_by_test {A : Type} (f : A -> bool) (l : list A) :
  Permutation (filter (fun x => negb (f x)) l ++ filter f l) l.
Proof.
  induction l as [|a l IH]; [constructor|].
  cbn [filter]. destruct (f a); cbn [negb List.app].
  - apply Permutation_sym, Permutation_cons_app, Permutation_sym, IH.
  - constructor. exact IH.
Qed.

Lemma put_permutes {B : Type} (key : Tasks.row -> B)
      (user : Claims.t) (id : string)
      (title description priority status deadline : option string)
      (now : clock) (d : db) :
  (forall dl r,
      key (Pg.set_fields title description priority status dl (timestamp now) r)
      = key r) ->
  Permutation
    (map key (tasks (snd (put user id title description priority status
                              deadline now d))))
    (map key (tasks d)).
Proof.
  intros Hkey. rewrite put_store.
  destruct (Pg.check_all [title; description; priority; status]) as [[]|e];
    [|apply Permutation_refl].
  destruct (Pg.opt_time timestamptz_in deadline) as [dl|e];
    [|apply Permutation_refl].
  destruct (int4in id) as [n|]; [|apply Permutation_refl].
  cbn [tasks]. rewrite map_app, map_map.
  rewrite (map_ext _ key (Hkey dl)), <- map_app.
  apply Permutation_map, split_by_test.
Qed.

Lemma put_frame
      (user : Claims.t) (id : string)
      (title description priority status deadline : option string)
      (now : clock) (d : db) :
  users (snd (put user id title description priority status deadline now d))
  = users d
  /\ tasks_seq (snd (put user id title description priority status deadline
                         now d)) = tasks_seq d.
Proof.
  rewrite put_store.
  destruct (Pg.check_all [title; description; priority; status]) as [[]|e];
    [|split; reflexivity].
  destruct (Pg.opt_time timestamptz_in deadline) as [dl|e];
    [|split; reflexivity].
  destruct (int4in id) as [n|]; split; reflexivity.
Qed.


(** Every task before a PUT has its successor after it: the row
    itself, or the row as the statement has set it. *)
Lemma put_successor
      (user : Claims.t) (id : string)
      (title description priority status deadline : option string)
      (now : clock) (d : db) (r : Tasks.row) :
  In r (tasks d) ->
  In r (tasks (snd (put user id title description priority status deadline
                        now d)))
  \/ exists dl,
      Pg.opt_time timestamptz_in deadline = Ok dl
      /\ In (Pg.set_fields title description priority status dl (timestamp now) r)
            (tasks (snd (put user id title description priority status deadline
                             now d))).
Proof.
  intros Hin. rewrite put_store.
  destruct (Pg.check_all [title; description; priority; status]) as [[]|e];
    [|left; exact Hin].
  destruct (Pg.opt_time timestamptz_in deadline) as [dl|e]; [|left; exact Hin].
  destruct (int4in id) as [n|]; [|left; exact Hin].
  cbn [tasks].
  destruct (Pg.owned_task n (Claims.user_id user) r) eqn:Hown.
  - right. exists dl. split; [reflexivity|]. apply in_or_app. right.
    apply in_map. apply filter_In. split; assumption.
  - left. apply in_or_app. left. apply filter_In. split; [exact Hin|].
    rewrite Hown. reflexivity.
Qed.

(** Every task after a PUT comes from a task before it. *)
Lemma put_origin
      (user : Claims.t) (id : string)
      (title description priority status deadline : option string)
      (now : clock) (d : db) (r' : Tasks.row) :
  In r' (tasks (snd (put user id title description priority status deadline
                         now d))) ->
  In r' (tasks d)
  \/ exists dl r,
      In r (tasks d)
      /\ Pg.check_all [title; description; priority; status] = Ok tt
      /\ r' = Pg.set_fields title description priority status dl
                            (timestamp now) r.
Proof.
  rewrite put_store.
  destruct (Pg.check_all [title; description; priority; status]) as [[]|e];
    [|left; assumption].
  destruct (Pg.opt_time timestamptz_in deadline) as [dl|e]; [|left; assumption].
  destruct (int4in id) as [n|]; [|left; assumption].
  cbn [tasks]. intros Hin. apply in_app_or in Hin as [Hin|Hin].
  - left. apply filter_In in Hin. exact (proj1 Hin).
  - right. apply in_map_iff in Hin as [r [<- Hr]]. apply filter_In in Hr.
    exists dl, r. repeat split. exact (proj1 Hr).
Qed.

(** X14.  No PUT can clear a field: a task stored before the request
    is stored after it, with its identifier and owner, and a title,
    description, priority or deadline that it had it still has,
    possibly with another value. *)
Theorem update_cannot_clear_a_field
        (user : Claims.t) (id : string)
        (title description priority status deadline : option string)
        (now : clock) (d : db) (r : Tasks.row) :
  In r (tasks d) ->
  exists r',
    In r' (tasks (snd (put user id title description priority status
                           deadline now d)))
    /\ Tasks.task_id r' = Tasks.task_id r
    /\ Tasks.user_id r' = Tasks.user_id r
    /\ Tasks.created_at r' = Tasks.created_at r
    /\ (Tasks.title r <> None -> Tasks.title r' <> None)
    /\ (Tasks.description r <> None -> Tasks.description r' <> None)
    /\ (Tasks.priority r <> None -> Tasks.priority r' <> None)
    /\ (Tasks.deadline r <> None -> Tasks.deadline r' <> None).
Proof.
  intros Hin.
  destruct (put_successor user id title description priority status deadline
                          now d r Hin) as [Hsame|[dl [_ Hset]]].
  - exists r. repeat split; auto.
  - eexists. split; [exact Hset|].
    unfold Pg.set_fields. cbn.
    repeat split; intros H.
    + destruct title; [discriminate | exact H].
    + destruct description; [discriminate | exact H].
    + destruct priority; [discriminate | exact H].
    + destruct dl; [discriminate | exact H].
Qed.

(** ** Deleting tasks *)

Lemma del_store (user : Claims.t) (id : string) (d : db) :
  snd (del user id d) =
  match int4in id with
  | Some n =>
      mkDb (users d)
           (filter (fun r => negb (Pg.owned_task n (Claims.user_id user) r))
                   (tasks d))
           (tasks_seq d)
  | None => d
  end.
Proof.
  unfold delete_task, Pg.delete_task, Pg.to_int.
  destruct (int4in id) as [n|]; [|reflexivity]. cbn.
  destruct (filter _ (tasks d)); reflexivity.
Qed.

(** X15.  DELETE removes the principal's task with the given identifier
    and nothing else: when such a task is stored the answer is 200;
    afterwards the stored tasks are those stored before other than the
    principal's with that identifier; the users are untouched; and the
    same request sent again is answered 404 and changes nothing. *)
Theorem delete_removes_the_match
        (user : Claims.t) (id : string) (d : db) (n : Z) :
  int4in id = Some n ->
  let d' := snd (del user id d) in
  ((exists r, In r (tasks d) /\ Tasks.task_id r = n
              /\ Tasks.user_id r = Claims.user_id user) ->
   fst (del user id d) = mkResponse 200 (Message "Task deleted successfully"))
  /\ (forall r, In r (tasks d') <->
                In r (tasks d)
                /\ ~ (Tasks.task_id r = n
                      /\ Tasks.user_id r = Claims.user_id user))
  /\ users d' = users d
  /\ del user id d' = (mkResponse 404 (Error "Task not found"), d').
Proof.
  intros Hid. cbv zeta.
  assert (Hafter : forall r, In r (tasks (snd (del user id d))) <->
             In r (tasks d)
             /\ ~ (Tasks.task_id r = n /\ Tasks.user_id r = Claims.user_id user)).
  { intros r. rewrite del_store, Hid. cbn [tasks]. rewrite filter_In.
    rewrite negb_true_iff, <- not_true_iff_false, owned_task_iff. reflexivity. }
  split; [|split; [|split]].
  - intros [r [Hin [Hn Hu]]].
    unfold delete_task, Pg.delete_task, Pg.to_int. rewrite Hid. cbn.
    destruct (filter (Pg.owned_task n (Claims.user_id user)) (tasks d))
      as [|x rest] eqn:Hf; [|reflexivity].
    assert (Hr : In r (filter (Pg.owned_task n (Claims.user_id user)) (tasks d))).
    { apply filter_In. split; [exact Hin|]. apply owned_task_iff. auto. }
    rewrite Hf in Hr. destruct Hr.
  - exact Hafter.
  - rewrite del_store, Hid. reflexivity.
  - apply (del_no_match int4in user id _ n Hid).
    intros r Hr. apply Hafter in Hr. exact (proj2 Hr).
Qed.

(** ** Statistics *)

Lemma tally_within (base a : Tasks.row -> bool) (tbl : list Tasks.row) :
  (tally (fun r => base r && a r) tbl <= tally base tbl)%nat.
Proof.
  unfold tally. induction tbl as [|r tbl IH]; [reflexivity|].
  cbn [filter]. destruct (base r), (a r); cbn [andb List.length]; lia.
Qed.

Lemma overdue_not_completed (now : Z) (r : Tasks.row) :
  is_overdue now r = true -> is_completed r = false.
Proof.
  unfold is_overdue. intros H. apply andb_prop in H as [H _].
  apply negb_true_iff. exact H.
Qed.

(** X16.  Overdue tasks are never completed ones: in every store and at
    every time the dashboard's counts satisfy
    overdueTasks + completedTasks <= totalTasks, and
    highPriorityTasks <= totalTasks. *)
Theorem overdue_plus_completed_within_total
        (user : Claims.t) (now : clock) (d : db) :
  exists total completed pending high overdue : nat,
    content (get_dashboard_stats user now d) =
      Stats (Some total) (Some completed) (Some pending) (Some high)
            (Some overdue)
    /\ (overdue + completed <= total)%nat
    /\ (high <= total)%nat.
Proof.
  rewrite dashboard_counts. cbv zeta. cbn [content].
  do 5 eexists. split; [reflexivity|]. split.
  - apply tally_disjoint, overdue_not_completed.
  - apply tally_within.
Qed.

Lemma selects_status_only (uid : Z) (w : string) (r : Tasks.row) :
  w <> "" ->
  selects fold uid (Some w) None None r =
  owned uid r && (Tasks.status r =? w)%string.
Proof.
  intros Hw. unfold selects. rewrite (truthy_some w Hw).
  cbn [JS.truthy JS.template text_is]. rewrite !andb_true_r. reflexivity.
Qed.

Lemma acceptable_text (w : string) :
  Pg.valid_text w = true -> acceptable (Some w).
Proof. intros Hw x Hx. injection Hx as <-. exact Hw. Qed.

(** X17.  The dashboard agrees with the listing: totalTasks is the
    number of rows of the principal's unfiltered GET /tasks, and
    completedTasks, pendingTasks and highPriorityTasks are the numbers
    of rows of GET /tasks with status "Completed", with status "Pending"
    and with priority "High". *)
Theorem dashboard_agrees_with_listing
        (user : Claims.t) (now : clock) (d : db) :
  content (get_dashboard_stats user now d) =
  Stats
    (Some (List.length (rows_of (get user None None None d))))
    (Some (List.length (rows_of (get user (Some "Completed") None None d))))
    (Some (List.length (rows_of (get user (Some "Pending") None None d))))
    (Some (List.length (rows_of (get user None (Some "High") None d))))
    (Some (tally (fun r => owned (Claims.user_id user) r
                           && is_overdue (timestamp now) r) (tasks d))).
Proof.
  rewrite dashboard_counts. cbv zeta. cbn [content].
  rewrite !get_tasks_selects
    by first [apply acceptable_none | apply acceptable_text; reflexivity].
  unfold rows_of, tally. cbn [content].
  f_equal; f_equal; f_equal; apply filter_ext; intros r.
  - symmetry. apply selects_all.
  - rewrite selects_status_only by discriminate. reflexivity.
  - rewrite selects_status_only by discriminate. reflexivity.
  - unfold selects, is_high. cbn. rewrite !andb_true_r. reflexivity.
Qed.

(** ** One user's tasks and the others' requests *)

Lemma handler_spares_others (r : route) (c : Claims.t) (now : clock) (d : db)
      (u : Z) :
  Claims.user_id c <> u ->
  filter (owned u) (tasks (snd (handle r c now d))) = filter (owned u) (tasks d).
Proof.
  intros Hc. apply Z.eqb_neq in Hc.
  assert (Hmine : forall n x, owned u x = true ->
                              Pg.owned_task n (Claims.user_id c) x = false).
  { intros n x Hx. unfold owned in Hx. apply Z.eqb_eq in Hx.
    unfold Pg.owned_task. rewrite Hx.
    rewrite (proj2 (Z.eqb_neq u (Claims.user_id c)))
      by (intros Heq; apply Z.eqb_neq in Hc; apply Hc; symmetry; exact Heq).
    apply andb_false_r. }
  destruct r as [email password | title description priority deadline
                 | status priority search
                 | id title description priority status deadline | id | ];
    cbn [handler snd]; try reflexivity.
  - unfold post_tasks, Pg.insert_task.
    destruct (Pg.check_all [title; description; priority]) as [[]|e];
      cbn [bind]; [|reflexivity].
    destruct (Pg.opt_time timestamptz_in deadline) as [dl|e]; [|reflexivity].
    destruct (existsb _ (users d)); cbn [snd tasks]; [|reflexivity].
    rewrite filter_app. cbn [filter]. unfold owned at 2. cbn [Tasks.user_id].
    rewrite Hc. apply List.app_nil_r.
  - rewrite put_store.
    destruct (Pg.check_all [title; description; priority; status]) as [[]|e];
      [|reflexivity].
    destruct (Pg.opt_time timestamptz_in deadline) as [dl|e]; [|reflexivity].
    destruct (int4in id) as [n|]; [|reflexivity]. cbn [tasks].
    rewrite filter_app.
    rewrite (filter_nothing (owned u) (map _ _)).
    + rewrite List.app_nil_r, filter_twice. apply filter_ext. intros x.
      destruct (owned u x) eqn:Hx; [|apply andb_false_r].
      rewrite (Hmine n x Hx). reflexivity.
    + intros x Hx. apply in_map_iff in Hx as [y [<- Hy]].
      apply filter_In in Hy as [_ Hy].
      destruct (owned u (Pg.set_fields title description priority status dl
                                       (timestamp now) y)) eqn:Ho;
        [|reflexivity].
      rewrite <- Hy. apply (Hmine n y). exact Ho.
  - rewrite del_store. destruct (int4in id) as [n|]; [|reflexivity].
    cbn [tasks]. rewrite filter_twice. apply filter_ext. intros x.
    destruct (owned u x) eqn:Hx; [|apply andb_false_r].
    rewrite (Hmine n x Hx). reflexivity.
Qed.

Lemma selects_owned (uid : Z) (status priority search : option string)
      (l : list Tasks.row) :
  filter (selects fold uid status priority search) l =
  filter (selects fold uid status priority search) (filter (owned uid) l).
Proof.
  rewrite filter_twice. apply filter_ext. intros r.
  unfold selects, owned. destruct (Tasks.user_id r =? uid); reflexivity.
Qed.

Lemma tally_owned (uid : Z) (a : Tasks.row -> bool) (l : list Tasks.row) :
  tally (fun r => owned uid r && a r) l =
  tally (fun r => owned uid r && a r) (filter (owned uid) l).
Proof.
  unfold tally. rewrite filter_twice. f_equal. apply filter_ext. intros r.
  destruct (owned uid r); reflexivity.
Qed.

(** X18.  Nobody else can touch a user's tasks: a request that the gate
    does not pass with a token of user u (a rejected request, a login,
    or a request of another principal) leaves u's stored tasks exactly
    as they were, and with them every answer u gets from GET /tasks and
    from the dashboard. *)
Theorem other_requests_spare_a_users_tasks
        (req : request) (now : clock) (d : db) (u : Z) :
  (forall c, gate_of (authorization req) (seconds now) = Next c ->
             Claims.user_id c <> u) ->
  let d' := snd (run req now d) in
  filter (owned u) (tasks d') = filter (owned u) (tasks d)
  /\ (forall mine status priority search,
         Claims.user_id mine = u ->
         get mine status priority search d' = get mine status priority search d)
  /\ (forall mine at_time,
         Claims.user_id mine = u ->
         get_dashboard_stats mine at_time d' = get_dashboard_stats mine at_time d).
Proof.
  intros Hgate. cbv zeta.
  assert (Hsame : filter (owned u) (tasks (snd (run req now d))) =
                  filter (owned u) (tasks d)).
  { unfold app.
    destruct (target req) eqn:Ht; try reflexivity;
      (destruct (gate_of (authorization req) (seconds now)) as [code|c] eqn:Hg;
       [reflexivity|]);
      (specialize (Hgate c eq_refl));
      match goal with
      | |- context [handler _ _ _ _ _ _ ?r c now d] =>
          exact (handler_spares_others r c now d u Hgate)
      end. }
  split; [exact Hsame|]. split.
  - intros mine status priority search Hm.
    rewrite !get_tasks_outcome, Hm.
    destruct (accepted status && accepted priority && accepted search);
      [|reflexivity].
    rewrite (selects_owned u status priority search (tasks _)), Hsame.
    rewrite <- selects_owned. reflexivity.
  - intros mine at_time Hm. rewrite !dashboard_counts. cbv zeta. rewrite Hm.
    unfold tally at 1 6.
    rewrite Hsame. fold (tally (owned u) (tasks d)).
    rewrite (tally_owned u is_completed (tasks (snd _))),
            (tally_owned u is_pending (tasks (snd _))),
            (tally_owned u is_high (tasks (snd _))),
            (tally_owned u (is_overdue (timestamp at_time)) (tasks (snd _))),
            Hsame.
    rewrite <- !tally_owned. reflexivity.
Qed.

(** ** The data model's invariants *)

Lemma NoDup_snoc {A : Type} (l : list A) (x : A) :
  NoDup l -> ~ In x l -> NoDup (l ++ [x]).
Proof.
  intros Hl Hx. induction Hl as [|a l Ha Hl IH]; cbn.
  - constructor; [intros []|constructor].
  - constructor.
    + intros Hin. apply in_app_or in Hin as [Hin|[Hin|[]]].
      * exact (Ha Hin).
      * apply Hx. left. symmetry. exact Hin.
    + apply IH. intros Hin. apply Hx. right. exact Hin.
Qed.

Lemma NoDup_map_filter {A B : Type} (f : A -> B) (g : A -> bool) (l : list A) :
  NoDup (map f l) -> NoDup (map f (filter g l)).
Proof.
  induction l as [|a l IH]; cbn; intros H; [constructor|].
  inversion H as [|x xs Hx Hxs]; subst.
  destruct (g a); cbn; [|exact (IH Hxs)].
  constructor; [|exact (IH Hxs)].
  intros Hin. apply Hx. apply in_map_iff in Hin as [y [Hy Hin]].
  apply filter_In in Hin as [Hin _]. apply in_map_iff. exists y. auto.
Qed.

Lemma server_eta (s : server) : mkServer (store s) (users_seq s) = s.
Proof. destruct s. reflexivity. Qed.

Lemma checked (vs : list (option string)) :
  Pg.check_all vs = Ok tt -> Forall acceptable vs.
Proof.
  induction vs as [|v vs IH]; intros H; [constructor|].
  destruct v as [x|]; cbn [Pg.check_all] in H.
  - unfold Pg.check_text in H. destruct (Pg.valid_text x) eqn:Hx;
      [|discriminate H].
    constructor; [apply acceptable_text; exact Hx | exact (IH H)].
  - constructor; [apply acceptable_none | exact (IH H)].
Qed.

Lemma acceptable_coalesce (p old : option string) :
  acceptable p -> acceptable old -> acceptable (Pg.coalesce p old).
Proof. intros Hp Ho. destruct p; assumption. Qed.

Lemma consistent_tasks (s : server) (tbl : list Tasks.row) (seq : Z) :
  consistent s ->
  NoDup (map Tasks.task_id tbl) ->
  (forall t, In t tbl -> Tasks.task_id t < seq) ->
  (forall t, In t tbl ->
             In (Tasks.user_id t) (map Users.user_id (users (store s)))) ->
  clean (mkDb (users (store s)) tbl seq) ->
  consistent (mkServer (mkDb (users (store s)) tbl seq) (users_seq s)).
Proof.
  unfold consistent. cbn [store users tasks tasks_seq users_seq].
  intros [Hu [He [_ [Hb _]]]] Hn Hs Hf Hc.
  split; [|split; [|split; [|split; [|split; [|split]]]]]; assumption.
Qed.

Lemma handler_keeps_consistent (r : route) (c : Claims.t) (now : clock)
      (s : server) :
  consistent s ->
  consistent (mkServer (snd (handle r c now (store s))) (users_seq s)).
Proof.
  intros Hs. pose proof Hs as [_ [_ [Hids [_ [Hbound [Hfk Hclean]]]]]].
  destruct r as [email password | title description priority deadline
                 | status priority search
                 | id title description priority status deadline | id | ];
    cbn [handler snd]; try (rewrite server_eta; exact Hs).
  - unfold post_tasks, Pg.insert_task.
    destruct (Pg.check_all [title; description; priority]) as [[]|e] eqn:Hck;
      cbn [bind]; [|cbn [snd]; rewrite server_eta; exact Hs].
    apply checked in Hck.
    destruct (Pg.opt_time timestamptz_in deadline) as [dl|e];
      [|cbn [snd]; rewrite server_eta; exact Hs].
    destruct (existsb _ (users (store s))) eqn:Hex; cbn [snd].
    + apply consistent_tasks; [exact Hs| | | |].
      * rewrite map_app. apply NoDup_snoc; [exact Hids|].
        cbn. intros Hin. apply in_map_iff in Hin as [t [Ht Hin]].
        specialize (Hbound t Hin). lia.
      * intros t Hin. apply in_app_or in Hin as [Hin|[<-|[]]].
        -- specialize (Hbound t Hin). lia.
        -- cbn. lia.
      * intros t Hin. apply in_app_or in Hin as [Hin|[<-|[]]].
        -- exact (Hfk t Hin).
        -- cbn. apply existsb_exists in Hex as [u [Hu He]].
           apply Z.eqb_eq in He. rewrite <- He.
           apply in_map. exact Hu.
      * intros t Hin. cbn [tasks] in Hin.
        apply in_app_or in Hin as [Hin|[<-|[]]]; [exact (Hclean t Hin)|].
        cbn. inversion Hck as [|? ? H1 Hck1]; subst.
        inversion Hck1 as [|? ? H2 Hck2]; subst.
        inversion Hck2 as [|? ? H3 _]; subst.
        repeat split; assumption.
    + apply consistent_tasks; [exact Hs|exact Hids| |exact Hfk|exact Hclean].
      intros t Hin. specialize (Hbound t Hin). lia.
  - pose proof (put_frame c id title description priority
                          status deadline now (store s)) as [Husers Hseq].
    pose proof (put_origin c id title description priority status
                           deadline now (store s)) as Horigin.
    pose proof (put_permutes Tasks.task_id c id title description priority
                             status deadline now (store s)
                             (fun _ _ => eq_refl)) as Hperm.
    destruct (snd (put c id title description priority status deadline now
                       (store s))) as [us tbl seq].
    cbn [users tasks tasks_seq] in *. subst us seq.
    apply consistent_tasks; [exact Hs| | | |].
    + apply (Permutation_NoDup (Permutation_sym Hperm)). exact Hids.
    + intros t Hin. destruct (Horigin t Hin) as [H0|[dl [t0 [H0 [_ ->]]]]].
      * exact (Hbound t H0).
      * exact (Hbound t0 H0).
    + intros t Hin. destruct (Horigin t Hin) as [H0|[dl [t0 [H0 [_ ->]]]]].
      * exact (Hfk t H0).
      * exact (Hfk t0 H0).
    + intros t Hin. cbn [tasks] in Hin.
      destruct (Horigin t Hin) as [H0|[dl [t0 [H0 [Hck ->]]]]];
        [exact (Hclean t H0)|].
      apply checked in Hck.
      inversion Hck as [|? ? H1 Hck1]; subst.
      inversion Hck1 as [|? ? H2 Hck2]; subst.
      inversion Hck2 as [|? ? H3 Hck3]; subst.
      inversion Hck3 as [|? ? H4 _]; subst.
      destruct (Hclean t0 H0) as [Ht [Hd [Hp Hst]]].
      cbn. repeat split; try (apply acceptable_coalesce; assumption).
      destruct status as [x|]; [exact (H4 x eq_refl) | exact Hst].
  - rewrite del_store. destruct (int4in id) as [n|];
      [|rewrite server_eta; exact Hs].
    apply consistent_tasks; [exact Hs| | | |].
    + apply NoDup_map_filter. exact Hids.
    + intros t Hin. apply filter_In in Hin as [Hin _]. exact (Hbound t Hin).
    + intros t Hin. apply filter_In in Hin as [Hin _]. exact (Hfk t Hin).
    + intros t Hin. apply filter_In in Hin as [Hin _]. exact (Hclean t Hin).
Qed.

Lemma emails_snoc (tbl : list Users.row) (u : Users.row) :
  emails (tbl ++ [u]) =
  (emails tbl ++ match Users.email u with Some e => [e] | None => [] end)%list.
Proof.
  unfold emails. rewrite flat_map_app. cbn [flat_map].
  rewrite List.app_nil_r. reflexivity.
Qed.

Lemma email_listed (e : string) (tbl : list Users.row) :
  In e (emails tbl) -> exists v, In v tbl /\ Users.email v = Some e.
Proof.
  unfold emails. intros H. apply in_flat_map in H as [v [Hv He]].
  exists v. split; [exact Hv|].
  destruct (Users.email v) as [x|]; [|destruct He].
  destruct He as [->|[]]. reflexivity.
Qed.

Lemma step_keeps_consistent (c : call) (now : clock) (s : server) :
  consistent s -> consistent (snd (step c now s)).
Proof.
  intros Hs. destruct c as [name email password salt | req].
  - cbn [serve]. unfold Registration.post_register, Registration.insert_user.
    destruct Hs as [Hu [He [Hids [Hub [Hbound [Hfk Hclean]]]]]].
    assert (Hnext : consistent (mkServer (store s) (users_seq s + 1))).
    { unfold consistent. cbn [store users tasks tasks_seq users_seq].
      split; [|split; [|split; [|split; [|split; [|split]]]]];
        try assumption.
      intros u Hin. specialize (Hub u Hin). lia. }
    assert (Hadd : forall u,
               Users.user_id u = users_seq s ->
               (forall e, Users.email u = Some e ->
                          Registration.taken e (users (store s)) = false) ->
               consistent
                 (mkServer (mkDb (users (store s) ++ [u]) (tasks (store s))
                                 (tasks_seq (store s)))
                           (users_seq s + 1))).
    { intros u Hid Hfree. unfold consistent. cbn [store users tasks tasks_seq
                                                   users_seq].
      rewrite map_app, emails_snoc. cbn [map].
      split; [|split; [|split; [|split; [|split; [|split]]]]].
      - apply NoDup_snoc; [exact Hu|]. rewrite Hid.
        intros Hin. apply in_map_iff in Hin as [v [Hv Hin]].
        specialize (Hub v Hin). lia.
      - destruct (Users.email u) as [e|] eqn:Hemail;
          [|rewrite List.app_nil_r; exact He].
        apply NoDup_snoc; [exact He|]. intros Hin.
        destruct (email_listed e _ Hin) as [v [Hv Hve]].
        exact (email_free e _ (Hfree e eq_refl) v Hv Hve).
      - exact Hids.
      - intros v Hin. apply in_app_or in Hin as [Hin|[<-|[]]].
        + specialize (Hub v Hin). lia.
        + lia.
      - exact Hbound.
      - intros t Hin. apply in_or_app. left. exact (Hfk t Hin).
      - exact Hclean. }
    assert (Hsame : consistent s).
    { unfold consistent.
      split; [|split; [|split; [|split; [|split; [|split]]]]]; assumption. }
    destruct password as [pw|]; cbn [snd]; [|exact Hsame].
    destruct (Pg.check_all _) as [[]|err]; cbn [snd]; [|exact Hsame].
    destruct email as [e|]; cbn [snd].
    + destruct (Registration.taken e (users (store s))) eqn:Hex; cbn [snd];
        [exact Hnext|].
      apply Hadd; [reflexivity|]. cbn [Users.email]. intros x Hx.
      injection Hx as <-. exact Hex.
    + apply Hadd; [reflexivity|]. cbn [Users.email]. intros x Hx.
      discriminate Hx.
  - cbn [serve].
    destruct (run req now (store s)) as [answer d'] eqn:Hrun. cbn [snd].
    assert (Hd : d' = snd (run req now (store s))) by (rewrite Hrun; reflexivity).
    rewrite Hd. unfold app.
    destruct (target req) eqn:Ht;
      try (destruct (gate_of (authorization req) (seconds now)) as [code|c];
           [cbn [snd]; rewrite server_eta; exact Hs|]);
      try (cbn [snd]; rewrite server_eta; exact Hs);
      match goal with
      | |- context [handler _ _ _ _ _ _ ?r ?c now (store s)] =>
          exact (handler_keeps_consistent r c now s Hs)
      end.
Qed.

(** X19.  The data model's invariants hold in every state the server can
    reach from an empty datastore by registrations and requests, in any
    order and at any times: user identifiers, emails and task
    identifiers are unique, identifiers are below their sequences,
    every task's owner is a registered user, and the stored text of
    the tasks is text the datastore accepts. *)
Theorem reachable_states_are_consistent (calls : list (call * clock)) :
  consistent (steps calls fresh).
Proof.
  assert (Hgen : forall s, consistent s -> consistent (steps calls s)).
  { induction calls as [|[c now] calls IH]; intros s Hs; [exact Hs|].
    cbn [serve_all]. apply IH, step_keeps_consistent, Hs. }
  apply Hgen. unfold consistent, fresh, clean.
  cbn [store users tasks tasks_seq users_seq map emails flat_map].
  split; [|split; [|split; [|split; [|split; [|split]]]]];
    try apply NoDup_nil; intros x [].
Qed.

(** X20.  Users are only ever added: a registration leaves the users
    there are as they are and adds at most one after them; every other
    call, whatever its outcome, leaves the users exactly as they are. *)
Theorem users_are_only_added (c : call) (now : clock) (s : server) :
  exists added,
    users (store (snd (step c now s))) = (users (store s) ++ added)%list
    /\ (List.length added <= 1)%nat
    /\ (forall req, c = Request req -> added = []).
Proof.
  destruct c as [name email password salt | req].
  - cbn [serve]. unfold Registration.post_register, Registration.insert_user.
    assert (Hnone : forall x : server,
               users (store x) = users (store s) ->
               exists added,
                 users (store x) = (users (store s) ++ added)%list
                 /\ (List.length added <= 1)%nat
                 /\ (forall req,
                        Register name email password salt = Request req ->
                        added = [])).
    { intros x Hx. exists []. rewrite List.app_nil_r.
      split; [exact Hx|split; [cbn; lia|reflexivity]]. }
    destruct password as [pw|]; cbn [snd]; [|apply Hnone; reflexivity].
    destruct (Pg.check_all _) as [[]|err]; cbn [snd];
      [|apply Hnone; reflexivity].
    destruct email as [e|]; cbn [snd store].
    + destruct (Registration.taken e (users (store s))); cbn [snd store users].
      * apply (Hnone (mkServer (store s) (users_seq s + 1))). reflexivity.
      * eexists. split; [reflexivity|]. split; [cbn; lia|discriminate].
    + eexists. cbn [users]. split; [reflexivity|].
      split; [cbn; lia|discriminate].
  - exists []. rewrite List.app_nil_r. split; [|split; [cbn; lia|reflexivity]].
    cbn [serve].
    destruct (run req now (store s)) as [answer d'] eqn:Hrun. cbn [snd store].
    assert (Hd : d' = snd (run req now (store s))) by (rewrite Hrun; reflexivity).
    rewrite Hd. unfold app.
    destruct (target req) as [email password | title description priority deadline
                 | status priority search
                 | id title description priority status deadline | id | ];
      try (destruct (gate_of (authorization req) (seconds now)) as [code|c]);
      cbn [snd handler]; try reflexivity.
    + unfold post_tasks, Pg.insert_task.
      destruct (Pg.check_all [title; description; priority]) as [[]|e];
        cbn [bind]; [|reflexivity].
      destruct (Pg.opt_time timestamptz_in deadline); [|reflexivity].
      destruct (existsb _ (users (store s))); reflexivity.
    + apply put_frame.
    + rewrite del_store. destruct (int4in id); reflexivity.
Qed.

(** ** The text the builder hands to the datastore *)

(** X21.  Whatever the filters, the text that the builder produces is a
    query the datastore can read, its placeholders are numbered up to
    exactly the number of parameters that go with it, and that number
    is one more than the number of non-empty filters. *)
Theorem built_query_is_well_formed
        (uid : Z) (status priority search : option string) :
  let b := build_query uid status priority search in
  exists conds,
    Pg.parse_select (queryText b) = Some conds
    /\ Pg.required conds = List.length (queryParams b)
    /\ List.length (queryParams b) =
       (1 + (if JS.truthy status then 1 else 0)
          + (if JS.truthy priority then 1 else 0)
          + (if JS.truthy search then 1 else 0))%nat.
Proof.
  unfold build_query.
  destruct (JS.truthy status), (JS.truthy priority), (JS.truthy search);
    cbn [queryText queryParams add_status add_priority add_search paramCount];
    eexists; (split; [vm_compute; reflexivity|]); split; reflexivity.
Qed.
End Further.

(* ===================================================================== *)
(** * The further properties on the sample deployment *)
(* ===================================================================== *)

(** Alice's token followed by more words. *)
Lemma gate_reads_second_segment_witness :
  spaceless "Bearer" = true /\ spaceless Sample.alice_jwt = true
  /\ Sample.gate (Some "Bearer s3cret.1.1000.4600 and more words") 2000 =
     Next Sample.alice.
Proof.
  split; [reflexivity|]. split; [reflexivity|].
  refine (eq_trans (gate_reads_second_segment Sample.decode Sample.secret
                      "Bearer" Sample.alice_jwt "and more words" 2000
                      eq_refl eq_refl) _).
  reflexivity.
Defined.

(** Alice's token after two spaces. *)
Lemma gate_rejects_double_space_witness :
  spaceless "Bearer" = true
  /\ Sample.gate (Some "Bearer  s3cret.1.1000.4600") 2000 = SendStatus 401.
Proof.
  split; [reflexivity|].
  apply (gate_rejects_double_space Sample.decode Sample.secret
           "Bearer" Sample.alice_jwt 2000 eq_refl).
Defined.

(** Bob logs in at second 2000; his token at seconds 5599 and 5600. *)
Lemma issued_token_opens_gate_for_an_hour_witness :
  post_login Sample.encode Sample.secret Sample.bcrypt_compare
             (Some "bob@example.org") (Some "builder") Sample.noon Sample.store =
    mkResponse 200 (Token "s3cret.2.2000.5600")
  /\ Sample.run (mkRequest (Some "Bearer s3cret.2.2000.5600") GetDashboardStats)
                (mkClock 5599 200) Sample.store =
     Sample.handle GetDashboardStats (Claims.mk 2 2000 5600) (mkClock 5599 200)
                   Sample.store
  /\ Sample.run (mkRequest (Some "Bearer s3cret.2.2000.5600") GetDashboardStats)
                (mkClock 5600 200) Sample.store =
     (mkResponse 403 NoBody, Sample.store).
Proof.
  split; [reflexivity|].
  assert (Hcodec : forall u, In u (users Sample.store) ->
            let c := Claims.mk (Users.user_id u) (seconds Sample.noon)
                               (seconds Sample.noon + 3600) in
            Sample.decode (Sample.encode c Sample.secret) Sample.secret = Some c).
  { simpl. intros u [<-|[<-|[]]]; reflexivity. }
  split.
  - destruct (issued_token_opens_gate_for_an_hour
                Sample.fold Sample.encode Sample.decode Sample.secret
                Sample.bcrypt_compare Sample.int4in Sample.timestamptz_in
                (Some "bob@example.org") (Some "builder") Sample.noon
                (mkClock 5599 200) Sample.store Sample.store
                "s3cret.2.2000.5600" GetDashboardStats
                eq_refl eq_refl ltac:(discriminate) Hcodec eq_refl)
      as [u [Hin [He [_ [Hok _]]]]].
    simpl in Hin. destruct Hin as [<-|[<-|[]]]; [discriminate He|].
    apply Hok. simpl. lia.
  - destruct (issued_token_opens_gate_for_an_hour
                Sample.fold Sample.encode Sample.decode Sample.secret
                Sample.bcrypt_compare Sample.int4in Sample.timestamptz_in
                (Some "bob@example.org") (Some "builder") Sample.noon
                (mkClock 5600 200) Sample.store Sample.store
                "s3cret.2.2000.5600" GetDashboardStats
                eq_refl eq_refl ltac:(discriminate) Hcodec eq_refl)
      as [u [_ [_ [_ [_ Hlate]]]]].
    apply Hlate. simpl. lia.
Defined.

(** Carol registers and logs in. *)
Lemma registered_user_can_log_in_witness :
  Demo.register (Some "Carol") (Some "carol@example.org") (Some "rabbit") "salt"
                Demo.state =
    (Registration.mkReply 200
       (Registration.UserRow
          (Users.mk 3 (Some "Carol") (Some "carol@example.org") "$2b$10$rabbit")),
     snd (Demo.register (Some "Carol") (Some "carol@example.org") (Some "rabbit")
                        "salt" Demo.state))
  /\ post_login Sample.encode Sample.secret Sample.bcrypt_compare
                (Some "carol@example.org") (Some "rabbit") Sample.noon
                (store (snd (Demo.register (Some "Carol") (Some "carol@example.org")
                                           (Some "rabbit") "salt" Demo.state))) =
     mkResponse 200 (Token "s3cret.3.2000.5600").
Proof.
  split; [reflexivity|].
  refine (eq_trans
            (proj1 (registered_user_can_log_in
               Sample.encode Sample.secret Demo.bcrypt_hash Sample.bcrypt_compare
               (Some "Carol") (Some "carol@example.org") (Some "rabbit") "salt"
               Demo.state
               (snd (Demo.register (Some "Carol") (Some "carol@example.org")
                                   (Some "rabbit") "salt" Demo.state))
               (Users.mk 3 (Some "Carol") (Some "carol@example.org")
                         "$2b$10$rabbit")
               Sample.noon eq_refl _) _) _).
  - intros pw H. injection H as <-. reflexivity.
  - discriminate.
  - reflexivity.
Defined.

(** Alice creates a task. *)
Lemma created_task_is_listed_witness :
  Demo.post Sample.alice (Some "Plan trip") None (Some "Low")
            (Some "1970-01-01 00:15:00+00") Sample.noon Sample.store =
    (mkResponse 200
       (TaskRow (Tasks.mk 4 1 (Some "Plan trip") None (Some "Low") "Pending"
                          (Some 900) 100 100)),
     snd (Demo.post Sample.alice (Some "Plan trip") None (Some "Low")
                    (Some "1970-01-01 00:15:00+00") Sample.noon Sample.store))
  /\ rows_of (Sample.get Sample.alice None None None
                         (snd (Demo.post Sample.alice (Some "Plan trip") None
                                         (Some "Low")
                                         (Some "1970-01-01 00:15:00+00")
                                         Sample.noon Sample.store))) =
     [Sample.report; Sample.groceries;
      Tasks.mk 4 1 (Some "Plan trip") None (Some "Low") "Pending" (Some 900)
               100 100].
Proof.
  split; [reflexivity|].
  pose proof (created_task_is_listed
                Sample.fold Sample.int4in Sample.timestamptz_in Sample.alice
                (Some "Plan trip") None (Some "Low")
                (Some "1970-01-01 00:15:00+00")
                Sample.noon Sample.store
                (snd (Demo.post Sample.alice (Some "Plan trip") None (Some "Low")
                                (Some "1970-01-01 00:15:00+00") Sample.noon
                                Sample.store))
                (Tasks.mk 4 1 (Some "Plan trip") None (Some "Low") "Pending"
                          (Some 900) 100 100)
                eq_refl) as H.
  destruct H as [_ [_ [_ [_ [_ [_ [_ [_ [_ [_ H]]]]]]]]]].
  exact (eq_trans H eq_refl).
Defined.

(** A deadline that is no timestamp, and a principal that is no user. *)
Lemma task_creation_failures_witness :
  Sample.timestamptz_in "tomorrow" = None
  /\ Demo.post Sample.alice (Some "Plan trip") None None (Some "tomorrow")
               Sample.noon Sample.store =
     (mkResponse 500 (ErrorOf (DbError (InvalidTimestamp "tomorrow"))),
      Sample.store)
  /\ code (fst (Demo.post (Claims.mk 9 1000 4600) (Some "Plan trip") None None
                          None Sample.noon Sample.store)) = 500%nat.
Proof.
  split; [reflexivity|]. split.
  - destruct (proj1 (proj2 (proj2 (task_creation_failures
                Sample.timestamptz_in Sample.alice (Some "Plan trip") None None
                (Some "tomorrow") Sample.noon Sample.store)))
              "tomorrow" eq_refl eq_refl) as [_ Hsame].
    unfold Demo.post. rewrite <- Hsame at 2. reflexivity.
  - apply (proj1 (proj2 (proj2 (proj2 (task_creation_failures
             Sample.timestamptz_in (Claims.mk 9 1000 4600) (Some "Plan trip")
             None None None Sample.noon Sample.store))))).
    simpl. intros u [<-|[<-|[]]]; discriminate.
Defined.

(** Alice searches with a percent sign: the answer is 200 and what she
    gets is hers.  A status that holds the character U+0000 is answered
    500. *)
Lemma listing_never_leaks_witness :
  code (Sample.get Sample.alice None None (Some "%") Sample.store) = 200%nat
  /\ code (Sample.get Sample.alice (Some (String Ascii.zero "")) None None
                      Sample.store) = 500%nat
  /\ In Sample.report (rows_of (Sample.get Sample.alice None None (Some "%")
                                           Sample.store))
  /\ In Sample.report (tasks Sample.store)
  /\ Tasks.user_id Sample.report = Claims.user_id Sample.alice.
Proof.
  assert (Hin : In Sample.report
                   (rows_of (Sample.get Sample.alice None None (Some "%")
                                        Sample.store)))
    by (left; reflexivity).
  split; [|split; [|split; [exact Hin|]]].
  - exact (eq_trans
             (proj1 (listing_never_leaks Sample.fold Sample.int4in
                       Sample.timestamptz_in Sample.alice None None (Some "%")
                       Sample.store)) eq_refl).
  - exact (eq_trans
             (proj1 (listing_never_leaks Sample.fold Sample.int4in
                       Sample.timestamptz_in Sample.alice
                       (Some (String Ascii.zero "")) None None Sample.store))
             eq_refl).
  - apply (proj2 (listing_never_leaks Sample.fold Sample.int4in
                    Sample.timestamptz_in
                    Sample.alice None None (Some "%") Sample.store)
                 Sample.report Hin).
Defined.

(** REPORT and report. *)
Lemma search_ignores_case_witness :
  Like.lower "REPORT" = Like.lower "report"
  /\ Sample.get Sample.alice None None (Some "REPORT") Sample.store =
     Sample.get Sample.alice None None (Some "report") Sample.store.
Proof.
  split; [reflexivity|].
  apply (search_ignores_case Sample.fold Sample.int4in Sample.timestamptz_in
           Sample.alice None None "REPORT" "report" Sample.store eq_refl).
Defined.

Lemma sample_store_clean : clean Sample.store.
Proof.
  intros t Hin. simpl in Hin.
  destruct Hin as [<-|[<-|[<-|[]]]];
    repeat split; intros s H; try discriminate H;
    injection H as <-; reflexivity.
Qed.

(** Alice's pending tasks of high priority are her tasks of high
    priority that are pending. *)
Lemma filters_compose_witness :
  clean Sample.store
  /\ rows_of (Sample.get Sample.alice (Some "Pending") (Some "High") None
                         Sample.store) =
     filter (has_status (Some "Pending"))
            (rows_of (Sample.get Sample.alice None (Some "High") None
                                 Sample.store)).
Proof.
  split; [exact sample_store_clean|].
  apply (proj1 (filters_compose Sample.fold Sample.int4in Sample.timestamptz_in
                  Sample.alice (Some "Pending") (Some "High") None Sample.store
                  sample_store_clean)).
Defined.

(** Alice retitles and completes her task 1 and moves its deadline. *)
Lemma update_stores_supplied_fields_witness :
  Sample.int4in "1" = Some 1
  /\ Sample.timestamptz_in "1970-01-01 00:11:40+00" = Some 700
  /\ In Sample.report (tasks Sample.store)
  /\ exists r',
      Sample.put Sample.alice "1" (Some "Final report") None None
                 (Some "Completed") (Some "1970-01-01 00:11:40+00")
                 Sample.noon Sample.store =
        (mkResponse 200 (TaskRow r'),
         snd (Sample.put Sample.alice "1" (Some "Final report") None None
                         (Some "Completed") (Some "1970-01-01 00:11:40+00")
                         Sample.noon Sample.store))
      /\ Tasks.title r' = Some "Final report"
      /\ Tasks.status r' = "Completed"
      /\ Tasks.deadline r' = Some 700.
Proof.
  split; [reflexivity|]. split; [reflexivity|]. split; [left; reflexivity|].
  assert (Hkey : forall r', In r' (tasks Sample.store) ->
                            Tasks.task_id r' = 1 -> r' = Sample.report).
  { simpl. intros r' [<-|[<-|[<-|[]]]] H; solve [reflexivity | discriminate H]. }
  destruct (update_stores_supplied_fields
              Sample.int4in Sample.timestamptz_in Sample.alice "1"
              (Some "Final report") None None (Some "Completed")
              (Some "1970-01-01 00:11:40+00")
              Sample.noon Sample.store 1 Sample.report eq_refl
              ltac:(repeat constructor; intros s H; try discriminate H;
                    injection H as <-; reflexivity)
              ltac:(intros s H; injection H as <-; discriminate)
              (or_introl eq_refl) eq_refl eq_refl Hkey)
    as [r' [Hput [_ [Ht [_ [_ [Hs Hd]]]]]]].
  exists r'. split; [exact Hput|]. split; [|split].
  - apply Ht. reflexivity.
  - apply Hs. reflexivity.
  - apply (Hd "1970-01-01 00:11:40+00"); reflexivity.
Defined.

(** Alice sends an update without a description for the groceries: the
    description stays. *)
Lemma update_cannot_clear_a_field_witness :
  In Sample.groceries (tasks Sample.store)
  /\ Tasks.description Sample.groceries <> None
  /\ exists r',
      In r' (tasks (snd (Sample.put Sample.alice "2" None None None None None
                                    Sample.noon Sample.store)))
      /\ Tasks.task_id r' = 2
      /\ Tasks.description r' <> None.
Proof.
  split; [right; left; reflexivity|]. split; [discriminate|].
  destruct (update_cannot_clear_a_field
              Sample.int4in Sample.timestamptz_in Sample.alice "2"
              None None None None None Sample.noon Sample.store
              Sample.groceries (or_intror (or_introl eq_refl)))
    as [r' [Hin [Hid [_ [_ [_ [Hd _]]]]]]].
  exists r'. split; [exact Hin|]. split; [exact Hid|].
  apply Hd. discriminate.
Defined.

(** Alice deletes her task 1, twice. *)
Lemma delete_removes_the_match_witness :
  Sample.int4in "1" = Some 1
  /\ fst (Sample.del Sample.alice "1" Sample.store) =
     mkResponse 200 (Message "Task deleted successfully")
  /\ Sample.del Sample.alice "1" (snd (Sample.del Sample.alice "1" Sample.store)) =
     (mkResponse 404 (Error "Task not found"),
      snd (Sample.del Sample.alice "1" Sample.store)).
Proof.
  split; [reflexivity|].
  destruct (delete_removes_the_match Sample.int4in Sample.alice "1" Sample.store 1
                                     eq_refl)
    as [Hok [_ [_ Hagain]]].
  split; [|exact Hagain].
  apply Hok. exists Sample.report.
  split; [left; reflexivity|]. split; reflexivity.
Defined.

(** Bob, with his token, asks to delete task 1 and to forge an update;
    Alice's listing is as before. *)
Lemma other_requests_spare_a_users_tasks_witness :
  Sample.gate (Some "Bearer s3cret.2.1000.4600") 2000 = Next Sample.bob
  /\ Sample.get Sample.alice None None None
                (snd (Sample.run (mkRequest (Some "Bearer s3cret.2.1000.4600")
                                            (DeleteTask "1"))
                                 Sample.noon Sample.store)) =
     Sample.get Sample.alice None None None Sample.store.
Proof.
  split; [reflexivity|].
  apply (proj1 (proj2 (other_requests_spare_a_users_tasks
           Sample.fold Sample.encode Sample.decode Sample.secret Sample.bcrypt_compare
           Sample.int4in Sample.timestamptz_in
           (mkRequest (Some "Bearer s3cret.2.1000.4600") (DeleteTask "1"))
           Sample.noon Sample.store 1
           ltac:(intros c H; injection H as <-; discriminate)))
         Sample.alice None None None eq_refl).
Defined.

(** A delete request adds no user. *)
Lemma users_are_only_added_witness :
  users (store (snd (Demo.serve
                       (Request (mkRequest (Some "Bearer s3cret.1.1000.4600")
                                           (DeleteTask "1")))
                       Sample.noon Demo.state))) =
  users (store Demo.state).
Proof.
  destruct (users_are_only_added
              Sample.fold Sample.encode Sample.decode Sample.secret Demo.bcrypt_hash
              Sample.bcrypt_compare Sample.int4in Sample.timestamptz_in
              (Request (mkRequest (Some "Bearer s3cret.1.1000.4600")
                                  (DeleteTask "1")))
              Sample.noon Demo.state)
    as [added [Husers [_ Hnone]]].
  rewrite (Hnone _ eq_refl) in Husers.
  exact (eq_trans Husers (List.app_nil_r _)).
Defined.
